(** * MindGraph ESP32 firmware: screen coordination, boot sequence and I2C bus

    A shallow embedding of [esp32/firmware/main]:
    - [launcher.cpp], [standby_screen.cpp], [loading_screen.cpp]: the three
      full-screen contexts with their file-level [static] variables;
    - [main.cpp]: the button callbacks, the launch callback and [main_task];
    - [i2c_bus_manager.cpp]: the lazily created bus singleton.

    The file-level variables of all translation units form one [state]
    record.  Every C function is a computation in the monad [M], which
    threads that state and appends to a trace of [event]s: the calls into
    LVGL, the BSP and the other managers, and the writes of the visibility
    flags.  Calls that only style, align or log (fonts, colours, wallpaper,
    [ESP_LOGx]) leave the modelled state alone and are not recorded. *)

From stdpp Require Import gmap strings list.
From Stdlib Require Import ZArith Lia Sorted.

Open Scope Z_scope.

(** ** Data *)

(** [lv_obj_t*]: a non-null pointer is [Some o], [nullptr] is [None]. *)
Definition obj := nat.

(** The screens that own a visibility flag. *)
Inductive Screen := Standby | Loading | Launcher.

(** [enum AppType] of launcher.h. *)
Inductive AppType := APP_SMART_RESPONSE | APP_DIFY_XIAOZHI.

(** The function-pointer type [AppLaunchCallback] of launcher.h: the
    functions of the firmware whose address is ever stored in it. *)
Inductive AppLaunchCallback := main_app_launch_callback.

(** The LVGL event codes the handlers compare against. *)
Inductive lv_event_code_t := LV_EVENT_PRESSED | LV_EVENT_CLICKED | LV_EVENT_OTHER.

(** [lv_event_t]: its code and its target object. *)
Record lv_event_t := { ev_code : lv_event_code_t; ev_target : option obj }.

Inductive lv_kind := LvObj | LvLabel | LvBtn | LvSpinner | LvBar | LvIcon.

Inductive IconType :=
  ICON_MICROPHONE | ICON_SETTINGS
| ICON_BATTERY_FULL | ICON_BATTERY_MEDIUM | ICON_BATTERY_LOW | ICON_BATTERY_CHARGING
| ICON_WIFI_CONNECTED | ICON_WIFI_DISCONNECTED.

(** What [lv_label_set_text] is given: a literal, or the result of
    [snprintf("%d%%", battery_level)]. *)
Inductive label_content := Lit (s : string) | Percent (level : Z).

(** Subsystem entry points of other translation units that [main_task]
    calls for their effect only. *)
Inductive extern :=
  font_manager_init | buttonHandler_init | buttonHandler_setPWRCallback
| buttonHandler_setBOOTCallback | rtcManager_init | motionSensor_init
| sdStorage_init | audio_init | config_init | wifi_init.

Inductive event :=
| EvLock                                   (* bsp_display_lock(0) *)
| EvUnlock                                 (* bsp_display_unlock() *)
| EvCreate (k : lv_kind) (parent result : option obj) (* lv_*_create, icon_create *)
| EvScreenLoad (scr : option obj)          (* lv_screen_load *)
| EvVisible (scr : Screen) (b : bool)      (* X_visible = b *)
| EvLabelText (lbl : option obj) (txt : label_content)
| EvIconType (icon : option obj) (t : IconType)
| EvBarSet (bar : option obj) (v : Z)      (* lv_bar_set_value *)
| EvAppShow (a : AppType)                  (* smart_response_app_show / dify_app_show *)
| EvCall (f : extern)
| EvDelay (ms : Z)                         (* vTaskDelay(pdMS_TO_TICKS(ms)) *)
| EvWifiConnect (ssid password : string) (ok : bool)
| EvConfigSave (key value : string)
| EvSoftAP.                                (* wifi_start_softap() *)

(** ** State *)

(** The part of LVGL the firmware observes.  [lv_mem] is the number of
    objects the LVGL heap can still hold: a [lv_*_create] call with
    [lv_mem = 0] returns [nullptr]. *)
Record lvgl := {
  lv_display_default : bool;        (* lv_display_get_default() != nullptr *)
  lv_mem : nat;
  lv_next : obj;                    (* next fresh object *)
  lv_act_scr : option obj;          (* the screen given to lv_screen_load last *)
  lv_bar_value : gmap obj Z;        (* value of each bar *)
  lv_user_data : gmap obj AppType   (* lv_obj_set_user_data *)
}.

(** What the firmware reads from its surroundings. *)
Record environment := {
  esp_timer_us : Z;                         (* esp_timer_get_time() *)
  rtc_time_string : string;                 (* rtcManager.getTimeString() *)
  rtc_date_string : string;                 (* rtcManager.getDateString() *)
  battery_level : Z;                        (* batteryManager.getBatteryLevel() *)
  battery_charging : bool;                  (* batteryManager.isCharging() *)
  wifi_is_connected : bool;
  websocket_is_connected : bool;
  wifi_accepts : string -> string -> bool   (* outcome of wifi_connect(ssid, password) *)
}.

(** launcher.cpp *)
Record launcher_vars := {
  launcher_screen : option obj;
  app_smart_response : option obj;
  app_dify : option obj;
  s_app_launch_callback : option AppLaunchCallback;  (* static app_launch_callback *)
  launcher_visible : bool
}.

(** standby_screen.cpp *)
Record standby_vars := {
  standby_screen : option obj;
  time_label : option obj;
  date_label : option obj;
  battery_label : option obj;
  battery_icon : option obj;
  wifi_icon : option obj;
  status_label : option obj;
  standby_visible : bool;
  last_update : Z
}.

(** loading_screen.cpp *)
Record loading_vars := {
  loading_screen : option obj;
  logo_label : option obj;
  message_label : option obj;
  spinner : option obj;
  progress_bar : option obj;
  loading_visible : bool;
  spinner_angle : Z;                (* uint32_t *)
  last_spinner_update : Z
}.

Record state := {
  st_lv : lvgl;
  st_env : environment;
  st_launcher : launcher_vars;
  st_standby : standby_vars;
  st_loading : loading_vars;
  st_config : gmap string string;   (* the persisted key/value configuration *)
  system_initialized : bool         (* main.cpp *)
}.

(** The static initialisers: every pointer null, every flag false. *)
Definition launcher_vars0 : launcher_vars :=
  {| launcher_screen := None; app_smart_response := None; app_dify := None;
     s_app_launch_callback := None; launcher_visible := false |}.

Definition standby_vars0 : standby_vars :=
  {| standby_screen := None; time_label := None; date_label := None;
     battery_label := None; battery_icon := None; wifi_icon := None;
     status_label := None; standby_visible := false; last_update := 0 |}.

Definition loading_vars0 : loading_vars :=
  {| loading_screen := None; logo_label := None; message_label := None;
     spinner := None; progress_bar := None; loading_visible := false;
     spinner_angle := 0; last_spinner_update := 0 |}.

Definition lvgl0 (display : bool) (mem : nat) : lvgl :=
  {| lv_display_default := display; lv_mem := mem; lv_next := 1%nat;
     lv_act_scr := None; lv_bar_value := ∅; lv_user_data := ∅ |}.

(** The state at reset, in a given environment, with a given display
    availability, heap size and persisted configuration. *)
Definition initial_state (e : environment) (display : bool) (mem : nat)
    (cfg : gmap string string) : state :=
  {| st_lv := lvgl0 display mem; st_env := e;
     st_launcher := launcher_vars0; st_standby := standby_vars0;
     st_loading := loading_vars0; st_config := cfg;
     system_initialized := false |}.

(** ** The monad: state and trace *)

Record res (A : Type) := Res { val : A; post : state; evs : list event }.
Arguments Res {A} _ _ _.
Arguments val {A} _.
Arguments post {A} _.
Arguments evs {A} _.

Definition M (A : Type) : Type := state -> res A.

Definition ret {A} (a : A) : M A := fun s => Res a s [].

Definition bind {A B} (m : M A) (k : A -> M B) : M B :=
  fun s => let r1 := m s in
           let r2 := k (val r1) (post r1) in
           Res (val r2) (post r2) (evs r1 ++ evs r2).

Notation "x <- c1 ;; c2" := (bind c1 (fun x => c2))
  (at level 100, c1 at next level, right associativity).
Notation "c1 ;; c2" := (bind c1 (fun _ => c2))
  (at level 100, right associativity).

Definition gets {A} (f : state -> A) : M A := fun s => Res (f s) s [].
Definition modify (f : state -> state) : M unit := fun s => Res tt (f s) [].
Definition emit (e : event) : M unit := fun s => Res tt s [e].

(** A statement guarded by [if (c) { ... }] with no [else]. *)
Definition when (c : bool) (m : M unit) : M unit := if c then m else ret tt.

Definition exec {A} (m : M A) (s : state) : state := post (m s).
Definition trace {A} (m : M A) (s : state) : list event := evs (m s).

Definition is_null {A} (p : option A) : bool :=
  match p with None => true | Some _ => false end.

(** ** Assignments to the variables *)

Definition with_lv (f : lvgl -> lvgl) (s : state) : state :=
  {| st_lv := f (st_lv s); st_env := st_env s; st_launcher := st_launcher s;
     st_standby := st_standby s; st_loading := st_loading s;
     st_config := st_config s; system_initialized := system_initialized s |}.

Definition with_launcher (f : launcher_vars -> launcher_vars) (s : state) : state :=
  {| st_lv := st_lv s; st_env := st_env s; st_launcher := f (st_launcher s);
     st_standby := st_standby s; st_loading := st_loading s;
     st_config := st_config s; system_initialized := system_initialized s |}.

Definition with_standby (f : standby_vars -> standby_vars) (s : state) : state :=
  {| st_lv := st_lv s; st_env := st_env s; st_launcher := st_launcher s;
     st_standby := f (st_standby s); st_loading := st_loading s;
     st_config := st_config s; system_initialized := system_initialized s |}.

Definition with_loading (f : loading_vars -> loading_vars) (s : state) : state :=
  {| st_lv := st_lv s; st_env := st_env s; st_launcher := st_launcher s;
     st_standby := st_standby s; st_loading := f (st_loading s);
     st_config := st_config s; system_initialized := system_initialized s |}.

Definition with_config (f : gmap string string -> gmap string string) (s : state) : state :=
  {| st_lv := st_lv s; st_env := st_env s; st_launcher := st_launcher s;
     st_standby := st_standby s; st_loading := st_loading s;
     st_config := f (st_config s); system_initialized := system_initialized s |}.

(** A change of the surroundings between two calls. *)
Definition with_env (e : environment) (s : state) : state :=
  {| st_lv := st_lv s; st_env := e; st_launcher := st_launcher s;
     st_standby := st_standby s; st_loading := st_loading s;
     st_config := st_config s; system_initialized := system_initialized s |}.

Definition set_system_initialized (b : bool) (s : state) : state :=
  {| st_lv := st_lv s; st_env := st_env s; st_launcher := st_launcher s;
     st_standby := st_standby s; st_loading := st_loading s;
     st_config := st_config s; system_initialized := b |}.

Definition set_launcher_screen (v : option obj) (l : launcher_vars) :=
  {| launcher_screen := v; app_smart_response := app_smart_response l;
     app_dify := app_dify l; s_app_launch_callback := s_app_launch_callback l;
     launcher_visible := launcher_visible l |}.
Definition set_app_smart_response (v : option obj) (l : launcher_vars) :=
  {| launcher_screen := launcher_screen l; app_smart_response := v;
     app_dify := app_dify l; s_app_launch_callback := s_app_launch_callback l;
     launcher_visible := launcher_visible l |}.
Definition set_app_dify (v : option obj) (l : launcher_vars) :=
  {| launcher_screen := launcher_screen l; app_smart_response := app_smart_response l;
     app_dify := v; s_app_launch_callback := s_app_launch_callback l;
     launcher_visible := launcher_visible l |}.
Definition set_s_app_launch_callback (v : option AppLaunchCallback) (l : launcher_vars) :=
  {| launcher_screen := launcher_screen l; app_smart_response := app_smart_response l;
     app_dify := app_dify l; s_app_launch_callback := v;
     launcher_visible := launcher_visible l |}.
Definition set_launcher_visible (v : bool) (l : launcher_vars) :=
  {| launcher_screen := launcher_screen l; app_smart_response := app_smart_response l;
     app_dify := app_dify l; s_app_launch_callback := s_app_launch_callback l;
     launcher_visible := v |}.

Definition set_standby_screen (v : option obj) (b : standby_vars) :=
  {| standby_screen := v; time_label := time_label b; date_label := date_label b;
     battery_label := battery_label b; battery_icon := battery_icon b;
     wifi_icon := wifi_icon b; status_label := status_label b;
     standby_visible := standby_visible b; last_update := last_update b |}.
Definition set_time_label (v : option obj) (b : standby_vars) :=
  {| standby_screen := standby_screen b; time_label := v; date_label := date_label b;
     battery_label := battery_label b; battery_icon := battery_icon b;
     wifi_icon := wifi_icon b; status_label := status_label b;
     standby_visible := standby_visible b; last_update := last_update b |}.
Definition set_date_label (v : option obj) (b : standby_vars) :=
  {| standby_screen := standby_screen b; time_label := time_label b; date_label := v;
     battery_label := battery_label b; battery_icon := battery_icon b;
     wifi_icon := wifi_icon b; status_label := status_label b;
     standby_visible := standby_visible b; last_update := last_update b |}.
Definition set_battery_label (v : option obj) (b : standby_vars) :=
  {| standby_screen := standby_screen b; time_label := time_label b;
     date_label := date_label b; battery_label := v; battery_icon := battery_icon b;
     wifi_icon := wifi_icon b; status_label := status_label b;
     standby_visible := standby_visible b; last_update := last_update b |}.
Definition set_battery_icon (v : option obj) (b : standby_vars) :=
  {| standby_screen := standby_screen b; time_label := time_label b;
     date_label := date_label b; battery_label := battery_label b; battery_icon := v;
     wifi_icon := wifi_icon b; status_label := status_label b;
     standby_visible := standby_visible b; last_update := last_update b |}.
Definition set_wifi_icon (v : option obj) (b : standby_vars) :=
  {| standby_screen := standby_screen b; time_label := time_label b;
     date_label := date_label b; battery_label := battery_label b;
     battery_icon := battery_icon b; wifi_icon := v; status_label := status_label b;
     standby_visible := standby_visible b; last_update := last_update b |}.
Definition set_status_label (v : option obj) (b : standby_vars) :=
  {| standby_screen := standby_screen b; time_label := time_label b;
     date_label := date_label b; battery_label := battery_label b;
     battery_icon := battery_icon b; wifi_icon := wifi_icon b; status_label := v;
     standby_visible := standby_visible b; last_update := last_update b |}.
Definition set_standby_visible (v : bool) (b : standby_vars) :=
  {| standby_screen := standby_screen b; time_label := time_label b;
     date_label := date_label b; battery_label := battery_label b;
     battery_icon := battery_icon b; wifi_icon := wifi_icon b;
     status_label := status_label b; standby_visible := v;
     last_update := last_update b |}.
Definition set_last_update (v : Z) (b : standby_vars) :=
  {| standby_screen := standby_screen b; time_label := time_label b;
     date_label := date_label b; battery_label := battery_label b;
     battery_icon := battery_icon b; wifi_icon := wifi_icon b;
     status_label := status_label b; standby_visible := standby_visible b;
     last_update := v |}.

Definition set_loading_screen (v : option obj) (l : loading_vars) :=
  {| loading_screen := v; logo_label := logo_label l; message_label := message_label l;
     spinner := spinner l; progress_bar := progress_bar l;
     loading_visible := loading_visible l; spinner_angle := spinner_angle l;
     last_spinner_update := last_spinner_update l |}.
Definition set_logo_label (v : option obj) (l : loading_vars) :=
  {| loading_screen := loading_screen l; logo_label := v;
     message_label := message_label l; spinner := spinner l;
     progress_bar := progress_bar l; loading_visible := loading_visible l;
     spinner_angle := spinner_angle l; last_spinner_update := last_spinner_update l |}.
Definition set_message_label (v : option obj) (l : loading_vars) :=
  {| loading_screen := loading_screen l; logo_label := logo_label l;
     message_label := v; spinner := spinner l; progress_bar := progress_bar l;
     loading_visible := loading_visible l; spinner_angle := spinner_angle l;
     last_spinner_update := last_spinner_update l |}.
Definition set_spinner (v : option obj) (l : loading_vars) :=
  {| loading_screen := loading_screen l; logo_label := logo_label l;
     message_label := message_label l; spinner := v; progress_bar := progress_bar l;
     loading_visible := loading_visible l; spinner_angle := spinner_angle l;
     last_spinner_update := last_spinner_update l |}.
Definition set_progress_bar (v : option obj) (l : loading_vars) :=
  {| loading_screen := loading_screen l; logo_label := logo_label l;
     message_label := message_label l; spinner := spinner l; progress_bar := v;
     loading_visible := loading_visible l; spinner_angle := spinner_angle l;
     last_spinner_update := last_spinner_update l |}.
Definition set_loading_visible (v : bool) (l : loading_vars) :=
  {| loading_screen := loading_screen l; logo_label := logo_label l;
     message_label := message_label l; spinner := spinner l;
     progress_bar := progress_bar l; loading_visible := v;
     spinner_angle := spinner_angle l; last_spinner_update := last_spinner_update l |}.
Definition set_spinner_angle (v : Z) (l : loading_vars) :=
  {| loading_screen := loading_screen l; logo_label := logo_label l;
     message_label := message_label l; spinner := spinner l;
     progress_bar := progress_bar l; loading_visible := loading_visible l;
     spinner_angle := v; last_spinner_update := last_spinner_update l |}.
Definition set_last_spinner_update (v : Z) (l : loading_vars) :=
  {| loading_screen := loading_screen l; logo_label := logo_label l;
     message_label := message_label l; spinner := spinner l;
     progress_bar := progress_bar l; loading_visible := loading_visible l;
     spinner_angle := spinner_angle l; last_spinner_update := v |}.

(** The three visibility flags, read through one name. *)
Definition visible (x : Screen) (s : state) : bool :=
  match x with
  | Standby => standby_visible (st_standby s)
  | Loading => loading_visible (st_loading s)
  | Launcher => launcher_visible (st_launcher s)
  end.

(** ** LVGL, BSP and timer *)

Definition bsp_display_lock : M unit := emit EvLock.
Definition bsp_display_unlock : M unit := emit EvUnlock.

Definition lv_display_get_default : M bool := gets (fun s => lv_display_default (st_lv s)).

(** Microseconds since boot. *)
Definition esp_timer_get_time : M Z := gets (fun s => esp_timer_us (st_env s)).

(** Allocation of one LVGL object of kind [k] under [parent]. *)
Definition lv_create (k : lv_kind) (parent : option obj) : M (option obj) :=
  fun s =>
    match lv_mem (st_lv s) with
    | O => Res None s [EvCreate k parent None]
    | S n =>
        let o := lv_next (st_lv s) in
        Res (Some o)
            (with_lv (fun l => {| lv_display_default := lv_display_default l;
                                  lv_mem := n; lv_next := S o;
                                  lv_act_scr := lv_act_scr l;
                                  lv_bar_value := lv_bar_value l;
                                  lv_user_data := lv_user_data l |}) s)
            [EvCreate k parent (Some o)]
    end.

Definition lv_obj_create := lv_create LvObj.
Definition lv_label_create := lv_create LvLabel.
Definition lv_btn_create := lv_create LvBtn.
Definition lv_spinner_create := lv_create LvSpinner.
Definition lv_bar_create := lv_create LvBar.

(** [icon_create] of the ui_icons module returns a new object showing the
    icon. *)
Definition icon_create (parent : option obj) (t : IconType) : M (option obj) :=
  icon <- lv_create LvIcon parent ;;
  emit (EvIconType icon t) ;;
  ret icon.

Definition icon_set_type (icon : option obj) (t : IconType) : M unit :=
  emit (EvIconType icon t).

(** [lv_screen_load]: the argument becomes the active screen.  A null
    argument is recorded as it is. *)
Definition lv_screen_load (scr : option obj) : M unit :=
  modify (with_lv (fun l => {| lv_display_default := lv_display_default l;
                               lv_mem := lv_mem l; lv_next := lv_next l;
                               lv_act_scr := scr;
                               lv_bar_value := lv_bar_value l;
                               lv_user_data := lv_user_data l |})) ;;
  emit (EvScreenLoad scr).

Definition lv_label_set_text (lbl : option obj) (txt : label_content) : M unit :=
  emit (EvLabelText lbl txt).

(** [lv_bar_set_value]: the bar stores the value it is given. *)
Definition lv_bar_set_value (bar : option obj) (v : Z) : M unit :=
  modify (with_lv (fun l => {| lv_display_default := lv_display_default l;
                               lv_mem := lv_mem l; lv_next := lv_next l;
                               lv_act_scr := lv_act_scr l;
                               lv_bar_value :=
                                 match bar with
                                 | Some b => <[b := v]> (lv_bar_value l)
                                 | None => lv_bar_value l
                                 end;
                               lv_user_data := lv_user_data l |})) ;;
  emit (EvBarSet bar v).

Definition lv_obj_set_user_data (o : option obj) (a : AppType) : M unit :=
  modify (with_lv (fun l => {| lv_display_default := lv_display_default l;
                               lv_mem := lv_mem l; lv_next := lv_next l;
                               lv_act_scr := lv_act_scr l;
                               lv_bar_value := lv_bar_value l;
                               lv_user_data :=
                                 match o with
                                 | Some b => <[b := a]> (lv_user_data l)
                                 | None => lv_user_data l
                                 end |})).

(** [(AppType)(intptr_t)lv_obj_get_user_data(btn)]: an object without user
    data yields the null pointer, which the cast turns into enumerator 0. *)
Definition lv_obj_get_user_data (o : option obj) : M AppType :=
  gets (fun s => match o with
                 | Some b => default APP_SMART_RESPONSE (lv_user_data (st_lv s) !! b)
                 | None => APP_SMART_RESPONSE
                 end).

(** The value a bar holds, if it ever got one. *)
Definition bar_value (bar : option obj) (s : state) : option Z :=
  match bar with
  | Some b => lv_bar_value (st_lv s) !! b
  | None => None
  end.

(** An assignment to one of the visibility flags. *)
Definition set_visible (x : Screen) (b : bool) : M unit :=
  modify (match x with
          | Standby => with_standby (set_standby_visible b)
          | Loading => with_loading (set_loading_visible b)
          | Launcher => with_launcher (set_launcher_visible b)
          end) ;;
  emit (EvVisible x b).

(** ** standby_screen.cpp *)

Definition standby_screen_update : M unit :=
  vis <- gets (fun s => standby_visible (st_standby s)) ;;
  scr <- gets (fun s => standby_screen (st_standby s)) ;;
  if negb vis || is_null scr then ret tt else
  now <- esp_timer_get_time ;;
  let current_time := Z.quot now 1000 in
  last <- gets (fun s => last_update (st_standby s)) ;;
  if current_time - last <? 1000 then ret tt else
  modify (with_standby (set_last_update current_time)) ;;
  bsp_display_lock ;;
  tl <- gets (fun s => time_label (st_standby s)) ;;
  when (negb (is_null tl))
    (time_str <- gets (fun s => rtc_time_string (st_env s)) ;;
     lv_label_set_text tl (Lit time_str)) ;;
  dl <- gets (fun s => date_label (st_standby s)) ;;
  when (negb (is_null dl))
    (date_str <- gets (fun s => rtc_date_string (st_env s)) ;;
     lv_label_set_text dl (Lit date_str)) ;;
  bl <- gets (fun s => battery_label (st_standby s)) ;;
  when (negb (is_null bl))
    (level <- gets (fun s => battery_level (st_env s)) ;;
     charging <- gets (fun s => battery_charging (st_env s)) ;;
     lv_label_set_text bl (Percent level) ;;
     bi <- gets (fun s => battery_icon (st_standby s)) ;;
     if charging then icon_set_type bi ICON_BATTERY_CHARGING
     else if level >? 50 then icon_set_type bi ICON_BATTERY_FULL
     else if level >? 20 then icon_set_type bi ICON_BATTERY_MEDIUM
     else icon_set_type bi ICON_BATTERY_LOW) ;;
  wi <- gets (fun s => wifi_icon (st_standby s)) ;;
  when (negb (is_null wi))
    (wifi <- gets (fun s => wifi_is_connected (st_env s)) ;;
     if wifi then icon_set_type wi ICON_WIFI_CONNECTED
     else icon_set_type wi ICON_WIFI_DISCONNECTED) ;;
  sl <- gets (fun s => status_label (st_standby s)) ;;
  when (negb (is_null sl))
    (ws <- gets (fun s => websocket_is_connected (st_env s)) ;;
     wifi <- gets (fun s => wifi_is_connected (st_env s)) ;;
     if ws then lv_label_set_text sl (Lit "已连接")
     else if wifi then lv_label_set_text sl (Lit "连接中...")
     else lv_label_set_text sl (Lit "离线")) ;;
  bsp_display_unlock.

Definition standby_screen_init : M unit :=
  scr <- gets (fun s => standby_screen (st_standby s)) ;;
  if negb (is_null scr) then ret tt else
  bsp_display_lock ;;
  o <- lv_obj_create None ;;
  modify (with_standby (set_standby_screen o)) ;;
  l1 <- lv_label_create o ;;
  modify (with_standby (set_time_label l1)) ;;
  lv_label_set_text l1 (Lit "00:00:00") ;;
  l2 <- lv_label_create o ;;
  modify (with_standby (set_date_label l2)) ;;
  lv_label_set_text l2 (Lit "2026-02-03") ;;
  l3 <- lv_label_create o ;;
  modify (with_standby (set_status_label l3)) ;;
  lv_label_set_text l3 (Lit "就绪") ;;
  l4 <- lv_label_create o ;;
  modify (with_standby (set_battery_label l4)) ;;
  lv_label_set_text l4 (Lit "100%") ;;
  i1 <- icon_create o ICON_BATTERY_FULL ;;
  modify (with_standby (set_battery_icon i1)) ;;
  i2 <- icon_create o ICON_WIFI_CONNECTED ;;
  modify (with_standby (set_wifi_icon i2)) ;;
  set_visible Standby false ;;
  bsp_display_unlock.

Definition standby_screen_show : M unit :=
  scr <- gets (fun s => standby_screen (st_standby s)) ;;
  when (is_null scr) standby_screen_init ;;
  bsp_display_lock ;;
  scr' <- gets (fun s => standby_screen (st_standby s)) ;;
  lv_screen_load scr' ;;
  bsp_display_unlock ;;
  set_visible Standby true ;;
  modify (with_standby (set_last_update 0)) ;;
  standby_screen_update.

Definition standby_screen_hide : M unit :=
  set_visible Standby false.

Definition standby_screen_is_visible : M bool :=
  gets (fun s => standby_visible (st_standby s)).

(** ** main.cpp: the launch callback

    [smart_response_app_show] and [dify_app_show] belong to the
    applications; a call is recorded as the event [EvAppShow]. *)

Definition smart_response_app_show : M unit := emit (EvAppShow APP_SMART_RESPONSE).
Definition dify_app_show : M unit := emit (EvAppShow APP_DIFY_XIAOZHI).

(** The [default: break] of the [switch] has no enumerator left to take. *)
Definition app_launch_callback (app_type : AppType) : M unit :=
  match app_type with
  | APP_SMART_RESPONSE => smart_response_app_show
  | APP_DIFY_XIAOZHI => dify_app_show
  end.

(** A call through a pointer of type [AppLaunchCallback]. *)
Definition call_AppLaunchCallback (f : AppLaunchCallback) : AppType -> M unit :=
  match f with
  | main_app_launch_callback => app_launch_callback
  end.

(** ** launcher.cpp *)

Definition create_app_button (parent : option obj) (label : string)
    (icon_type : IconType) (app_type : AppType) (x y : Z) : M (option obj) :=
  btn <- lv_btn_create parent ;;
  lv_obj_set_user_data btn app_type ;;
  label_obj <- lv_label_create btn ;;
  lv_label_set_text label_obj (Lit label) ;;
  _ <- icon_create btn icon_type ;;
  ret btn.

Definition launcher_init : M unit :=
  scr <- gets (fun s => launcher_screen (st_launcher s)) ;;
  if negb (is_null scr) then ret tt else
  bsp_display_lock ;;
  o <- lv_obj_create None ;;
  modify (with_launcher (set_launcher_screen o)) ;;
  title <- lv_label_create o ;;
  lv_label_set_text title (Lit "应用") ;;
  let screen_width := 410 in
  let screen_height := 502 in
  let center_x := Z.quot screen_width 2 in
  let center_y := Z.quot screen_height 2 in
  b1 <- create_app_button o "智回" ICON_MICROPHONE APP_SMART_RESPONSE
          (center_x - 90) (center_y - 80) ;;
  modify (with_launcher (set_app_smart_response b1)) ;;
  b2 <- create_app_button o "MindMate" ICON_SETTINGS APP_DIFY_XIAOZHI
          (center_x - 90) (center_y + 80) ;;
  modify (with_launcher (set_app_dify b2)) ;;
  set_visible Launcher false ;;
  bsp_display_unlock.

Definition launcher_show : M unit :=
  scr <- gets (fun s => launcher_screen (st_launcher s)) ;;
  when (is_null scr) launcher_init ;;
  bsp_display_lock ;;
  scr' <- gets (fun s => launcher_screen (st_launcher s)) ;;
  lv_screen_load scr' ;;
  bsp_display_unlock ;;
  set_visible Launcher true.

Definition launcher_hide : M unit :=
  set_visible Launcher false ;;
  standby_screen_show.

Definition launcher_set_app_launch_callback (callback : option AppLaunchCallback) : M unit :=
  modify (with_launcher (set_s_app_launch_callback callback)).

Definition launcher_is_visible : M bool :=
  gets (fun s => launcher_visible (st_launcher s)).

(** The handler [create_app_button] installs on each application button. *)
Definition app_btn_event_cb (e : lv_event_t) : M unit :=
  match ev_code e with
  | LV_EVENT_CLICKED =>
      app_type <- lv_obj_get_user_data (ev_target e) ;;
      cb <- gets (fun s => s_app_launch_callback (st_launcher s)) ;;
      match cb with
      | Some f => call_AppLaunchCallback f app_type
      | None => ret tt
      end ;;
      launcher_hide
  | _ => ret tt
  end.

(** The handler [standby_screen_init] installs on the Standby screen
    (standby_screen.cpp). *)
Definition standby_touch_event_cb (e : lv_event_t) : M unit :=
  match ev_code e with
  | LV_EVENT_CLICKED | LV_EVENT_PRESSED =>
      standby_screen_hide ;;
      launcher_show
  | _ => ret tt
  end.

(** ** loading_screen.cpp *)

Definition clamp_percent (value : Z) : Z :=
  if value <? 0 then 0
  else if value >? 100 then 100
  else value.

Definition loading_screen_init : M unit :=
  scr <- gets (fun s => loading_screen (st_loading s)) ;;
  if negb (is_null scr) then ret tt else
  disp <- lv_display_get_default ;;
  if negb disp then ret tt else
  bsp_display_lock ;;
  o <- lv_obj_create None ;;
  modify (with_loading (set_loading_screen o)) ;;
  if is_null o then bsp_display_unlock else
  logo <- lv_label_create o ;;
  modify (with_loading (set_logo_label logo)) ;;
  if is_null logo then bsp_display_unlock else
  lv_label_set_text logo (Lit "智回") ;;
  designer_label <- lv_label_create o ;;
  if is_null designer_label then bsp_display_unlock else
  lv_label_set_text designer_label (Lit "Designed by MindSpring") ;;
  sp <- lv_spinner_create o ;;
  modify (with_loading (set_spinner sp)) ;;
  if is_null sp then bsp_display_unlock else
  msg <- lv_label_create o ;;
  modify (with_loading (set_message_label msg)) ;;
  if is_null msg then bsp_display_unlock else
  lv_label_set_text msg (Lit "初始化中...") ;;
  bar <- lv_bar_create o ;;
  modify (with_loading (set_progress_bar bar)) ;;
  if is_null bar then bsp_display_unlock else
  lv_bar_set_value bar 0 ;;
  set_visible Loading false ;;
  bsp_display_unlock.

Definition loading_screen_set_message (message : string) : M unit :=
  lbl <- gets (fun s => message_label (st_loading s)) ;;
  when (negb (is_null lbl))
    (bsp_display_lock ;;
     lv_label_set_text lbl (Lit message) ;;
     bsp_display_unlock).

Definition loading_screen_set_progress (percent : Z) : M unit :=
  bar <- gets (fun s => progress_bar (st_loading s)) ;;
  when (negb (is_null bar))
    (let percent := clamp_percent percent in
     bsp_display_lock ;;
     lv_bar_set_value bar percent ;;
     bsp_display_unlock).

Definition loading_screen_show : M unit :=
  scr <- gets (fun s => loading_screen (st_loading s)) ;;
  when (is_null scr) loading_screen_init ;;
  scr' <- gets (fun s => loading_screen (st_loading s)) ;;
  if is_null scr' then ret tt else
  disp <- lv_display_get_default ;;
  if negb disp then ret tt else
  bsp_display_lock ;;
  lv_screen_load scr' ;;
  set_visible Loading true ;;
  now <- esp_timer_get_time ;;
  modify (with_loading (set_last_spinner_update (Z.quot now 1000))) ;;
  loading_screen_set_message "初始化中..." ;;
  loading_screen_set_progress 0 ;;
  bsp_display_unlock.

Definition loading_screen_hide : M unit :=
  set_visible Loading false.

Definition loading_screen_update : M unit :=
  vis <- gets (fun s => loading_visible (st_loading s)) ;;
  scr <- gets (fun s => loading_screen (st_loading s)) ;;
  if negb vis || is_null scr then ret tt else
  now <- esp_timer_get_time ;;
  let current_time := Z.quot now 1000 in
  last <- gets (fun s => last_spinner_update (st_loading s)) ;;
  when (current_time - last >? 16)
    (modify (with_loading (set_last_spinner_update current_time)) ;;
     angle <- gets (fun s => spinner_angle (st_loading s)) ;;
     let angle := (angle + 5) mod 2 ^ 32 in
     modify (with_loading (set_spinner_angle (if angle >=? 360 then 0 else angle)))).

Definition loading_screen_is_visible : M bool :=
  gets (fun s => loading_visible (st_loading s)).

(** ** main.cpp *)

Definition pwr_button_callback : M unit :=
  sb <- standby_screen_is_visible ;;
  if sb then launcher_show
  else
    la <- launcher_is_visible ;;
    if la then launcher_hide else ret tt.

Definition boot_button_callback : M unit :=
  la <- launcher_is_visible ;;
  if la then launcher_hide
  else
    sb <- standby_screen_is_visible ;;
    if sb then launcher_show else ret tt.

Definition vTaskDelay (ms : Z) : M unit := emit (EvDelay ms).

Definition call (f : extern) : M unit := emit (EvCall f).

(** Modelled from the spec: [config_get] and [config_save] of the
    config_manager, which is not among the sources.  The persisted
    configuration is a store of string key/value pairs; a read of an
    absent key yields the default the caller passes. *)
Definition config_get (key dflt : string) : M string :=
  gets (fun s => default dflt (st_config s !! key)).

(** Modelled from the spec: [config_save] of the config_manager writes
    the pair to the persisted store. *)
Definition config_save (key value : string) : M unit :=
  modify (with_config (fun c => <[key := value]> c)) ;;
  emit (EvConfigSave key value).

(** [wifi_connect] and [wifi_start_softap] of the wifi_manager: the
    outcome of a connection attempt is taken from the environment. *)
Definition wifi_connect (ssid password : string) : M bool :=
  ok <- gets (fun s => wifi_accepts (st_env s) ssid password) ;;
  emit (EvWifiConnect ssid password ok) ;;
  ret ok.

Definition wifi_start_softap : M unit := emit EvSoftAP.

(** The network step of [main_task] (main.cpp lines 185-206). *)
Definition main_task_network : M unit :=
  ssid <- config_get "wifi_ssid" "" ;;
  password <- config_get "wifi_password" "" ;;
  if (0 <? String.length ssid)%nat then
    _ <- wifi_connect ssid password ;;
    ret tt
  else
    ok <- wifi_connect "BE3600" "19930101" ;;
    if ok then
      config_save "wifi_ssid" "BE3600" ;;
      config_save "wifi_password" "19930101"
    else
      wifi_start_softap.

(** One step of the form lock; set_message; unlock or lock; set_progress;
    unlock, as [main_task] repeats them. *)
Definition locked (m : M unit) : M unit :=
  bsp_display_lock ;; m ;; bsp_display_unlock.

(** [main_task] up to its final [while (1)]. *)
Definition main_task_boot : M unit :=
  vTaskDelay 100 ;;
  call font_manager_init ;;
  vTaskDelay 200 ;;
  loading_screen_init ;;
  locked loading_screen_show ;;
  vTaskDelay 100 ;;
  locked (loading_screen_set_message "初始化硬件..." ;;
          loading_screen_set_progress 10) ;;
  call buttonHandler_init ;;
  call buttonHandler_setPWRCallback ;;
  call buttonHandler_setBOOTCallback ;;
  locked (loading_screen_set_progress 20) ;;
  locked (loading_screen_set_progress 30) ;;
  call rtcManager_init ;;
  locked (loading_screen_set_progress 40) ;;
  call motionSensor_init ;;
  locked (loading_screen_set_progress 50) ;;
  locked (loading_screen_set_message "初始化SD卡...") ;;
  call sdStorage_init ;;
  locked (loading_screen_set_progress 55) ;;
  locked (loading_screen_set_message "初始化音频...") ;;
  call audio_init ;;
  locked (loading_screen_set_progress 60) ;;
  locked (loading_screen_set_message "加载配置...") ;;
  call config_init ;;
  locked (loading_screen_set_progress 70) ;;
  locked (loading_screen_set_message "初始化WiFi...") ;;
  call wifi_init ;;
  locked (loading_screen_set_progress 80) ;;
  locked (loading_screen_set_message "连接中...") ;;
  main_task_network ;;
  locked (loading_screen_set_progress 90) ;;
  launcher_set_app_launch_callback (Some main_app_launch_callback) ;;
  locked (loading_screen_set_progress 100 ;;
          loading_screen_set_message "就绪！") ;;
  vTaskDelay 500 ;;
  locked (loading_screen_hide ;;
          standby_screen_show) ;;
  modify (set_system_initialized true).

(** The idle loop [while (1) vTaskDelay(1000)], run for [n] rounds. *)
Fixpoint idle (n : nat) : M unit :=
  match n with
  | O => ret tt
  | S n' => vTaskDelay 1000 ;; idle n'
  end.

(** [main_task], observed for [n] rounds of its idle loop. *)
Definition main_task (n : nat) : M unit :=
  main_task_boot ;; idle n.

(** ** i2c_bus_manager.cpp

    The ESP-IDF driver is a parameter: any driver state, and any outcome
    of [i2c_new_master_bus] and [i2c_master_bus_add_device].  A driver
    call that returns [ESP_OK] has stored a handle through its out
    parameter; one that fails has left the out parameter alone. *)

Definition i2c_master_bus_handle_t := nat.
Definition i2c_master_dev_handle_t := nat.

(** [esp_err_t] together with the out parameter. *)
Inductive esp_result (A : Type) :=
| EspOk (a : A)             (* ESP_OK, [a] stored through the out parameter *)
| EspErr (code : Z).        (* ret != ESP_OK *)
Arguments EspOk {A} _.
Arguments EspErr {A} _.

(** The driver calls the manager makes, in order. *)
Inductive i2c_call :=
| CallNewMasterBus
| CallAddDevice (bus : i2c_master_bus_handle_t) (addr : N).

Section I2cBusManager.

Variable driver : Type.
Variable i2c_new_master_bus :
  driver -> esp_result i2c_master_bus_handle_t * driver.
Variable i2c_master_bus_add_device :
  i2c_master_bus_handle_t -> N -> driver ->
  esp_result i2c_master_dev_handle_t * driver.

Record i2c_state := {
  s_i2c_bus_handle : option i2c_master_bus_handle_t;
  i2c_driver : driver;
  i2c_calls : list i2c_call
}.

Definition get_i2c_bus_handle (s : i2c_state)
    : option i2c_master_bus_handle_t * i2c_state :=
  match s_i2c_bus_handle s with
  | None =>
      let (ret, d) := i2c_new_master_bus (i2c_driver s) in
      let calls := i2c_calls s ++ [CallNewMasterBus] in
      match ret with
      | EspErr _ =>
          (None, {| s_i2c_bus_handle := None; i2c_driver := d; i2c_calls := calls |})
      | EspOk h =>
          (Some h, {| s_i2c_bus_handle := Some h; i2c_driver := d; i2c_calls := calls |})
      end
  | Some h => (Some h, s)
  end.

(** [addr] is a [uint8_t]. *)
Definition create_i2c_device (addr : N) (s : i2c_state)
    : option i2c_master_dev_handle_t * i2c_state :=
  let (bus, s1) := get_i2c_bus_handle s in
  match bus with
  | None => (None, s1)
  | Some b =>
      let (ret, d) := i2c_master_bus_add_device b addr (i2c_driver s1) in
      let s2 := {| s_i2c_bus_handle := s_i2c_bus_handle s1; i2c_driver := d;
                   i2c_calls := i2c_calls s1 ++ [CallAddDevice b addr] |} in
      match ret with
      | EspErr _ => (None, s2)
      | EspOk dev_handle => (Some dev_handle, s2)
      end
  end.

End I2cBusManager.

Arguments get_i2c_bus_handle {driver} _ _.
Arguments create_i2c_device {driver} _ _ _ _.
Arguments s_i2c_bus_handle {driver} _.
Arguments i2c_driver {driver} _.
Arguments i2c_calls {driver} _.

(** ** Observations *)

Definition show (x : Screen) : M unit :=
  match x with
  | Standby => standby_screen_show
  | Loading => loading_screen_show
  | Launcher => launcher_show
  end.

Definition hide (x : Screen) : M unit :=
  match x with
  | Standby => standby_screen_hide
  | Loading => loading_screen_hide
  | Launcher => launcher_hide
  end.

(** The screen object of a variant, null until its [init] created it. *)
Definition screen_obj (x : Screen) (s : state) : option obj :=
  match x with
  | Standby => standby_screen (st_standby s)
  | Loading => loading_screen (st_loading s)
  | Launcher => launcher_screen (st_launcher s)
  end.

Definition visible_count (s : state) : nat :=
  (Nat.b2n (visible Standby s) + Nat.b2n (visible Loading s)
   + Nat.b2n (visible Launcher s))%nat.

(** The screen operations of the firmware. *)
Inductive op :=
| OpShow (x : Screen)
| OpHide (x : Screen)
| OpPwrButton
| OpBootButton.

Definition run_op (o : op) : M unit :=
  match o with
  | OpShow x => show x
  | OpHide x => hide x
  | OpPwrButton => pwr_button_callback
  | OpBootButton => boot_button_callback
  end.

Fixpoint run_ops (l : list op) : M unit :=
  match l with
  | [] => ret tt
  | o :: l' => run_op o ;; run_ops l'
  end.

(** An operation is issued hide-first when every screen it does not
    itself hide is hidden by the time it shows another one: a [show]
    finds the other two flags false; [launcher_hide], which goes on to
    show Standby, finds Loading hidden; a button press finds Standby and
    Loading hidden, so that it can only hide the Launcher. *)
Definition hide_first (o : op) (s : state) : bool :=
  match o with
  | OpShow Standby => negb (visible Loading s) && negb (visible Launcher s)
  | OpShow Loading => negb (visible Standby s) && negb (visible Launcher s)
  | OpShow Launcher => negb (visible Standby s) && negb (visible Loading s)
  | OpHide Launcher => negb (visible Loading s)
  | OpHide _ => true
  | OpPwrButton | OpBootButton => negb (visible Standby s) && negb (visible Loading s)
  end.

(** Runs in which every operation is issued hide-first. *)
Inductive hide_first_run : state -> list op -> state -> Prop :=
| hfr_nil s : hide_first_run s [] s
| hfr_cons s o l s' :
    hide_first o s = true ->
    hide_first_run (exec (run_op o) s) l s' ->
    hide_first_run s (o :: l) s'.

(** [loading_screen_show] gets as far as loading the screen: the display
    is there, and the screen object exists or can be allocated. *)
Definition loading_can_show (s : state) : bool :=
  lv_display_default (st_lv s)
  && (negb (is_null (loading_screen (st_loading s))) || (0 <? lv_mem (st_lv s))%nat).

Definition can_show (x : Screen) (s : state) : bool :=
  match x with
  | Loading => loading_can_show s
  | _ => true
  end.

(** A construction: an [init] got its screen object from
    [lv_obj_create(nullptr)]. *)
Definition is_construction (e : event) : bool :=
  match e with
  | EvCreate LvObj None (Some _) => true
  | _ => false
  end.

Definition constructions (t : list event) : nat :=
  length (List.filter is_construction t).

(** [init] of a variant can build the screen object: LVGL has room for
    it and, for Loading, the display is available. *)
Definition can_construct (x : Screen) (s : state) : bool :=
  (0 <? lv_mem (st_lv s))%nat
  && match x with Loading => lv_display_default (st_lv s) | _ => true end.

(** The screen changes among the events: flag writes, screen loads and
    application launches. *)
Definition is_change (e : event) : bool :=
  match e with
  | EvVisible _ _ | EvScreenLoad _ | EvAppShow _ => true
  | _ => false
  end.

Definition changes (t : list event) : list event := List.filter is_change t.

Definition is_app_show (e : event) : bool :=
  match e with EvAppShow _ => true | _ => false end.

(** How often the launch callback dispatched to an application. *)
Definition dispatches (t : list event) : nat :=
  length (List.filter is_app_show t).

(** The events of the network step. *)
Definition is_net (e : event) : bool :=
  match e with
  | EvWifiConnect _ _ _ | EvConfigSave _ _ | EvSoftAP => true
  | _ => false
  end.

Definition net_events (t : list event) : list event := List.filter is_net t.

(** What the network step does, by the stored SSID and the outcome of
    the connection attempt. *)
Definition network_events (cfg : gmap string string) (env : environment) : list event :=
  let ssid := default "" (cfg !! "wifi_ssid") in
  let password := default "" (cfg !! "wifi_password") in
  if (0 <? String.length ssid)%nat
  then [EvWifiConnect ssid password (wifi_accepts env ssid password)]
  else if wifi_accepts env "BE3600" "19930101"
       then [EvWifiConnect "BE3600" "19930101" true;
             EvConfigSave "wifi_ssid" "BE3600";
             EvConfigSave "wifi_password" "19930101"]
       else [EvWifiConnect "BE3600" "19930101" false; EvSoftAP].

Definition network_config (cfg : gmap string string) (env : environment)
    : gmap string string :=
  if (0 <? String.length (default "" (cfg !! "wifi_ssid")))%nat then cfg
  else if wifi_accepts env "BE3600" "19930101"
       then <["wifi_password" := "19930101"]> (<["wifi_ssid" := "BE3600"]> cfg)
       else cfg.

(** The clamp of a percentage to [0,100], as the specification words it. *)
Definition clamped_0_100 (v : Z) : Z := Z.max 0 (Z.min 100 v).

(** A click on an object. *)
Definition click (target : option obj) : lv_event_t :=
  {| ev_code := LV_EVENT_CLICKED; ev_target := target |}.

(** ** Frame properties *)

(** [m] leaves the observation [f] of the state as it was. *)
Definition keeps {A B} (f : state -> B) (m : M A) : Prop :=
  forall s, f (exec m s) = f s.

(** [m] emits no event selected by [p]. *)
Definition silent {A} (p : event -> bool) (m : M A) : Prop :=
  forall s, List.filter p (trace m s) = [].

(** [m] leaves the observation [f] at the value [v]. *)
Definition sets {A B} (f : state -> B) (v : B) (m : M A) : Prop :=
  forall s, f (exec m s) = v.

(** [m] does not read what the state change [g] writes, and writes
    nothing [g] depends on: running [m] after [g] is running it before. *)
Definition commutes {A} (g : state -> state) (m : M A) : Prop :=
  forall s, m (g s) = Res (val (m s)) (g (post (m s))) (evs (m s)).

(** The network behaviour of [m]: from the configuration [cfg] and the
    environment it starts in, its network events are [E cfg env], it
    leaves the configuration [C cfg env], and the environment as it was. *)
Definition net_spec {A} (E : gmap string string -> environment -> list event)
    (C : gmap string string -> environment -> gmap string string) (m : M A) : Prop :=
  forall s,
    net_events (trace m s) = E (st_config s) (st_env s) /\
    st_config (exec m s) = C (st_config s) (st_env s) /\
    st_env (exec m s) = st_env s.

(** The observation [f] does not read the named part of the state. *)
Definition ignores_lv {B} (f : state -> B) : Prop :=
  forall g s, f (with_lv g s) = f s.
Definition ignores_standby {B} (f : state -> B) : Prop :=
  forall g s, f (with_standby g s) = f s.
Definition ignores_launcher {B} (f : state -> B) : Prop :=
  forall g s, f (with_launcher g s) = f s.
Definition ignores_loading {B} (f : state -> B) : Prop :=
  forall g s, f (with_loading g s) = f s.

(** ** Sample inputs *)

Definition env_demo (wifi_ok : bool) : environment :=
  {| esp_timer_us := 5000000; rtc_time_string := "12:00:00";
     rtc_date_string := "2026-02-03"; battery_level := 80;
     battery_charging := false; wifi_is_connected := wifi_ok;
     websocket_is_connected := false;
     wifi_accepts := fun _ _ => wifi_ok |}.

(** Reset with a working display, room for 100 objects, no configuration
    and no network in range. *)
Definition reset_state : state := initial_state (env_demo false) true 100 ∅.

(** Reset with no display ([bsp_display_start] failed in [app_main]). *)
Definition reset_no_display : state := initial_state (env_demo false) false 100 ∅.

(** After boot: Standby is shown. *)
Definition booted_state : state := exec (main_task 0) reset_state.

(** Standby shown, then the Launcher opened by a touch. *)
Definition launcher_state : state :=
  exec (standby_touch_event_cb (click (screen_obj Standby booted_state))) booted_state.

(** Standby shown, then the PWR button pressed once. *)
Definition pwr_pressed_state : state := exec pwr_button_callback booted_state.

(** A driver whose bus comes up and whose device at address 0x51 does
    not answer. *)
Definition demo_new_master_bus (d : unit) : esp_result i2c_master_bus_handle_t * unit :=
  (EspOk 1%nat, d).
Definition demo_add_device (bus : i2c_master_bus_handle_t) (addr : N) (d : unit)
    : esp_result i2c_master_dev_handle_t * unit :=
  (if (addr =? 81)%N then EspErr 263 else EspOk (N.to_nat addr), d).

(** A driver whose bus does not come up. *)
Definition dead_new_master_bus (d : unit) : esp_result i2c_master_bus_handle_t * unit :=
  (EspErr 263, d).

Definition i2c_reset : i2c_state unit :=
  {| s_i2c_bus_handle := None; i2c_driver := tt; i2c_calls := [] |}.

Definition i2c_ready : i2c_state unit :=
  {| s_i2c_bus_handle := Some 1%nat; i2c_driver := tt; i2c_calls := [CallNewMasterBus] |}.

(** ** The display lock *)

(** Depth of the display lock after the events [t], taken from depth [d];
    [None] when an unlock finds the lock free. *)
Fixpoint lock_depth (t : list event) (d : nat) : option nat :=
  match t with
  | [] => Some d
  | EvLock :: t' => lock_depth t' (S d)
  | EvUnlock :: t' =>
      match d with
      | O => None
      | S d' => lock_depth t' d'
      end
  | _ :: t' => lock_depth t' d
  end.

(** [m] needs the lock held [a] times at least, and leaves it held [b]
    times where it was held [a] times. *)
Definition relocks {A} (a b : nat) (m : M A) : Prop :=
  forall s d, lock_depth (trace m s) (d + a)%nat = Some (d + b)%nat.

(** ** The progress values *)

Definition is_bar (e : event) : bool :=
  match e with EvBarSet _ _ => true | _ => false end.

Definition bar_of (e : event) : Z :=
  match e with EvBarSet _ v => v | _ => 0 end.

(** The values given to [lv_bar_set_value], in order. *)
Definition bar_values (t : list event) : list Z :=
  map bar_of (List.filter is_bar t).

(** The values of [l] start at [lo] or above, never decrease, and end at
    [hi] or below. *)
Fixpoint climbs (lo hi : Z) (l : list Z) : Prop :=
  match l with
  | [] => lo <= hi
  | v :: l' => lo <= v /\ climbs v hi l'
  end.

Definition reports {A} (lo hi : Z) (m : M A) : Prop :=
  forall s, climbs lo hi (bar_values (trace m s)).

(** The value the progress bar holds; [Some 100] stands for a bar that
    does not exist. *)
Definition progress_or_100 (s : state) : option Z :=
  match progress_bar (st_loading s) with
  | Some b => lv_bar_value (st_lv s) !! b
  | None => Some 100
  end.

(** No display, and nothing of the Loading screen built. *)
Definition no_loading (s : state) : Prop :=
  lv_display_default (st_lv s) = false /\ st_loading s = loading_vars0.

(** [m] keeps the invariant [I] and, under it, emits no event selected by
    [p]. *)
Definition quiet_under {A} (I : state -> Prop) (p : event -> bool) (m : M A) : Prop :=
  forall s, I s -> I (exec m s) /\ List.filter p (trace m s) = [].

(** [m] ends in a state where [P] holds. *)
Definition ensures {A} (P : state -> Prop) (m : M A) : Prop :=
  forall s, P (exec m s).

(** What is built of the Loading screen: whether its screen object is
    missing, and its progress bar. *)
Definition loading_built (s : state) : bool * option obj :=
  (is_null (loading_screen (st_loading s)), progress_bar (st_loading s)).

(** Loading is flagged visible only with a display and a screen object. *)
Definition loading_shown_safely (s : state) : bool :=
  implb (visible Loading s)
    (negb (is_null (loading_screen (st_loading s))) && lv_display_default (st_lv s)).

(** The LVGL objects of the screens that are built, counted in full: 7
    for Standby, 6 for Loading, 8 for the Launcher. *)
Definition built_objects (s : state) : nat :=
  ((if is_null (standby_screen (st_standby s)) then 0 else 7)
   + (if is_null (loading_screen (st_loading s)) then 0 else 6)
   + (if is_null (launcher_screen (st_launcher s)) then 0 else 8))%nat.

(** [m] takes LVGL objects only to build screens: the heap does not grow,
    and what it loses is covered by the screens built meanwhile. *)
Definition builds_only {A} (m : M A) : Prop :=
  forall s,
    (lv_mem (st_lv (exec m s)) <= lv_mem (st_lv s))%nat /\
    (lv_mem (st_lv s) + built_objects s
     <= lv_mem (st_lv (exec m s)) + built_objects (exec m s))%nat.

(** The LVGL heap gets room for [n] more objects (another task freed
    them). *)
Definition lv_free (n : nat) (s : state) : state :=
  with_lv (fun l => {| lv_display_default := lv_display_default l;
                       lv_mem := (lv_mem l + n)%nat; lv_next := lv_next l;
                       lv_act_scr := lv_act_scr l;
                       lv_bar_value := lv_bar_value l;
                       lv_user_data := lv_user_data l |}) s.

(** A change of the timer reading. *)
Definition with_timer (us : Z) (s : state) : state :=
  with_env {| esp_timer_us := us;
              rtc_time_string := rtc_time_string (st_env s);
              rtc_date_string := rtc_date_string (st_env s);
              battery_level := battery_level (st_env s);
              battery_charging := battery_charging (st_env s);
              wifi_is_connected := wifi_is_connected (st_env s);
              websocket_is_connected := websocket_is_connected (st_env s);
              wifi_accepts := wifi_accepts (st_env s) |} s.

(** [m] called at each of the timer readings [ts] in turn. *)
Fixpoint at_times (m : M unit) (ts : list Z) : M unit :=
  match ts with
  | [] => ret tt
  | t :: ts' => modify (with_timer t) ;; m ;; at_times m ts'
  end.

(** ** main.cpp: [loop_task]

    The handlers of the other managers are parameters: any computation.
    The [static] flag [initialization_logged] only guards a log line. *)

Section LoopTask.

Variable buttonHandler_handleButtons : M unit.
Variable batteryManager_update : M unit.
Variable wifi_handle : M unit.
Variable websocket_handle : M unit.
Variable audio_process : M unit.
Variable smart_response_app_is_running : M bool.
Variable smart_response_app_update : M unit.
Variable dify_app_is_running : M bool.
Variable dify_app_update : M unit.

(** One round of the [while (1)] of [loop_task]. *)
Definition loop_task_round : M unit :=
  ini <- gets system_initialized ;;
  if negb ini then vTaskDelay 100 else
  buttonHandler_handleButtons ;;
  batteryManager_update ;;
  wifi_handle ;;
  websocket_handle ;;
  audio_process ;;
  r1 <- smart_response_app_is_running ;;
  when r1 smart_response_app_update ;;
  r2 <- dify_app_is_running ;;
  when r2 dify_app_update ;;
  vTaskDelay 10.

(** [loop_task], observed for [n] rounds. *)
Fixpoint loop_task (n : nat) : M unit :=
  match n with
  | O => ret tt
  | S n' => loop_task_round ;; loop_task n'
  end.

End LoopTask.

(** ** main.cpp: [app_main]

    The outcomes of the calls [app_main] makes are its input. *)

Inductive esp_err_t :=
| ESP_OK
| ESP_ERR_NVS_NO_FREE_PAGES
| ESP_ERR_NVS_NEW_VERSION_FOUND
| ESP_FAIL (code : Z).

Record startup := {
  nvs_flash_init_first : esp_err_t;    (* nvs_flash_init() *)
  nvs_flash_erase_ret : esp_err_t;     (* nvs_flash_erase() *)
  nvs_flash_init_second : esp_err_t;   (* nvs_flash_init() after the erase *)
  batteryManager_init_ok : bool;       (* batteryManager.init() *)
  bsp_display_start_ok : bool;         (* bsp_display_start() != nullptr *)
  main_task_created : bool;            (* xTaskCreate(main_task, ...) == pdPASS *)
  loop_task_created : bool             (* xTaskCreate(loop_task, ...) == pdPASS *)
}.






(** ** sd_storage.cpp

    The C library's files are a map from paths to contents, a [string]
    being a sequence of bytes.  [fopen(path, "wb")] may fail; when it
    succeeds the file is there and empty.  [fwrite] may accept less than
    it is given.  [fopen(path, "rb")] succeeds on the files that exist. *)

Record vfs := {
  vfs_files : gmap string string;
  vfs_can_create : string -> bool;   (* fopen(path, "wb") != nullptr *)
  vfs_room : nat                     (* bytes fwrite still accepts *)
}.

Record SDStorage := { _initialized : bool }.

Definition MOUNT_POINT : string := "/sdcard".

(** The first [n] characters. *)
Fixpoint string_take (n : nat) (s : string) : string :=
  match n, s with
  | S n', String c s' => String c (string_take n' s')
  | _, _ => EmptyString
  end.

(** [snprintf(filepath, sizeof(filepath), "%s/%s", MOUNT_POINT, filename)]
    into [char filepath[128]]: 127 characters at most. *)
Definition filepath (filename : string) : string :=
  string_take 127 (MOUNT_POINT +:+ "/" +:+ filename).

(** [fopen(path, "wb")]; [fwrite(data, 1, strlen, file)]; [fclose(file)]:
    the number of bytes written, or [None] when the file cannot be
    opened. *)
Definition vfs_write (path data : string) (fs : vfs) : option nat * vfs :=
  if vfs_can_create fs path then
    let written := Nat.min (String.length data) (vfs_room fs) in
    (Some written,
     {| vfs_files := <[path := string_take written data]> (vfs_files fs);
        vfs_can_create := vfs_can_create fs;
        vfs_room := (vfs_room fs - written)%nat |})
  else (None, fs).

(** [remove(path) == 0]. *)
Definition vfs_remove (path : string) (fs : vfs) : bool * vfs :=
  match vfs_files fs !! path with
  | Some _ =>
      (true, {| vfs_files := delete path (vfs_files fs);
                vfs_can_create := vfs_can_create fs;
                vfs_room := vfs_room fs |})
  | None => (false, fs)
  end.

Definition SDStorage_new : SDStorage := {| _initialized := false |}.

Definition SDStorage_init (this : SDStorage) : bool * SDStorage :=
  if _initialized this then (true, this)
  else (true, {| _initialized := true |}).


(** [len] is a [size_t]; the result carries the bytes read into [buffer],
    which the code terminates with a zero byte, or [None] when the buffer
    is not written. *)
Definition SDStorage_loadConfig (this : SDStorage) (filename : string) (len : Z)
    (fs : vfs) : bool * option string :=
  if negb (_initialized this) then (false, None) else
  match vfs_files fs !! filepath filename with
  | None => (false, None)
  | Some content =>
      let count := Z.to_nat ((len - 1) mod 2 ^ 32) in
      let bytes := string_take count content in
      ((0 <? String.length bytes)%nat, Some bytes)
  end.

Definition SDStorage_saveConfig (this : SDStorage) (filename data : string) (fs : vfs)
    : bool * vfs :=
  if negb (_initialized this) then (false, fs) else
  match vfs_write (filepath filename) data fs with
  | (None, fs') => (false, fs')
  | (Some written, fs') => ((written =? String.length data)%nat, fs')
  end.

Definition SDStorage_fileExists (this : SDStorage) (filename : string) (fs : vfs) : bool :=
  if negb (_initialized this) then false else
  match vfs_files fs !! filepath filename with
  | Some _ => true
  | None => false
  end.

Definition SDStorage_deleteFile (this : SDStorage) (filename : string) (fs : vfs)
    : bool * vfs :=
  if negb (_initialized this) then (false, fs) else
  vfs_remove (filepath filename) fs.

(** ** Sequences of calls to the I2C bus manager *)

Inductive i2c_op :=
| I2cGetBus
| I2cCreateDevice (addr : N).

Section I2cRuns.

Variable driver : Type.
Variable new_bus : driver -> esp_result i2c_master_bus_handle_t * driver.
Variable add_device :
  i2c_master_bus_handle_t -> N -> driver ->
  esp_result i2c_master_dev_handle_t * driver.

Definition i2c_run_op (o : i2c_op) (s : i2c_state driver) : i2c_state driver :=
  match o with
  | I2cGetBus => snd (get_i2c_bus_handle new_bus s)
  | I2cCreateDevice addr => snd (create_i2c_device new_bus add_device addr s)
  end.

Definition i2c_run (l : list i2c_op) (s : i2c_state driver) : i2c_state driver :=
  fold_left (fun s o => i2c_run_op o s) l s.

End I2cRuns.

Arguments i2c_run_op {driver} _ _ _ _.
Arguments i2c_run {driver} _ _ _ _.

(** The [add_device] calls a sequence of operations makes on the bus [h]. *)
Definition i2c_device_calls (h : i2c_master_bus_handle_t) (l : list i2c_op)
    : list i2c_call :=
  omap (fun o => match o with
                 | I2cCreateDevice addr => Some (CallAddDevice h addr)
                 | I2cGetBus => None
                 end) l.

(** ** More sample inputs *)

(** A card that takes files, with room for [room] bytes. *)
Definition vfs_demo (room : nat) : vfs :=
  {| vfs_files := ∅; vfs_can_create := fun _ => true; vfs_room := room |}.

Definition sd_ready : SDStorage := {| _initialized := true |}.

(** A name of 119 characters and a suffix. *)
Definition long_name (suffix : string) : string :=
  "recordings/2026-02-03/aaaaaaaaaaaaaaaaaaaaaaaaaaaaaaaaaaaaaaaaaaaaaaaaaaaaaaaaaaaaaaaaaaaaaaaaaaaaaaaaaaaaaaaaaaaaaaaaa" +:+ suffix.

(** A reset whose flash has to be erased, and whose display does not
    start. *)
Definition startup_demo : startup :=
  {| nvs_flash_init_first := ESP_ERR_NVS_NO_FREE_PAGES;
     nvs_flash_erase_ret := ESP_OK;
     nvs_flash_init_second := ESP_OK;
     batteryManager_init_ok := false;
     bsp_display_start_ok := false;
     main_task_created := true;
     loop_task_created := true |}.

(** * Properties *)

(** ** The monad *)

Lemma post_bind {A B} (m : M A) (k : A -> M B) s :
  post ((x <- m ;; k x) s) = post (k (val (m s)) (post (m s))).
Proof. reflexivity. Qed.

Lemma evs_bind {A B} (m : M A) (k : A -> M B) s :
  evs ((x <- m ;; k x) s) = evs (m s) ++ evs (k (val (m s)) (post (m s))).
Proof. reflexivity. Qed.

Lemma exec_bind {A B} (m : M A) (k : A -> M B) s :
  exec (x <- m ;; k x) s = exec (k (val (m s))) (exec m s).
Proof. reflexivity. Qed.

Lemma trace_bind {A B} (m : M A) (k : A -> M B) s :
  trace (x <- m ;; k x) s = trace m s ++ trace (k (val (m s))) (exec m s).
Proof. reflexivity. Qed.

(** ** Frame rules *)

Section FrameRules.
Context {B : Type} (f : state -> B).

Lemma keeps_ret {A} (a : A) : keeps f (ret a).
Proof. intros s; reflexivity. Qed.

Lemma keeps_gets {A} (g : state -> A) : keeps f (gets g).
Proof. intros s; reflexivity. Qed.

Lemma keeps_emit e : keeps f (emit e).
Proof. intros s; reflexivity. Qed.

Lemma keeps_modify g : (forall s, f (g s) = f s) -> keeps f (modify g).
Proof. intros H s; apply H. Qed.

Lemma keeps_bind {A C} (m : M A) (k : A -> M C) :
  keeps f m -> (forall a, keeps f (k a)) -> keeps f (x <- m ;; k x).
Proof. intros Hm Hk s. rewrite exec_bind, Hk. apply Hm. Qed.

Lemma keeps_if {A} (c : bool) (m1 m2 : M A) :
  keeps f m1 -> keeps f m2 -> keeps f (if c then m1 else m2).
Proof. destruct c; auto. Qed.

Lemma keeps_when c m : keeps f m -> keeps f (when c m).
Proof. destruct c; [auto | intros _; apply keeps_ret]. Qed.

Lemma keeps_lv_create k parent :
  (forall g s, f (with_lv g s) = f s) -> keeps f (lv_create k parent).
Proof.
  intros H s. unfold exec, lv_create.
  destruct (lv_mem (st_lv s)); [reflexivity | apply H].
Qed.
End FrameRules.

Section SilentRules.
Variable p : event -> bool.

Lemma silent_ret {A} (a : A) : silent p (ret a).
Proof. intros s; reflexivity. Qed.

Lemma silent_gets {A} (g : state -> A) : silent p (gets g).
Proof. intros s; reflexivity. Qed.

Lemma silent_modify g : silent p (modify g).
Proof. intros s; reflexivity. Qed.

Lemma silent_emit e : p e = false -> silent p (emit e).
Proof. intros H s; cbn. now rewrite H. Qed.

Lemma silent_bind {A C} (m : M A) (k : A -> M C) :
  silent p m -> (forall a, silent p (k a)) -> silent p (x <- m ;; k x).
Proof.
  intros Hm Hk s. rewrite trace_bind, List.filter_app, Hm, Hk. reflexivity.
Qed.

Lemma silent_if {A} (c : bool) (m1 m2 : M A) :
  silent p m1 -> silent p m2 -> silent p (if c then m1 else m2).
Proof. destruct c; auto. Qed.

Lemma silent_when c m : silent p m -> silent p (when c m).
Proof. destruct c; [auto | intros _; apply silent_ret]. Qed.

Lemma silent_lv_create k parent :
  (forall r, p (EvCreate k parent r) = false) -> silent p (lv_create k parent).
Proof.
  intros H s. unfold trace, lv_create.
  destruct (lv_mem (st_lv s)); cbn; now rewrite H.
Qed.
End SilentRules.

Ltac frame_side :=
  intros; first [ reflexivity | match goal with H : _ |- _ => apply H end ].

(** Goals [keeps f m] and [silent p m], by the structure of [m]. *)
Ltac frame_step :=
  lazymatch goal with
  | |- keeps _ (bind _ _) => apply keeps_bind; [ | intros ? ]
  | |- keeps _ (ret _) => apply keeps_ret
  | |- keeps _ (gets _) => apply keeps_gets
  | |- keeps _ (emit _) => apply keeps_emit
  | |- keeps _ (modify _) => apply keeps_modify; frame_side
  | |- keeps _ (when _ _) => apply keeps_when
  | |- keeps _ (lv_create _ _) => apply keeps_lv_create; frame_side
  | |- keeps _ (if _ then _ else _) => apply keeps_if
  | |- keeps _ (match ?x with _ => _ end) => destruct x
  | |- silent _ (bind _ _) => apply silent_bind; [ | intros ? ]
  | |- silent _ (ret _) => apply silent_ret
  | |- silent _ (gets _) => apply silent_gets
  | |- silent _ (modify _) => apply silent_modify
  | |- silent _ (emit _) => apply silent_emit; reflexivity
  | |- silent _ (when _ _) => apply silent_when
  | |- silent _ (lv_create _ _) => apply silent_lv_create; intros ?; reflexivity
  | |- silent _ (if _ then _ else _) => apply silent_if
  | |- silent _ (match ?x with _ => _ end) => destruct x
  end.

Create HintDb frame.

Ltac frame :=
  repeat first
    [ frame_step
    | solve [ auto with frame nocore ]
    | progress unfold
        bsp_display_lock, bsp_display_unlock, lv_display_get_default,
        esp_timer_get_time, lv_obj_create, lv_label_create, lv_btn_create,
        lv_spinner_create, lv_bar_create, icon_create, icon_set_type,
        lv_screen_load, lv_label_set_text, lv_bar_set_value,
        lv_obj_set_user_data, lv_obj_get_user_data, set_visible,
        vTaskDelay, call, locked ].

Section SetRules.
Context {B : Type} (f : state -> B) (v : B).

Lemma sets_bind_now {A C} (m : M A) (k : A -> M C) :
  sets f v m -> (forall a, keeps f (k a)) -> sets f v (x <- m ;; k x).
Proof. intros Hm Hk s. rewrite exec_bind, Hk. apply Hm. Qed.

Lemma sets_bind_later {A C} (m : M A) (k : A -> M C) :
  (forall a, sets f v (k a)) -> sets f v (x <- m ;; k x).
Proof. intros Hk s. rewrite exec_bind. apply Hk. Qed.
End SetRules.

(** ** Footprints of the screen functions *)

Section Footprints.
Context {B : Type} (f : state -> B).

Lemma keeps_standby_screen_update :
  ignores_standby f -> keeps f standby_screen_update.
Proof. intros H. unfold standby_screen_update. frame. Qed.

Lemma keeps_standby_screen_init :
  ignores_lv f -> ignores_standby f -> keeps f standby_screen_init.
Proof. intros H1 H2. unfold standby_screen_init. frame. Qed.

Lemma keeps_standby_screen_show :
  ignores_lv f -> ignores_standby f -> keeps f standby_screen_show.
Proof.
  intros H1 H2. unfold standby_screen_show.
  pose proof (keeps_standby_screen_init H1 H2).
  pose proof (keeps_standby_screen_update H2).
  frame.
Qed.

Lemma keeps_standby_screen_hide :
  ignores_standby f -> keeps f standby_screen_hide.
Proof. intros H. unfold standby_screen_hide. frame. Qed.

Lemma keeps_create_app_button parent label icon app x y :
  ignores_lv f -> keeps f (create_app_button parent label icon app x y).
Proof. intros H. unfold create_app_button. frame. Qed.

Lemma keeps_launcher_init :
  ignores_lv f -> ignores_launcher f -> keeps f launcher_init.
Proof.
  intros H1 H2. unfold launcher_init.
  pose proof (fun a b c d x y => keeps_create_app_button a b c d x y H1).
  frame.
Qed.

Lemma keeps_launcher_show :
  ignores_lv f -> ignores_launcher f -> keeps f launcher_show.
Proof.
  intros H1 H2. unfold launcher_show.
  pose proof (keeps_launcher_init H1 H2). frame.
Qed.

Lemma keeps_launcher_hide :
  ignores_lv f -> ignores_launcher f -> ignores_standby f -> keeps f launcher_hide.
Proof.
  intros H1 H2 H3. unfold launcher_hide.
  pose proof (keeps_standby_screen_show H1 H3). frame.
Qed.

Lemma keeps_loading_screen_init :
  ignores_lv f -> ignores_loading f -> keeps f loading_screen_init.
Proof. intros H1 H2. unfold loading_screen_init. frame. Qed.

Lemma keeps_loading_screen_set_message msg :
  keeps f (loading_screen_set_message msg).
Proof. unfold loading_screen_set_message. frame. Qed.

Lemma keeps_loading_screen_set_progress percent :
  ignores_lv f -> keeps f (loading_screen_set_progress percent).
Proof. intros H. unfold loading_screen_set_progress. frame. Qed.

Lemma keeps_loading_screen_show :
  ignores_lv f -> ignores_loading f -> keeps f loading_screen_show.
Proof.
  intros H1 H2. unfold loading_screen_show.
  pose proof (keeps_loading_screen_init H1 H2).
  pose proof (keeps_loading_screen_set_message).
  pose proof (fun p => keeps_loading_screen_set_progress p H1).
  frame.
Qed.

Lemma keeps_loading_screen_hide :
  ignores_loading f -> keeps f loading_screen_hide.
Proof. intros H. unfold loading_screen_hide. frame. Qed.
End Footprints.

(** ** The visibility flags *)

Ltac sets_visible :=
  lazymatch goal with
  | |- sets _ _ (bind (set_visible _ _) _) =>
      apply sets_bind_now; [ intros ?; reflexivity | intros ? ]
  | |- sets _ _ (bind _ _) => apply sets_bind_later; intros ?; sets_visible
  | |- sets _ _ (set_visible _ _) => intros ?; reflexivity
  end.

Lemma standby_screen_update_keeps_visible x : keeps (visible x) standby_screen_update.
Proof. unfold standby_screen_update. destruct x; frame. Qed.

Lemma standby_screen_show_visible : sets (visible Standby) true standby_screen_show.
Proof.
  unfold standby_screen_show. sets_visible.
  pose proof (standby_screen_update_keeps_visible Standby). frame.
Qed.

Lemma launcher_show_visible : sets (visible Launcher) true launcher_show.
Proof. unfold launcher_show. sets_visible. Qed.

Lemma hide_not_visible x : sets (visible x) false (hide x).
Proof.
  destruct x; cbn [hide].
  - intros s; reflexivity.
  - intros s; reflexivity.
  - unfold launcher_hide. sets_visible.
    apply keeps_standby_screen_show; intros ? ?; reflexivity.
Qed.

Lemma launcher_hide_sets_standby_flag : sets (visible Standby) true launcher_hide.
Proof.
  unfold launcher_hide. apply sets_bind_later; intros _.
  apply standby_screen_show_visible.
Qed.

(** A [show] writes no flag but its own. *)
Lemma show_keeps_other x y : x <> y -> keeps (visible y) (show x).
Proof.
  intros Hxy. destruct x, y; try congruence; cbn [show];
    first [ apply keeps_standby_screen_show
          | apply keeps_loading_screen_show
          | apply keeps_launcher_show ]; intros ? ?; reflexivity.
Qed.

(** [standby_screen_hide] and [loading_screen_hide] write no flag but
    their own; [launcher_hide] leaves Loading's alone. *)
Lemma hide_keeps_other x y :
  x <> y -> (x = Launcher -> y = Loading) -> keeps (visible y) (hide x).
Proof.
  intros Hxy HL. destruct x, y; try congruence; cbn [hide];
    try (specialize (HL eq_refl); discriminate);
    first [ apply keeps_standby_screen_hide
          | apply keeps_loading_screen_hide
          | apply keeps_launcher_hide ]; intros ? ?; reflexivity.
Qed.

(** *** [loading_screen_init] and [loading_screen_show] *)

(** As soon as the screen object is stored, the rest of [init] leaves it:
    one free object is enough. *)
Lemma loading_screen_init_constructs s :
  loading_screen (st_loading s) = None ->
  lv_display_default (st_lv s) = true ->
  (0 < lv_mem (st_lv s))%nat ->
  loading_screen (st_loading (exec loading_screen_init s)) = Some (lv_next (st_lv s)).
Proof.
  intros Hscr Hdisp Hmem.
  destruct s as [[disp mem nxt act bars ud] env la sb [scr lg ml sp pb vis ang lsu] cfg ini].
  cbn in Hscr, Hdisp, Hmem. subst.
  destruct mem as [|[|[|[|[|[|mem]]]]]]; try lia; reflexivity.
Qed.

Lemma loading_screen_show_visible s :
  loading_can_show s = true -> visible Loading (exec loading_screen_show s) = true.
Proof.
  unfold loading_can_show.
  destruct s as [[disp mem nxt act bars ud] env la sb [scr lg ml sp pb vis ang lsu] cfg ini].
  cbn [st_lv st_loading lv_display_default lv_mem loading_screen].
  intros [-> H]%andb_prop.
  destruct ml, pb, scr; try reflexivity;
    cbn in H; destruct mem as [|[|[|[|[|[|mem]]]]]]; try discriminate; reflexivity.
Qed.

(** *** The button callbacks, by cases on the two flags they read *)

Lemma pwr_button_callback_cases s :
  exec pwr_button_callback s =
  if visible Standby s then exec launcher_show s
  else if visible Launcher s then exec launcher_hide s
  else s.
Proof.
  unfold exec, pwr_button_callback, standby_screen_is_visible, launcher_is_visible.
  cbn [visible]. rewrite post_bind. cbn [gets val post].
  destruct (standby_visible (st_standby s)); [reflexivity|].
  rewrite post_bind. cbn [gets val post].
  destruct (launcher_visible (st_launcher s)); reflexivity.
Qed.

Lemma boot_button_callback_cases s :
  exec boot_button_callback s =
  if visible Launcher s then exec launcher_hide s
  else if visible Standby s then exec launcher_show s
  else s.
Proof.
  unfold exec, boot_button_callback, standby_screen_is_visible, launcher_is_visible.
  cbn [visible]. rewrite post_bind. cbn [gets val post].
  destruct (launcher_visible (st_launcher s)); [reflexivity|].
  rewrite post_bind. cbn [gets val post].
  destruct (standby_visible (st_standby s)); reflexivity.
Qed.

(** *** Hide-first runs keep the flags exclusive *)

Lemma visible_count_flags s :
  visible_count s =
  (Nat.b2n (visible Standby s) + Nat.b2n (visible Loading s)
   + Nat.b2n (visible Launcher s))%nat.
Proof. reflexivity. Qed.

Lemma b2n_le_1 b : (Nat.b2n b <= 1)%nat.
Proof. destruct b; cbn; lia. Qed.

Lemma launcher_hide_flags s :
  visible Standby (exec launcher_hide s) = true /\
  visible Loading (exec launcher_hide s) = visible Loading s /\
  visible Launcher (exec launcher_hide s) = false.
Proof.
  split; [apply launcher_hide_sets_standby_flag|].
  split; [|apply (hide_not_visible Launcher)].
  apply (hide_keeps_other Launcher Loading); [discriminate | reflexivity].
Qed.

Lemma hide_first_step o s :
  hide_first o s = true ->
  (visible_count s <= 1)%nat ->
  (visible_count (exec (run_op o) s) <= 1)%nat.
Proof.
  intros Hg Hc. rewrite !visible_count_flags in *.
  destruct o as [x|x| |]; cbn [run_op].
  - (* show: the other two flags were false and stay so *)
    destruct x; cbn [hide_first] in Hg;
      apply andb_prop in Hg as [H1%negb_true_iff H2%negb_true_iff].
    + rewrite (show_keeps_other Standby Loading), (show_keeps_other Standby Launcher)
        by discriminate.
      rewrite H1, H2. pose proof (b2n_le_1 (visible Standby (exec (show Standby) s))).
      cbn [Nat.b2n]. lia.
    + rewrite (show_keeps_other Loading Standby), (show_keeps_other Loading Launcher)
        by discriminate.
      rewrite H1, H2. pose proof (b2n_le_1 (visible Loading (exec (show Loading) s))).
      cbn [Nat.b2n]. lia.
    + rewrite (show_keeps_other Launcher Standby), (show_keeps_other Launcher Loading)
        by discriminate.
      rewrite H1, H2. pose proof (b2n_le_1 (visible Launcher (exec (show Launcher) s))).
      cbn [Nat.b2n]. lia.
  - (* hide *)
    destruct x; cbn [hide_first] in Hg.
    + rewrite (hide_not_visible Standby).
      rewrite (hide_keeps_other Standby Loading), (hide_keeps_other Standby Launcher)
        by (discriminate || reflexivity).
      cbn [Nat.b2n]. lia.
    + rewrite (hide_not_visible Loading).
      rewrite (hide_keeps_other Loading Standby), (hide_keeps_other Loading Launcher)
        by (discriminate || reflexivity).
      cbn [Nat.b2n]. lia.
    + apply negb_true_iff in Hg. cbn [hide].
      destruct (launcher_hide_flags s) as (-> & -> & ->). rewrite Hg. cbn. lia.
  - cbn [hide_first] in Hg.
    apply andb_prop in Hg as [H1%negb_true_iff H2%negb_true_iff].
    rewrite pwr_button_callback_cases, H1.
    destruct (visible Launcher s) eqn:E.
    + destruct (launcher_hide_flags s) as (-> & -> & ->). rewrite H2. cbn. lia.
    + rewrite H1, H2, E. cbn. lia.
  - cbn [hide_first] in Hg.
    apply andb_prop in Hg as [H1%negb_true_iff H2%negb_true_iff].
    rewrite boot_button_callback_cases, H1.
    destruct (visible Launcher s) eqn:E.
    + destruct (launcher_hide_flags s) as (-> & -> & ->). rewrite H2. cbn. lia.
    + rewrite H1, H2, E. cbn. lia.
Qed.

Lemma show_sets_own x s :
  can_show x s = true -> visible x (exec (show x) s) = true.
Proof.
  destruct x; cbn [can_show show]; intros H.
  - apply standby_screen_show_visible.
  - now apply loading_screen_show_visible.
  - apply launcher_show_visible.
Qed.

Lemma initial_state_hidden e disp mem cfg :
  visible_count (initial_state e disp mem cfg) = 0%nat.
Proof. reflexivity. Qed.

Lemma hide_first_run_exclusive s ops s' :
  hide_first_run s ops s' ->
  (visible_count s <= 1)%nat -> (visible_count s' <= 1)%nat.
Proof.
  induction 1 as [s | s o l s' Hg _ IH]; intros Hc.
  - exact Hc.
  - apply IH. now apply hide_first_step.
Qed.

(** ** Construction of the screen objects *)

(** Rewrites the tail of a run: [f (exec m st)] into [f st] when [m]
    keeps [f], and drops the [p]-events of a tail [m] that is silent. *)
Ltac keeps_tail f :=
  lazymatch goal with
  | |- context [post (?m ?st)] =>
      let K := fresh "K" in
      assert (K : keeps f m) by frame;
      let K' := fresh "K" in
      pose proof (K st) as K'; unfold exec in K'; cbv beta in K';
      rewrite K'; clear K K'
  end.

Ltac silent_tail p :=
  lazymatch goal with
  | |- context [List.filter p (evs (?m ?st))] =>
      let K := fresh "K" in
      assert (K : silent p m) by frame;
      let K' := fresh "K" in
      pose proof (K st) as K'; unfold trace in K';
      rewrite K'; clear K K'
  end.

(** [standby_screen_update] assigns [last_update] and nothing else. *)
Lemma keeps_standby_screen_update_but_last_update {B} (f : state -> B) :
  (forall v s, f (with_standby (set_last_update v) s) = f s) ->
  keeps f standby_screen_update.
Proof. intros H. unfold standby_screen_update. frame. Qed.

#[local] Hint Extern 1 (keeps _ standby_screen_update) =>
  (apply keeps_standby_screen_update_but_last_update; intros; reflexivity) : frame.
#[local] Hint Extern 1 (keeps _ (loading_screen_set_progress _)) =>
  (apply keeps_loading_screen_set_progress; intros ? ?; reflexivity) : frame.
#[local] Hint Extern 1 (keeps _ (loading_screen_set_message _)) =>
  (apply keeps_loading_screen_set_message) : frame.

Lemma silent_standby_screen_update_construction :
  silent is_construction standby_screen_update.
Proof. unfold standby_screen_update. frame. Qed.

Lemma silent_loading_screen_set_message_construction msg :
  silent is_construction (loading_screen_set_message msg).
Proof. unfold loading_screen_set_message. frame. Qed.

Lemma silent_loading_screen_set_progress_construction percent :
  silent is_construction (loading_screen_set_progress percent).
Proof. unfold loading_screen_set_progress. frame. Qed.

#[local] Hint Resolve silent_standby_screen_update_construction
  silent_loading_screen_set_message_construction
  silent_loading_screen_set_progress_construction : frame.

(** *** The three [init]s, when the screen object is still null *)

Lemma standby_screen_init_constructs s :
  standby_screen (st_standby s) = None ->
  (0 < lv_mem (st_lv s))%nat ->
  standby_screen (st_standby (exec standby_screen_init s)) = Some (lv_next (st_lv s)) /\
  List.filter is_construction (trace standby_screen_init s)
  = [EvCreate LvObj None (Some (lv_next (st_lv s)))].
Proof.
  intros Hscr Hmem.
  destruct s as [[disp mem nxt act bars ud] env la [scr tl dl bl bi wi sl vis lu] lo cfg ini].
  cbn in Hscr, Hmem. subst.
  destruct mem as [|[|[|[|[|[|[|mem]]]]]]]; try lia; split; reflexivity.
Qed.

Lemma launcher_init_constructs s :
  launcher_screen (st_launcher s) = None ->
  (0 < lv_mem (st_lv s))%nat ->
  launcher_screen (st_launcher (exec launcher_init s)) = Some (lv_next (st_lv s)) /\
  List.filter is_construction (trace launcher_init s)
  = [EvCreate LvObj None (Some (lv_next (st_lv s)))].
Proof.
  intros Hscr Hmem.
  destruct s as [[disp mem nxt act bars ud] env [scr b1 b2 cb vis] sb lo cfg ini].
  cbn in Hscr, Hmem. subst.
  destruct mem as [|[|[|[|[|[|[|[|mem]]]]]]]]; try lia; split; reflexivity.
Qed.

Lemma loading_screen_init_constructions s :
  loading_screen (st_loading s) = None ->
  lv_display_default (st_lv s) = true ->
  (0 < lv_mem (st_lv s))%nat ->
  List.filter is_construction (trace loading_screen_init s)
  = [EvCreate LvObj None (Some (lv_next (st_lv s)))].
Proof.
  intros Hscr Hdisp Hmem.
  destruct s as [[disp mem nxt act bars ud] env la sb [scr lg ml sp pb vis ang lsu] cfg ini].
  cbn in Hscr, Hdisp, Hmem. subst.
  destruct mem as [|[|[|[|[|[|mem]]]]]]; try lia; reflexivity.
Qed.

(** *** [show] on a variant that is not constructed yet *)

Lemma standby_screen_show_first s :
  standby_screen (st_standby s) = None ->
  (0 < lv_mem (st_lv s))%nat ->
  constructions (trace standby_screen_show s) = 1%nat /\
  standby_screen (st_standby (exec standby_screen_show s)) = Some (lv_next (st_lv s)).
Proof.
  intros Hscr Hmem.
  destruct (standby_screen_init_constructs s Hscr Hmem) as [Hobj Hev].
  unfold constructions, trace, exec, standby_screen_show.
  rewrite evs_bind, post_bind. cbn [gets val post evs app].
  rewrite Hscr. cbn [is_null when].
  rewrite evs_bind, post_bind, List.filter_app, length_app.
  fold (trace standby_screen_init s). rewrite Hev.
  split.
  - silent_tail is_construction. reflexivity.
  - keeps_tail (fun s => standby_screen (st_standby s)). exact Hobj.
Qed.

Lemma launcher_show_first s :
  launcher_screen (st_launcher s) = None ->
  (0 < lv_mem (st_lv s))%nat ->
  constructions (trace launcher_show s) = 1%nat /\
  launcher_screen (st_launcher (exec launcher_show s)) = Some (lv_next (st_lv s)).
Proof.
  intros Hscr Hmem.
  destruct (launcher_init_constructs s Hscr Hmem) as [Hobj Hev].
  unfold constructions, trace, exec, launcher_show.
  rewrite evs_bind, post_bind. cbn [gets val post evs app].
  rewrite Hscr. cbn [is_null when].
  rewrite evs_bind, post_bind, List.filter_app, length_app.
  fold (trace launcher_init s). rewrite Hev.
  split.
  - silent_tail is_construction. reflexivity.
  - keeps_tail (fun s => launcher_screen (st_launcher s)). exact Hobj.
Qed.

Lemma loading_screen_show_first s :
  loading_screen (st_loading s) = None ->
  lv_display_default (st_lv s) = true ->
  (0 < lv_mem (st_lv s))%nat ->
  constructions (trace loading_screen_show s) = 1%nat /\
  loading_screen (st_loading (exec loading_screen_show s)) = Some (lv_next (st_lv s)).
Proof.
  intros Hscr Hdisp Hmem.
  pose proof (loading_screen_init_constructs s Hscr Hdisp Hmem) as Hobj.
  pose proof (loading_screen_init_constructions s Hscr Hdisp Hmem) as Hev.
  unfold constructions, trace, exec, loading_screen_show.
  rewrite evs_bind, post_bind. cbn [gets val post evs app].
  rewrite Hscr. cbn [is_null when].
  rewrite evs_bind, post_bind, List.filter_app, length_app.
  fold (trace loading_screen_init s). rewrite Hev.
  split.
  - silent_tail is_construction. reflexivity.
  - keeps_tail (fun s => loading_screen (st_loading s)). exact Hobj.
Qed.

(** *** [show] loads the screen object *)

Lemma standby_screen_show_loads s :
  lv_act_scr (st_lv (exec standby_screen_show s))
  = standby_screen (st_standby (exec standby_screen_show s)).
Proof.
  unfold exec, standby_screen_show. rewrite !post_bind.
  pose proof (keeps_standby_screen_update_but_last_update
                (fun s => lv_act_scr (st_lv s)) (fun _ _ => eq_refl)) as K1.
  pose proof (keeps_standby_screen_update_but_last_update
                (fun s => standby_screen (st_standby s)) (fun _ _ => eq_refl)) as K2.
  unfold keeps, exec in K1, K2. rewrite K1, K2. reflexivity.
Qed.

Lemma launcher_show_loads s :
  lv_act_scr (st_lv (exec launcher_show s))
  = launcher_screen (st_launcher (exec launcher_show s)).
Proof. reflexivity. Qed.

Lemma loading_screen_show_loads s :
  loading_can_show s = true ->
  lv_act_scr (st_lv (exec loading_screen_show s))
  = loading_screen (st_loading (exec loading_screen_show s)).
Proof.
  unfold loading_can_show.
  destruct s as [[disp mem nxt act bars ud] env la sb [scr lg ml sp pb vis ang lsu] cfg ini].
  cbn [st_lv st_loading lv_display_default lv_mem loading_screen].
  intros [-> H]%andb_prop.
  destruct ml, pb, scr; try reflexivity;
    cbn in H; destruct mem as [|[|[|[|[|[|mem]]]]]]; try discriminate; reflexivity.
Qed.

(** *** [show] on a constructed variant *)

Lemma standby_screen_show_again s o :
  standby_screen (st_standby s) = Some o ->
  constructions (trace standby_screen_show s) = 0%nat /\
  standby_screen (st_standby (exec standby_screen_show s)) = Some o.
Proof.
  intros Hscr.
  unfold constructions, trace, exec, standby_screen_show.
  rewrite evs_bind, post_bind. cbn [gets val post evs app].
  rewrite Hscr. cbn [is_null when]. split.
  - silent_tail is_construction. reflexivity.
  - keeps_tail (fun s => standby_screen (st_standby s)). exact Hscr.
Qed.

Lemma launcher_show_again s o :
  launcher_screen (st_launcher s) = Some o ->
  constructions (trace launcher_show s) = 0%nat /\
  launcher_screen (st_launcher (exec launcher_show s)) = Some o.
Proof.
  intros Hscr.
  unfold constructions, trace, exec, launcher_show.
  rewrite evs_bind, post_bind. cbn [gets val post evs app].
  rewrite Hscr. cbn [is_null when]. split.
  - silent_tail is_construction. reflexivity.
  - keeps_tail (fun s => launcher_screen (st_launcher s)). exact Hscr.
Qed.

Lemma loading_screen_show_again s o :
  loading_screen (st_loading s) = Some o ->
  constructions (trace loading_screen_show s) = 0%nat /\
  loading_screen (st_loading (exec loading_screen_show s)) = Some o.
Proof.
  intros Hscr.
  unfold constructions, trace, exec, loading_screen_show.
  rewrite evs_bind, post_bind. cbn [gets val post evs app].
  rewrite Hscr. cbn [is_null when]. split.
  - silent_tail is_construction. reflexivity.
  - keeps_tail (fun s => loading_screen (st_loading s)). exact Hscr.
Qed.

(** Without a display, [loading_screen_show] builds nothing and leaves
    the variant as it found it. *)
Lemma loading_screen_show_no_display s :
  lv_display_default (st_lv s) = false ->
  constructions (trace loading_screen_show s) = 0%nat /\
  loading_screen (st_loading (exec loading_screen_show s)) = loading_screen (st_loading s) /\
  visible Loading (exec loading_screen_show s) = visible Loading s.
Proof.
  destruct s as [[disp mem nxt act bars ud] env la sb [scr lg ml sp pb vis ang lsu] cfg ini].
  cbn [st_lv lv_display_default]. intros ->.
  destruct scr; repeat split; reflexivity.
Qed.

(** ** Screen changes of [standby_screen_show], [launcher_hide] and the
    application buttons *)

Lemma silent_standby_screen_update_change : silent is_change standby_screen_update.
Proof. unfold standby_screen_update. frame. Qed.

Lemma silent_standby_screen_update_app_show : silent is_app_show standby_screen_update.
Proof. unfold standby_screen_update. frame. Qed.

Lemma standby_screen_init_changes s :
  standby_screen (st_standby s) = None ->
  changes (trace standby_screen_init s) = [EvVisible Standby false].
Proof.
  intros Hscr.
  destruct s as [[disp mem nxt act bars ud] env la [scr tl dl bl bi wi sl vis lu] lo cfg ini].
  cbn in Hscr. subst.
  destruct mem as [|[|[|[|[|[|[|mem]]]]]]]; reflexivity.
Qed.

Lemma standby_screen_show_changes s :
  changes (trace standby_screen_show s)
  = (if is_null (standby_screen (st_standby s)) then [EvVisible Standby false] else [])
    ++ [EvScreenLoad (standby_screen (st_standby (exec standby_screen_show s)));
        EvVisible Standby true].
Proof.
  pose proof (keeps_standby_screen_update_but_last_update
                (fun s => standby_screen (st_standby s)) (fun _ _ => eq_refl)) as K.
  pose proof silent_standby_screen_update_change as Q.
  unfold keeps, silent, exec, trace in K, Q.
  unfold changes, trace, exec, standby_screen_show.
  rewrite !evs_bind, !post_bind, !List.filter_app, K, Q.
  cbn [gets val post evs List.filter app].
  assert (H : List.filter is_change
                (evs (when (is_null (standby_screen (st_standby s))) standby_screen_init s))
              = if is_null (standby_screen (st_standby s))
                then [EvVisible Standby false] else []).
  { destruct (standby_screen (st_standby s)) eqn:E; cbn [is_null when]; [reflexivity|].
    now apply standby_screen_init_changes. }
  rewrite H. reflexivity.
Qed.

Lemma silent_standby_screen_show_app_show : silent is_app_show standby_screen_show.
Proof.
  pose proof silent_standby_screen_update_app_show.
  unfold standby_screen_show, standby_screen_init. frame.
Qed.

Lemma launcher_hide_changes s :
  changes (trace launcher_hide s)
  = EvVisible Launcher false
    :: (if is_null (standby_screen (st_standby s)) then [EvVisible Standby false] else [])
    ++ [EvScreenLoad (standby_screen (st_standby (exec launcher_hide s)));
        EvVisible Standby true].
Proof.
  unfold launcher_hide. rewrite trace_bind. unfold changes.
  rewrite List.filter_app. fold (changes (trace standby_screen_show (exec (set_visible Launcher false) s))).
  rewrite standby_screen_show_changes. reflexivity.
Qed.

Lemma launcher_hide_dispatches s : dispatches (trace launcher_hide s) = 0%nat.
Proof.
  unfold dispatches, launcher_hide. rewrite trace_bind, List.filter_app.
  rewrite (silent_standby_screen_show_app_show _). reflexivity.
Qed.

(** What a click on an application button does, callback installed. *)
Lemma app_btn_event_cb_click s btn a f :
  lv_user_data (st_lv s) !! btn = Some a ->
  s_app_launch_callback (st_launcher s) = Some f ->
  trace (app_btn_event_cb (click (Some btn))) s = EvAppShow a :: trace launcher_hide s /\
  exec (app_btn_event_cb (click (Some btn))) s = exec launcher_hide s.
Proof.
  intros Hud Hcb.
  unfold trace, exec, app_btn_event_cb, click. cbn [ev_code ev_target].
  rewrite !evs_bind, !post_bind.
  unfold lv_obj_get_user_data. cbn [gets val post evs app].
  rewrite Hud, Hcb. cbn [default]. destruct f, a; split; reflexivity.
Qed.

(** ** Hiding twice *)

(** The state after [standby_screen_update]: at most [last_update] moves. *)
Lemma standby_screen_update_exec s :
  exec standby_screen_update s =
  if negb (standby_visible (st_standby s)) || is_null (standby_screen (st_standby s))
  then s
  else
    let current_time := Z.quot (esp_timer_us (st_env s)) 1000 in
    if current_time - last_update (st_standby s) <? 1000 then s
    else with_standby (set_last_update current_time) s.
Proof.
  unfold exec, standby_screen_update, esp_timer_get_time.
  rewrite !post_bind. cbn [gets val post].
  destruct (negb _ || _); [reflexivity|].
  rewrite !post_bind. cbn [gets val post]. cbv zeta.
  destruct (_ <? 1000); [reflexivity|].
  rewrite post_bind. cbn [modify val post].
  keeps_tail (fun s : state => s). reflexivity.
Qed.

(** The state in which [standby_screen_show] calls
    [standby_screen_update], from the state [s1] it loads the screen in. *)
Lemma standby_screen_show_exec s :
  exec standby_screen_show s =
  let s1 := exec (when (is_null (standby_screen (st_standby s))) standby_screen_init) s in
  exec standby_screen_update
    (with_standby (set_last_update 0)
       (with_standby (set_standby_visible true)
          (exec (lv_screen_load (standby_screen (st_standby s1))) s1))).
Proof. reflexivity. Qed.

Lemma standby_screen_show_again_idempotent s1 o :
  standby_screen (st_standby s1) = Some o ->
  let r := exec standby_screen_update
             (with_standby (set_last_update 0)
                (with_standby (set_standby_visible true)
                   (exec (lv_screen_load (Some o)) s1))) in
  exec standby_screen_show r = r.
Proof.
  intros Hscr. cbv zeta.
  set (t := with_standby (set_last_update 0) _).
  assert (Hr : exec standby_screen_update t = t \/
               exists q, exec standby_screen_update t = with_standby (set_last_update q) t).
  { rewrite standby_screen_update_exec. cbv zeta.
    destruct (negb _ || _); [now left|].
    destruct (_ <? 1000); [now left|]. right; eauto. }
  assert (Hidem : forall r, (r = t \/ exists q, r = with_standby (set_last_update q) t) ->
                            exec standby_screen_show r = exec standby_screen_update t).
  { intros r Hr'. rewrite standby_screen_show_exec. cbv zeta.
    assert (Hrs : standby_screen (st_standby r) = Some o)
      by (destruct Hr' as [->|[q ->]]; exact Hscr).
    rewrite Hrs. cbn [is_null when]. change (exec (ret tt) r) with r. rewrite Hrs.
    f_equal. destruct Hr' as [->|[q ->]]; reflexivity. }
  exact (Hidem _ Hr).
Qed.

Lemma standby_screen_show_idempotent s :
  exec standby_screen_show (exec standby_screen_show s) = exec standby_screen_show s.
Proof.
  destruct (standby_screen (st_standby s)) as [o|] eqn:Hscr.
  - rewrite (standby_screen_show_exec s). cbv zeta.
    rewrite Hscr. cbn [is_null when]. change (exec (ret tt) s) with s. rewrite Hscr.
    now apply standby_screen_show_again_idempotent.
  - destruct (lv_mem (st_lv s)) as [|n] eqn:Hmem.
    + destruct s as [[disp mem nxt act bars ud] env la [scr tl dl bl bi wi sl vis lu] lo cfg ini].
      cbn in Hscr, Hmem. subst. reflexivity.
    + assert (Hm : (0 < lv_mem (st_lv s))%nat) by lia.
      destruct (standby_screen_init_constructs s Hscr Hm) as [Hobj _].
      rewrite (standby_screen_show_exec s). cbv zeta.
      rewrite Hscr. cbn [is_null when]. rewrite Hobj.
      now apply standby_screen_show_again_idempotent.
Qed.

(** *** Independence from a state change *)

Section CommuteRules.
Variable g : state -> state.

Lemma commutes_ret {A} (a : A) : commutes g (ret a).
Proof. intros s; reflexivity. Qed.

Lemma commutes_emit e : commutes g (emit e).
Proof. intros s; reflexivity. Qed.

Lemma commutes_gets {A} (f : state -> A) :
  (forall s, f (g s) = f s) -> commutes g (gets f).
Proof. intros H s. unfold gets. now rewrite H. Qed.

Lemma commutes_modify h :
  (forall s, h (g s) = g (h s)) -> commutes g (modify h).
Proof. intros H s. unfold modify. now rewrite H. Qed.

Lemma commutes_bind {A C} (m : M A) (k : A -> M C) :
  commutes g m -> (forall a, commutes g (k a)) -> commutes g (x <- m ;; k x).
Proof.
  intros Hm Hk s. unfold bind. cbv zeta. rewrite Hm. cbn [val post evs].
  rewrite Hk. reflexivity.
Qed.

Lemma commutes_if {A} (c : bool) (m1 m2 : M A) :
  commutes g m1 -> commutes g m2 -> commutes g (if c then m1 else m2).
Proof. destruct c; auto. Qed.

Lemma commutes_when c m : commutes g m -> commutes g (when c m).
Proof. destruct c; [auto | intros _; apply commutes_ret]. Qed.

Lemma commutes_lv_create k parent :
  (forall s, st_lv (g s) = st_lv s) ->
  (forall h s, with_lv h (g s) = g (with_lv h s)) ->
  commutes g (lv_create k parent).
Proof.
  intros H1 H2 s. unfold lv_create. rewrite H1.
  destruct (lv_mem (st_lv s)); cbn [val post evs]; [reflexivity|].
  now rewrite H2.
Qed.
End CommuteRules.

Ltac commute_step :=
  lazymatch goal with
  | |- commutes _ (bind _ _) => apply commutes_bind; [ | intros ? ]
  | |- commutes _ (ret _) => apply commutes_ret
  | |- commutes _ (emit _) => apply commutes_emit
  | |- commutes _ (gets _) => apply commutes_gets; intros ?; reflexivity
  | |- commutes _ (modify _) => apply commutes_modify; intros ?; reflexivity
  | |- commutes _ (when _ _) => apply commutes_when
  | |- commutes _ (lv_create _ _) =>
      apply commutes_lv_create; [ intros ?; reflexivity | intros ? ?; reflexivity ]
  | |- commutes _ (if _ then _ else _) => apply commutes_if
  | |- commutes _ (match ?x with _ => _ end) => destruct x
  end.

Ltac commute :=
  repeat first
    [ commute_step
    | progress unfold
        bsp_display_lock, bsp_display_unlock, lv_display_get_default,
        esp_timer_get_time, lv_obj_create, lv_label_create, lv_btn_create,
        lv_spinner_create, lv_bar_create, icon_create, icon_set_type,
        lv_screen_load, lv_label_set_text, lv_bar_set_value,
        lv_obj_set_user_data, lv_obj_get_user_data, set_visible ].

(** [standby_screen_show] neither reads nor writes the Launcher's flag. *)
Lemma standby_screen_show_commutes b :
  commutes (with_launcher (set_launcher_visible b)) standby_screen_show.
Proof.
  unfold standby_screen_show, standby_screen_init, standby_screen_update. commute.
Qed.

Lemma standby_screen_show_after_launcher_flag b s :
  exec standby_screen_show (with_launcher (set_launcher_visible b) s)
  = with_launcher (set_launcher_visible b) (exec standby_screen_show s).
Proof. unfold exec. now rewrite standby_screen_show_commutes. Qed.

Lemma launcher_hide_exec s :
  exec launcher_hide s
  = with_launcher (set_launcher_visible false) (exec standby_screen_show s).
Proof.
  unfold launcher_hide. rewrite exec_bind.
  apply standby_screen_show_after_launcher_flag.
Qed.

Lemma hide_idempotent x s : exec (hide x ;; hide x) s = exec (hide x) s.
Proof.
  destruct x; cbn [hide]; try reflexivity.
  rewrite exec_bind, !launcher_hide_exec.
  rewrite standby_screen_show_after_launcher_flag, standby_screen_show_idempotent.
  reflexivity.
Qed.


(** Two calls of [standby_screen_show] with any change of the
    surroundings in between: the second call leaves what the first left,
    up to [last_update], which follows the timer. *)
Lemma standby_screen_show_again_any_time s1 o e :
  standby_screen (st_standby s1) = Some o ->
  let r := exec standby_screen_update
             (with_standby (set_last_update 0)
                (with_standby (set_standby_visible true)
                   (exec (lv_screen_load (Some o)) s1))) in
  exists q, exec standby_screen_show (with_env e r)
            = with_env e (with_standby (set_last_update q) r).
Proof.
  intros Hscr. cbv zeta.
  set (t := with_standby (set_last_update 0) _).
  assert (Hr : exec standby_screen_update t = t \/
               exists q, exec standby_screen_update t = with_standby (set_last_update q) t).
  { rewrite standby_screen_update_exec. cbv zeta.
    destruct (negb _ || _); [now left|].
    destruct (_ <? 1000); [now left|]. right; eauto. }
  assert (Hshow : exec standby_screen_show (with_env e (exec standby_screen_update t))
                  = exec standby_screen_update (with_env e t)).
  { rewrite standby_screen_show_exec. cbv zeta.
    assert (Hrs : standby_screen (st_standby (with_env e (exec standby_screen_update t)))
                  = Some o) by (destruct Hr as [->|[q ->]]; exact Hscr).
    rewrite Hrs. cbn [is_null when].
    change (exec (ret tt) ?x) with x. rewrite Hrs.
    f_equal. destruct Hr as [->|[q ->]]; reflexivity. }
  rewrite Hshow, (standby_screen_update_exec (with_env e t)). cbv zeta.
  destruct (negb _ || _).
  - exists 0. destruct Hr as [->|[q ->]]; reflexivity.
  - destruct (_ <? 1000).
    + exists 0. destruct Hr as [->|[q ->]]; reflexivity.
    + eexists. destruct Hr as [->|[q ->]]; reflexivity.
Qed.

Lemma standby_screen_show_twice_any_time s e :
  exists q, exec standby_screen_show (with_env e (exec standby_screen_show s))
            = with_env e (with_standby (set_last_update q) (exec standby_screen_show s)).
Proof.
  destruct (standby_screen (st_standby s)) as [o|] eqn:Hscr.
  - rewrite (standby_screen_show_exec s). cbv zeta.
    rewrite Hscr. cbn [is_null when]. change (exec (ret tt) s) with s. rewrite Hscr.
    now apply standby_screen_show_again_any_time.
  - destruct (lv_mem (st_lv s)) as [|n] eqn:Hmem.
    + destruct s as [[disp mem nxt act bars ud] env la [scr tl dl bl bi wi sl vis lu] lo cfg ini].
      cbn in Hscr, Hmem. subst. exists 0. reflexivity.
    + assert (Hm : (0 < lv_mem (st_lv s))%nat) by lia.
      destruct (standby_screen_init_constructs s Hscr Hm) as [Hobj _].
      rewrite (standby_screen_show_exec s). cbv zeta.
      rewrite Hscr. cbn [is_null when]. rewrite Hobj.
      now apply standby_screen_show_again_any_time.
Qed.

(** The same for [launcher_hide]: hiding twice is hiding once, whatever
    the timer reads at the second call, up to [last_update]. *)
Lemma launcher_hide_twice_any_time s e :
  exists q, exec launcher_hide (with_env e (exec launcher_hide s))
            = with_env e (with_standby (set_last_update q) (exec launcher_hide s)).
Proof.
  rewrite !launcher_hide_exec.
  change (with_env e (with_launcher (set_launcher_visible false) (exec standby_screen_show s)))
    with (with_launcher (set_launcher_visible false)
            (with_env e (exec standby_screen_show s))).
  rewrite standby_screen_show_after_launcher_flag.
  destruct (standby_screen_show_twice_any_time s e) as [q ->].
  exists q. reflexivity.
Qed.

Lemma hide_hidden_noop x s :
  x <> Launcher -> visible x s = false -> exec (hide x) s = s.
Proof.
  intros Hx Hv.
  destruct s as [lv env la [scr tl dl bl bi wi sl vis lu] [lscr lg ml sp pb lvis ang lsu] cfg ini].
  destruct x; try congruence; cbn in Hv; subst; reflexivity.
Qed.

(** ** The progress bar *)

Lemma clamp_percent_clamped v : clamp_percent v = clamped_0_100 v.
Proof.
  unfold clamp_percent, clamped_0_100.
  destruct (Z.ltb_spec v 0); [lia|].
  destruct (Z.gtb_spec v 100); lia.
Qed.

Lemma loading_screen_set_progress_stores s b percent :
  progress_bar (st_loading s) = Some b ->
  bar_value (Some b) (exec (loading_screen_set_progress percent) s)
  = Some (clamp_percent percent).
Proof.
  intros Hbar. unfold exec, loading_screen_set_progress.
  rewrite post_bind. cbn [gets val post]. rewrite Hbar.
  cbn. apply lookup_insert_eq.
Qed.

(** ** The boot sequence *)

Section NetRules.
Variable E : gmap string string -> environment -> list event.
Variable C : gmap string string -> environment -> gmap string string.

Lemma net_spec_skip {A B} (m : M A) (k : A -> M B) :
  silent is_net m -> keeps st_config m -> keeps st_env m ->
  (forall a, net_spec E C (k a)) -> net_spec E C (x <- m ;; k x).
Proof.
  intros Hs Hc He Hk s.
  destruct (Hk (val (m s)) (exec m s)) as (H1 & H2 & H3).
  rewrite Hc, He in *. unfold net_events in *.
  rewrite trace_bind, exec_bind, List.filter_app, Hs. auto.
Qed.

Lemma net_spec_then {A B} (m : M A) (k : A -> M B) :
  net_spec E C m ->
  (forall a, silent is_net (k a)) ->
  (forall a, keeps st_config (k a)) ->
  (forall a, keeps st_env (k a)) ->
  net_spec E C (x <- m ;; k x).
Proof.
  intros Hm Hs Hc He s. destruct (Hm s) as (H1 & H2 & H3).
  unfold net_events in *.
  rewrite trace_bind, exec_bind, List.filter_app, Hs, Hc, He, app_nil_r. auto.
Qed.
End NetRules.

Lemma main_task_network_spec : net_spec network_events network_config main_task_network.
Proof.
  intros s. unfold network_events, network_config, net_events, trace, exec,
    main_task_network, config_get, wifi_connect.
  rewrite !evs_bind, !post_bind. cbn [gets val post evs app]. cbv zeta.
  destruct (0 <? _)%nat.
  - repeat split; reflexivity.
  - rewrite !evs_bind, !post_bind. cbn [gets val post evs app bind emit ret].
    destruct (wifi_accepts _ _ _); repeat split; reflexivity.
Qed.

Lemma silent_standby_screen_show_net : silent is_net standby_screen_show.
Proof. unfold standby_screen_show, standby_screen_init, standby_screen_update. frame. Qed.

Lemma silent_loading_screen_init_net : silent is_net loading_screen_init.
Proof. unfold loading_screen_init. frame. Qed.

Lemma silent_loading_screen_set_message_net msg :
  silent is_net (loading_screen_set_message msg).
Proof. unfold loading_screen_set_message. frame. Qed.

Lemma silent_loading_screen_set_progress_net percent :
  silent is_net (loading_screen_set_progress percent).
Proof. unfold loading_screen_set_progress. frame. Qed.

Lemma silent_loading_screen_show_net : silent is_net loading_screen_show.
Proof.
  pose proof silent_loading_screen_init_net.
  pose proof silent_loading_screen_set_message_net.
  pose proof silent_loading_screen_set_progress_net.
  unfold loading_screen_show. frame.
Qed.

#[local] Hint Resolve silent_standby_screen_show_net silent_loading_screen_init_net
  silent_loading_screen_set_message_net silent_loading_screen_set_progress_net
  silent_loading_screen_show_net : frame.
#[local] Hint Extern 1 (keeps _ loading_screen_init) =>
  (apply keeps_loading_screen_init; intros ? ?; reflexivity) : frame.
#[local] Hint Extern 1 (keeps _ loading_screen_show) =>
  (apply keeps_loading_screen_show; intros ? ?; reflexivity) : frame.
#[local] Hint Extern 1 (keeps _ standby_screen_show) =>
  (apply keeps_standby_screen_show; intros ? ?; reflexivity) : frame.

Ltac net_steps :=
  lazymatch goal with
  | |- net_spec _ _ (bind main_task_network _) =>
      apply net_spec_then;
      [ apply main_task_network_spec | intros ? | intros ? | intros ? ]
  | |- net_spec _ _ (bind _ _) =>
      apply net_spec_skip; [ | | | intros ?; net_steps ]
  end.

Lemma main_task_boot_net : net_spec network_events network_config main_task_boot.
Proof.
  unfold main_task_boot. net_steps;
    unfold launcher_set_app_launch_callback, loading_screen_hide; frame.
Qed.

Lemma idle_quiet n :
  silent is_net (idle n) /\ keeps (fun s : state => s) (idle n).
Proof.
  induction n as [|n [IH1 IH2]]; cbn [idle]; split; unfold vTaskDelay; frame.
Qed.

Lemma main_task_net n : net_spec network_events network_config (main_task n).
Proof.
  unfold main_task. destruct (idle_quiet n) as [H1 H2].
  apply net_spec_then; [apply main_task_boot_net | intros _; exact H1 | |];
    intros _ s; now rewrite H2.
Qed.

Lemma main_task_boot_completes : sets system_initialized true main_task_boot.
Proof.
  unfold main_task_boot.
  repeat lazymatch goal with
         | |- sets _ _ (bind _ _) => apply sets_bind_later; intros ?
         end.
  intros s; reflexivity.
Qed.

Lemma main_task_completes n s : system_initialized (exec (main_task n) s) = true.
Proof.
  unfold main_task. rewrite exec_bind.
  destruct (idle_quiet n) as [_ H]. rewrite H. apply main_task_boot_completes.
Qed.

(** Descends the binds of the goal to the first step that [tac] proves
    to set the observation. *)
Ltac sets_at tac :=
  lazymatch goal with
  | |- sets _ _ (bind _ _) =>
      first [ apply sets_bind_now; [ solve [tac] | intros ? ]
            | apply sets_bind_later; intros ?; sets_at tac ]
  end.

Lemma locked_hide_show_flags :
  sets (visible Standby) true (locked (loading_screen_hide ;; standby_screen_show)) /\
  sets (visible Loading) false (locked (loading_screen_hide ;; standby_screen_show)).
Proof.
  unfold locked, loading_screen_hide. split.
  - apply sets_bind_later; intros _. apply sets_bind_now.
    + apply sets_bind_later; intros _. apply standby_screen_show_visible.
    + intros _. unfold bsp_display_unlock. frame.
  - apply sets_bind_later; intros _. apply sets_bind_now.
    + apply sets_bind_now; [intros s; reflexivity | intros _].
      apply keeps_standby_screen_show; intros ? ?; reflexivity.
    + intros _. unfold bsp_display_unlock. frame.
Qed.

(** When [main_task] reaches its idle loop, Standby is the visible screen. *)
Lemma main_task_shows_standby n s :
  visible Standby (exec (main_task n) s) = true /\
  visible Loading (exec (main_task n) s) = false.
Proof.
  unfold main_task. rewrite exec_bind.
  destruct (idle_quiet n) as [_ H]. rewrite H. clear H.
  destruct locked_hide_show_flags as [H1 H2].
  split; revert s;
    [ change (sets (visible Standby) true main_task_boot)
    | change (sets (visible Loading) false main_task_boot) ];
    unfold main_task_boot;
    sets_at ltac:(first [exact H1 | exact H2]); frame.
Qed.

(** ** The I2C bus singleton *)

Section I2cFacts.
Variable driver : Type.
Variable new_bus : driver -> esp_result i2c_master_bus_handle_t * driver.
Variable add_device :
  i2c_master_bus_handle_t -> N -> driver ->
  esp_result i2c_master_dev_handle_t * driver.

Lemma get_i2c_bus_handle_existing (s : i2c_state driver) h :
  s_i2c_bus_handle s = Some h -> get_i2c_bus_handle new_bus s = (Some h, s).
Proof. intros H. unfold get_i2c_bus_handle. now rewrite H. Qed.

Lemma get_i2c_bus_handle_empty (s : i2c_state driver) :
  s_i2c_bus_handle s = None ->
  i2c_calls (snd (get_i2c_bus_handle new_bus s)) = i2c_calls s ++ [CallNewMasterBus] /\
  match fst (new_bus (i2c_driver s)) with
  | EspErr _ =>
      fst (get_i2c_bus_handle new_bus s) = None /\
      s_i2c_bus_handle (snd (get_i2c_bus_handle new_bus s)) = None
  | EspOk h =>
      fst (get_i2c_bus_handle new_bus s) = Some h /\
      s_i2c_bus_handle (snd (get_i2c_bus_handle new_bus s)) = Some h
  end.
Proof.
  intros H. unfold get_i2c_bus_handle. rewrite H.
  destruct (new_bus (i2c_driver s)) as [[h|code] d]; cbn; auto.
Qed.

Lemma create_i2c_device_on_bus (s : i2c_state driver) h addr :
  s_i2c_bus_handle s = Some h ->
  s_i2c_bus_handle (snd (create_i2c_device new_bus add_device addr s)) = Some h /\
  i2c_calls (snd (create_i2c_device new_bus add_device addr s))
  = i2c_calls s ++ [CallAddDevice h addr].
Proof.
  intros H. unfold create_i2c_device.
  rewrite (get_i2c_bus_handle_existing s h H).
  destruct (add_device h addr (i2c_driver s)) as [[dev|code] d]; cbn; auto.
Qed.

Lemma create_i2c_device_slot (s : i2c_state driver) addr :
  s_i2c_bus_handle (snd (create_i2c_device new_bus add_device addr s))
  = s_i2c_bus_handle (snd (get_i2c_bus_handle new_bus s)).
Proof.
  unfold create_i2c_device.
  destruct (get_i2c_bus_handle new_bus s) as [[b|] s1]; [|reflexivity].
  destruct (add_device b addr (i2c_driver s1)) as [[dev|code] d]; reflexivity.
Qed.

(** C9.  [get_i2c_bus_handle] returns the handle in the slot, without a
    call to the driver, when the slot is filled; with an empty slot it
    calls [i2c_new_master_bus] once, returns null and leaves the slot
    empty when that fails, and fills the slot when it succeeds.  A
    [create_i2c_device] that fails while the slot holds a handle leaves
    that handle in the slot, and the next creation, for any address, is
    made on the same handle with no new bus construction.  In every case
    the slot after [create_i2c_device] is the slot as
    [get_i2c_bus_handle] left it. *)
Theorem i2c_bus_singleton (s : i2c_state driver) :
  (forall h, s_i2c_bus_handle s = Some h ->
     get_i2c_bus_handle new_bus s = (Some h, s)) /\
  (s_i2c_bus_handle s = None ->
     i2c_calls (snd (get_i2c_bus_handle new_bus s))
     = i2c_calls s ++ [CallNewMasterBus] /\
     match fst (new_bus (i2c_driver s)) with
     | EspErr _ =>
         fst (get_i2c_bus_handle new_bus s) = None /\
         s_i2c_bus_handle (snd (get_i2c_bus_handle new_bus s)) = None
     | EspOk h =>
         fst (get_i2c_bus_handle new_bus s) = Some h /\
         s_i2c_bus_handle (snd (get_i2c_bus_handle new_bus s)) = Some h
     end) /\
  (forall h addr addr',
     s_i2c_bus_handle s = Some h ->
     fst (create_i2c_device new_bus add_device addr s) = None ->
     let s' := snd (create_i2c_device new_bus add_device addr s) in
     s_i2c_bus_handle s' = Some h /\
     i2c_calls s' = i2c_calls s ++ [CallAddDevice h addr] /\
     i2c_calls (snd (create_i2c_device new_bus add_device addr' s'))
     = i2c_calls s' ++ [CallAddDevice h addr']) /\
  (forall addr,
     s_i2c_bus_handle (snd (create_i2c_device new_bus add_device addr s))
     = s_i2c_bus_handle (snd (get_i2c_bus_handle new_bus s))).
Proof.
  split; [apply get_i2c_bus_handle_existing|].
  split; [apply get_i2c_bus_handle_empty|].
  split; [|apply create_i2c_device_slot].
  intros h addr addr' Hs _. cbv zeta.
  destruct (create_i2c_device_on_bus s h addr Hs) as [H1 H2].
  split; [exact H1|]. split; [exact H2|].
  apply (create_i2c_device_on_bus _ h addr' H1).
Qed.
End I2cFacts.

Lemma i2c_bus_singleton_witness :
  get_i2c_bus_handle demo_new_master_bus i2c_ready = (Some 1%nat, i2c_ready) /\
  fst (get_i2c_bus_handle dead_new_master_bus i2c_reset) = None /\
  s_i2c_bus_handle (snd (get_i2c_bus_handle dead_new_master_bus i2c_reset)) = None /\
  fst (get_i2c_bus_handle demo_new_master_bus i2c_reset) = Some 1%nat /\
  s_i2c_bus_handle
    (snd (create_i2c_device demo_new_master_bus demo_add_device 81 i2c_ready))
  = Some 1%nat /\
  i2c_calls
    (snd (create_i2c_device demo_new_master_bus demo_add_device 104
            (snd (create_i2c_device demo_new_master_bus demo_add_device 81 i2c_ready))))
  = [CallNewMasterBus; CallAddDevice 1%nat 81; CallAddDevice 1%nat 104].
Proof.
  pose proof (i2c_bus_singleton unit demo_new_master_bus demo_add_device i2c_ready)
    as (Hget & _ & Hdev & _).
  pose proof (i2c_bus_singleton unit dead_new_master_bus demo_add_device i2c_reset)
    as (_ & Hdead & _).
  pose proof (i2c_bus_singleton unit demo_new_master_bus demo_add_device i2c_reset)
    as (_ & Hnew & _).
  specialize (Hget 1%nat eq_refl).
  specialize (Hdead eq_refl) as (_ & Hd1 & Hd2).
  specialize (Hnew eq_refl) as (_ & Hn1 & _).
  specialize (Hdev 1%nat 81%N 104%N eq_refl eq_refl) as (Hs & Hc1 & Hc2).
  repeat split; assumption.
Defined.

(** ** The claims about the screens *)

(** *** C1: exclusive visibility *)

(** C1, as stated, fails: a [show] does not clear the flag of the screen
    it replaces.  From reset, [standby_screen_show] followed by
    [launcher_show] leaves two flags set, and so does [loading_screen_show]
    followed by [standby_screen_show]. *)
Lemma show_after_show_two_visible :
  visible_count (exec (run_ops [OpShow Standby; OpShow Launcher]) reset_state) = 2%nat /\
  visible_count (exec (run_ops [OpShow Loading; OpShow Standby]) reset_state) = 2%nat.
Proof. split; vm_compute; reflexivity. Qed.

(** C1 (amended).  A [show] sets the flag of its own screen and writes no
    other flag.  In every run from reset whose operations are issued
    hide-first (each shown screen finds the other two hidden, as in the
    boot hand-off, the Standby touch handler and [launcher_hide]), at most
    one flag is set at any time, and exactly one, that of the shown
    screen, right after a [show] that can load its screen. *)
Theorem flags_exclusive_in_hide_first_runs e disp mem cfg ops s' :
  hide_first_run (initial_state e disp mem cfg) ops s' ->
  (visible_count s' <= 1)%nat /\
  (forall x, hide_first (OpShow x) s' = true -> can_show x s' = true ->
     visible x (exec (show x) s') = true /\
     visible_count (exec (show x) s') = 1%nat) /\
  (forall x y, x <> y -> visible y (exec (show x) s') = visible y s').
Proof.
  intros Hrun. split; [|split].
  - apply (hide_first_run_exclusive _ _ _ Hrun).
    rewrite initial_state_hidden. lia.
  - intros x Hg Hc. pose proof (show_sets_own x s' Hc) as Hown.
    split; [exact Hown|].
    rewrite visible_count_flags.
    destruct x; cbn [hide_first] in Hg;
      apply andb_prop in Hg as [H1%negb_true_iff H2%negb_true_iff];
      rewrite Hown.
    + rewrite (show_keeps_other Standby Loading), (show_keeps_other Standby Launcher)
        by discriminate.
      now rewrite H1, H2.
    + rewrite (show_keeps_other Loading Standby), (show_keeps_other Loading Launcher)
        by discriminate.
      now rewrite H1, H2.
    + rewrite (show_keeps_other Launcher Standby), (show_keeps_other Launcher Loading)
        by discriminate.
      now rewrite H1, H2.
  - intros x y Hxy. now apply show_keeps_other.
Qed.

Lemma flags_exclusive_witness :
  (visible_count
     (exec (run_op (OpHide Launcher))
        (exec (run_op (OpShow Launcher))
           (exec (run_op (OpHide Standby))
              (exec (run_op (OpShow Standby))
                 (exec (run_op (OpHide Loading))
                    (exec (run_op (OpShow Loading))
                       (initial_state (env_demo false) true 100 ∅))))))) <= 1)%nat.
Proof.
  refine (proj1 (flags_exclusive_in_hide_first_runs (env_demo false) true 100 ∅
                   [OpShow Loading; OpHide Loading; OpShow Standby;
                    OpHide Standby; OpShow Launcher; OpHide Launcher] _ _)).
  repeat (apply hfr_cons; [vm_compute; reflexivity|]).
  apply hfr_nil.
Defined.

(** *** C2: a click on an application button *)

(** C2, as stated, fails: the handler dispatches first and hides the
    Launcher afterwards, and hiding the Launcher shows Standby.  With the
    Launcher open after boot, a click on the first application button
    makes four screen changes, the application's [show] first. *)
Lemma app_click_dispatches_before_hide :
  changes (trace (app_btn_event_cb (click (app_smart_response (st_launcher launcher_state))))
             launcher_state)
  = [EvAppShow APP_SMART_RESPONSE; EvVisible Launcher false;
     EvScreenLoad (standby_screen (st_standby launcher_state));
     EvVisible Standby true].
Proof. vm_compute. reflexivity. Qed.

(** C2 (amended).  A click on an application button, with a launch
    callback installed, invokes the callback for the button's application
    exactly once and before anything else; then the Launcher's flag is
    cleared; then Standby is shown (constructed if it was not), its screen
    loaded and its flag set. *)
Theorem app_click_changes s btn a f :
  lv_user_data (st_lv s) !! btn = Some a ->
  s_app_launch_callback (st_launcher s) = Some f ->
  let e := click (Some btn) in
  changes (trace (app_btn_event_cb e) s)
  = [EvAppShow a; EvVisible Launcher false]
    ++ (if is_null (standby_screen (st_standby s)) then [EvVisible Standby false] else [])
    ++ [EvScreenLoad (standby_screen (st_standby (exec (app_btn_event_cb e) s)));
        EvVisible Standby true] /\
  dispatches (trace (app_btn_event_cb e) s) = 1%nat.
Proof.
  intros Hud Hcb e. subst e.
  destruct (app_btn_event_cb_click s btn a f Hud Hcb) as [Ht He].
  rewrite Ht, He. split.
  - unfold changes at 1. cbn [List.filter is_change].
    fold (changes (trace launcher_hide s)).
    now rewrite launcher_hide_changes.
  - unfold dispatches. cbn [List.filter is_app_show length].
    fold (dispatches (trace launcher_hide s)).
    now rewrite launcher_hide_dispatches.
Qed.

Lemma app_click_changes_witness :
  dispatches (trace (app_btn_event_cb (click (Some 19%nat))) launcher_state) = 1%nat.
Proof.
  refine (proj2 (app_click_changes launcher_state 19%nat APP_DIFY_XIAOZHI
                   main_app_launch_callback _ _)); vm_compute; reflexivity.
Defined.

(** *** C3 and C4: the two buttons *)

(** With Standby's flag set, the PWR button opens the Launcher and leaves
    Standby's flag set. *)
Lemma pwr_button_from_standby s :
  visible Standby s = true ->
  visible Standby (exec pwr_button_callback s) = true /\
  visible Launcher (exec pwr_button_callback s) = true.
Proof.
  intros H. rewrite pwr_button_callback_cases, H. split.
  - now rewrite (show_keeps_other Launcher Standby) by discriminate.
  - apply launcher_show_visible.
Qed.

(** With the Launcher shown and Standby's flag clear, the PWR button
    returns to Standby. *)
Lemma pwr_button_from_launcher s :
  visible Standby s = false -> visible Launcher s = true ->
  visible Standby (exec pwr_button_callback s) = true /\
  visible Launcher (exec pwr_button_callback s) = false.
Proof.
  intros H1 H2. rewrite pwr_button_callback_cases, H1, H2.
  destruct (launcher_hide_flags s) as (-> & _ & ->). auto.
Qed.

(** The two callbacks agree unless both flags are set. *)
Lemma buttons_agree s :
  visible Standby s && visible Launcher s = false ->
  exec pwr_button_callback s = exec boot_button_callback s.
Proof.
  rewrite pwr_button_callback_cases, boot_button_callback_cases.
  destruct (visible Standby s), (visible Launcher s); cbn; congruence.
Qed.

(** C3.  After boot Standby is shown and the Launcher hidden.  The PWR
    button then opens the Launcher but leaves [standby_visible] set; a
    second press finds Standby's flag set, opens the Launcher again, and
    never reaches [launcher_hide]. *)
Theorem pwr_button_leaves_standby_visible :
  visible Standby booted_state = true /\
  visible Launcher booted_state = false /\
  visible Standby (exec pwr_button_callback booted_state) = true /\
  visible Launcher (exec pwr_button_callback booted_state) = true /\
  visible Launcher (exec (pwr_button_callback ;; pwr_button_callback) booted_state) = true.
Proof. repeat split; vm_compute; reflexivity. Qed.

(** C4.  The state after boot and one press of PWR has both flags set;
    there the PWR callback keeps the Launcher open and the BOOT callback
    closes it. *)
Theorem buttons_differ_after_pwr :
  visible Standby pwr_pressed_state = true /\
  visible Launcher pwr_pressed_state = true /\
  visible Launcher (exec pwr_button_callback pwr_pressed_state) = true /\
  visible Launcher (exec boot_button_callback pwr_pressed_state) = false.
Proof. repeat split; vm_compute; reflexivity. Qed.

(** *** C5: hiding twice *)

(** C5, as stated, fails for the Launcher: [launcher_hide] on a hidden
    Launcher is not a no-op, it shows Standby. *)
Lemma launcher_hide_on_hidden_shows_standby :
  visible Launcher reset_state = false /\
  visible Standby reset_state = false /\
  visible Standby (exec (hide Launcher) reset_state) = true /\
  lv_act_scr (st_lv reset_state) = None /\
  lv_act_scr (st_lv (exec (hide Launcher) reset_state)) = Some 1%nat.
Proof. repeat split; vm_compute; reflexivity. Qed.

(** C5 (amended).  For each of the three screens, hiding twice leaves the
    state that hiding once leaves.  [standby_screen_hide] and
    [loading_screen_hide] on a hidden screen change nothing.
    [launcher_hide] clears the Launcher's flag and shows Standby, whether
    or not the Launcher was visible; when the surroundings (the timer)
    change between two calls of it, the second call still leaves what the
    first left, up to Standby's [last_update]. *)
Theorem hide_twice x s :
  exec (hide x ;; hide x) s = exec (hide x) s /\
  (x <> Launcher -> visible x s = false -> exec (hide x) s = s) /\
  (visible Launcher (exec (hide Launcher) s) = false /\
   visible Standby (exec (hide Launcher) s) = true) /\
  (forall e, exists q,
     exec (hide Launcher) (with_env e (exec (hide Launcher) s))
     = with_env e (with_standby (set_last_update q) (exec (hide Launcher) s))).
Proof.
  split; [apply hide_idempotent|].
  split; [apply hide_hidden_noop|].
  split; [|intros e; apply launcher_hide_twice_any_time].
  destruct (launcher_hide_flags s) as (H1 & _ & H2). auto.
Qed.

Lemma hide_twice_witness :
  exec (hide Loading) reset_state = reset_state.
Proof.
  refine (proj1 (proj2 (hide_twice Loading reset_state)) _ _);
    [discriminate | reflexivity].
Defined.

(** *** C6: construction on first show *)

(** C6, as stated, fails for Loading: without a display the first
    [loading_screen_show] builds nothing and leaves the screen object
    null, so the next call starts over.  With a display, [main_task]
    calls [loading_screen_init] itself, and the first
    [loading_screen_show] after it builds nothing either. *)
Lemma loading_show_without_display_constructs_nothing :
  screen_obj Loading reset_no_display = None /\
  constructions (trace (show Loading) reset_no_display) = 0%nat /\
  screen_obj Loading (exec (show Loading) reset_no_display) = None /\
  constructions (trace (show Loading) (exec loading_screen_init reset_state)) = 0%nat.
Proof. repeat split; vm_compute; reflexivity. Qed.

(** C6 (amended).  A [show] on a variant whose screen object is null
    performs exactly one construction and stores the new object,
    provided LVGL has room for it and, for Loading, the display is
    available; without a display [loading_screen_show] constructs nothing
    and leaves the object null.  A [show] on a variant whose screen object
    exists performs no construction, keeps the object, and loads it
    (Loading: when the display is available). *)
Theorem show_constructs_once x s :
  (screen_obj x s = None -> can_construct x s = true ->
     constructions (trace (show x) s) = 1%nat /\
     screen_obj x (exec (show x) s) = Some (lv_next (st_lv s))) /\
  (forall o, screen_obj x s = Some o ->
     constructions (trace (show x) s) = 0%nat /\
     screen_obj x (exec (show x) s) = Some o /\
     (can_show x s = true -> lv_act_scr (st_lv (exec (show x) s)) = Some o)) /\
  (lv_display_default (st_lv s) = false ->
     constructions (trace (show Loading) s) = 0%nat /\
     screen_obj Loading (exec (show Loading) s) = screen_obj Loading s).
Proof.
  split; [|split].
  - unfold can_construct. intros Hscr [Hmem%Nat.ltb_lt Hdisp]%andb_prop.
    destruct x; cbn [screen_obj show] in *.
    + now apply standby_screen_show_first.
    + now apply loading_screen_show_first.
    + now apply launcher_show_first.
  - intros o Hscr. destruct x; cbn [screen_obj show can_show] in *.
    + destruct (standby_screen_show_again s o Hscr) as [H1 H2].
      repeat split; try assumption. intros _.
      now rewrite standby_screen_show_loads.
    + destruct (loading_screen_show_again s o Hscr) as [H1 H2].
      repeat split; try assumption. intros Hc.
      now rewrite loading_screen_show_loads.
    + destruct (launcher_show_again s o Hscr) as [H1 H2].
      repeat split; try assumption. intros _.
      now rewrite launcher_show_loads.
  - intros Hdisp. cbn [show screen_obj].
    destruct (loading_screen_show_no_display s Hdisp) as (H1 & H2 & _). auto.
Qed.

Lemma show_constructs_once_witness :
  constructions (trace (show Launcher) booted_state) = 1%nat /\
  constructions (trace (show Standby) booted_state) = 0%nat.
Proof.
  split.
  - refine (proj1 (proj1 (show_constructs_once Launcher booted_state) _ _));
      vm_compute; reflexivity.
  - refine (proj1 (proj1 (proj2 (show_constructs_once Standby booted_state)) 7%nat _)).
    vm_compute; reflexivity.
Defined.

(** *** C7: the progress value is clamped *)

(** C7.  Once the progress bar exists, [loading_screen_set_progress]
    stores in it the input clamped to [0,100]: 0 for -5, 100 for 150, 55
    for 55. *)
Theorem set_progress_clamps s b percent :
  progress_bar (st_loading s) = Some b ->
  bar_value (Some b) (exec (loading_screen_set_progress percent) s)
  = Some (clamped_0_100 percent) /\
  bar_value (Some b) (exec (loading_screen_set_progress (-5)) s) = Some 0 /\
  bar_value (Some b) (exec (loading_screen_set_progress 150) s) = Some 100 /\
  bar_value (Some b) (exec (loading_screen_set_progress 55) s) = Some 55.
Proof.
  intros Hbar.
  rewrite !(loading_screen_set_progress_stores s b _ Hbar), clamp_percent_clamped.
  repeat split; reflexivity.
Qed.

Lemma set_progress_clamps_witness :
  bar_value (Some 6%nat) (exec (loading_screen_set_progress 150) booted_state)
  = Some 100.
Proof.
  refine (proj1 (proj2 (proj2 (set_progress_clamps booted_state 6%nat 0 _)))).
  vm_compute; reflexivity.
Defined.

(** *** C8: the network step of the boot sequence *)

(** C8.  [main_task] always reaches its idle loop with
    [system_initialized] set and Standby shown, whatever the network step
    did.  With no stored SSID it tries the network BE3600; when that
    connects, it saves the SSID and the password of BE3600 to the
    configuration; when it does not, it starts the SoftAP and leaves the
    configuration as it was. *)
Theorem boot_network_fallback s n :
  (system_initialized (exec (main_task n) s) = true /\
   visible Standby (exec (main_task n) s) = true) /\
  (default "" (st_config s !! "wifi_ssid") = "" ->
   (wifi_accepts (st_env s) "BE3600" "19930101" = true ->
    net_events (trace (main_task n) s)
    = [EvWifiConnect "BE3600" "19930101" true;
       EvConfigSave "wifi_ssid" "BE3600";
       EvConfigSave "wifi_password" "19930101"] /\
    st_config (exec (main_task n) s)
    = <["wifi_password" := "19930101"]> (<["wifi_ssid" := "BE3600"]> (st_config s))) /\
   (wifi_accepts (st_env s) "BE3600" "19930101" = false ->
    net_events (trace (main_task n) s)
    = [EvWifiConnect "BE3600" "19930101" false; EvSoftAP] /\
    st_config (exec (main_task n) s) = st_config s)).
Proof.
  split.
  - split; [apply main_task_completes | apply main_task_shows_standby].
  - intros Hssid. destruct (main_task_net n s) as (H1 & H2 & _).
    rewrite H1, H2. unfold network_events, network_config. cbv zeta.
    rewrite Hssid. cbn [String.length Nat.ltb Nat.leb].
    split; intros ->; split; reflexivity.
Qed.

Lemma boot_network_fallback_witness :
  st_config (exec (main_task 2) (initial_state (env_demo true) true 100 ∅))
  = <["wifi_password" := "19930101"]> (<["wifi_ssid" := "BE3600"]> ∅) /\
  net_events (trace (main_task 2) (initial_state (env_demo false) true 100 ∅))
  = [EvWifiConnect "BE3600" "19930101" false; EvSoftAP].
Proof.
  split.
  - refine (proj2 (proj1 (proj2 (boot_network_fallback
                                   (initial_state (env_demo true) true 100 ∅) 2) _) _));
      reflexivity.
  - refine (proj1 (proj2 (proj2 (boot_network_fallback
                                   (initial_state (env_demo false) true 100 ∅) 2) _) _));
      reflexivity.
Defined.

(** *** C10: [launcher_hide] shows Standby *)

Lemma launcher_hide_constructions s :
  constructions (trace launcher_hide s)
  = constructions (trace standby_screen_show (exec (set_visible Launcher false) s)).
Proof.
  unfold launcher_hide, constructions. rewrite trace_bind, List.filter_app.
  reflexivity.
Qed.

(** C10.  After [launcher_hide] the Launcher's flag is clear, Standby's
    flag is set and Standby's screen object is the loaded screen; the
    object is kept when it exists and constructed when it does not and
    LVGL has room.  A click on an application button ends in
    [launcher_hide], after the application was launched: it leaves the
    same state, so launching an application shows Standby again. *)
Theorem launcher_hide_shows_standby_screen s :
  let s' := exec launcher_hide s in
  (visible Launcher s' = false /\
   visible Standby s' = true /\
   lv_act_scr (st_lv s') = standby_screen (st_standby s')) /\
  (forall o, standby_screen (st_standby s) = Some o ->
     standby_screen (st_standby s') = Some o /\
     constructions (trace launcher_hide s) = 0%nat) /\
  (standby_screen (st_standby s) = None -> (0 < lv_mem (st_lv s))%nat ->
     standby_screen (st_standby s') = Some (lv_next (st_lv s)) /\
     constructions (trace launcher_hide s) = 1%nat) /\
  (forall btn a f,
     lv_user_data (st_lv s) !! btn = Some a ->
     s_app_launch_callback (st_launcher s) = Some f ->
     trace (app_btn_event_cb (click (Some btn))) s = EvAppShow a :: trace launcher_hide s /\
     exec (app_btn_event_cb (click (Some btn))) s = s').
Proof.
  cbv zeta. split; [|split; [|split]].
  - destruct (launcher_hide_flags s) as (H1 & _ & H2).
    repeat split; try assumption.
    unfold launcher_hide. rewrite exec_bind. apply standby_screen_show_loads.
  - intros o Hscr. rewrite launcher_hide_constructions.
    unfold launcher_hide. rewrite exec_bind.
    destruct (standby_screen_show_again (exec (set_visible Launcher false) s) o Hscr).
    auto.
  - intros Hscr Hmem. rewrite launcher_hide_constructions.
    unfold launcher_hide. rewrite exec_bind.
    destruct (standby_screen_show_first (exec (set_visible Launcher false) s) Hscr Hmem).
    auto.
  - intros btn a f Hud Hcb. exact (app_btn_event_cb_click s btn a f Hud Hcb).
Qed.

Lemma launcher_hide_shows_standby_screen_witness :
  standby_screen (st_standby (exec launcher_hide reset_state)) = Some 1%nat /\
  exec (app_btn_event_cb (click (Some 16%nat))) launcher_state
  = exec launcher_hide launcher_state.
Proof.
  split.
  - refine (proj1 (proj1 (proj2 (proj2 (launcher_hide_shows_standby_screen reset_state)))
                     _ _)); vm_compute; [reflexivity | lia].
  - refine (proj2 (proj2 (proj2 (proj2 (launcher_hide_shows_standby_screen launcher_state)))
                     16%nat APP_SMART_RESPONSE main_app_launch_callback _ _));
      vm_compute; reflexivity.
Defined.

(** * Further properties *)

(** ** The display lock is released on every path *)

Lemma lock_depth_app t1 t2 d :
  lock_depth (t1 ++ t2) d
  = match lock_depth t1 d with
    | Some d' => lock_depth t2 d'
    | None => None
    end.
Proof.
  revert d. induction t1 as [|e t1 IH]; intros d; [reflexivity|].
  destruct e; cbn [app lock_depth]; try apply IH.
  destruct d; [reflexivity | apply IH].
Qed.

Section RelockRules.
Variable a : nat.

Lemma relocks_ret {A} (x : A) : relocks a a (ret x).
Proof. intros s d; reflexivity. Qed.

Lemma relocks_gets {A} (g : state -> A) : relocks a a (gets g).
Proof. intros s d; reflexivity. Qed.

Lemma relocks_modify g : relocks a a (modify g).
Proof. intros s d; reflexivity. Qed.

Lemma relocks_emit e :
  match e with EvLock | EvUnlock => False | _ => True end -> relocks a a (emit e).
Proof. intros H s d. destruct e; try contradiction; reflexivity. Qed.

Lemma relocks_lock : relocks a (S a) bsp_display_lock.
Proof. intros s d. cbn. now rewrite Nat.add_succ_r. Qed.

Lemma relocks_unlock : relocks (S a) a bsp_display_unlock.
Proof. intros s d. cbn. now rewrite Nat.add_succ_r. Qed.

Lemma relocks_bind {A C} b c (m : M A) (k : A -> M C) :
  relocks a b m -> (forall x, relocks b c (k x)) -> relocks a c (x <- m ;; k x).
Proof.
  intros Hm Hk s d. rewrite trace_bind, lock_depth_app, Hm. apply Hk.
Qed.

Lemma relocks_if {A} c (t : bool) (m1 m2 : M A) :
  relocks a c m1 -> relocks a c m2 -> relocks a c (if t then m1 else m2).
Proof. destruct t; auto. Qed.

Lemma relocks_when t m : relocks a a m -> relocks a a (when t m).
Proof. destruct t; [auto | intros _; apply relocks_ret]. Qed.

Lemma relocks_lv_create k parent : relocks a a (lv_create k parent).
Proof.
  intros s d. unfold trace, lv_create. destruct (lv_mem (st_lv s)); reflexivity.
Qed.

(** What releases the lock as often as it takes it can run at any depth. *)
Lemma relocks_lift {A} (m : M A) : relocks 0 0 m -> relocks a a m.
Proof.
  intros H s d. specialize (H s (d + a)%nat). now rewrite !Nat.add_0_r in H.
Qed.
End RelockRules.

Create HintDb relock.

Ltac relock :=
  lazymatch goal with
  | |- relocks ?a _ (bind bsp_display_lock _) =>
      apply (relocks_bind a (S a)); [ apply relocks_lock | intros ?; relock ]
  | |- relocks (S ?a) _ (bind bsp_display_unlock _) =>
      apply (relocks_bind (S a) a); [ apply relocks_unlock | intros ?; relock ]
  | |- relocks ?a _ (bind _ _) =>
      apply (relocks_bind a a); [ relock | intros ?; relock ]
  | |- relocks _ _ bsp_display_lock => apply relocks_lock
  | |- relocks _ _ bsp_display_unlock => apply relocks_unlock
  | |- relocks _ _ (ret _) => apply relocks_ret
  | |- relocks _ _ (gets _) => apply relocks_gets
  | |- relocks _ _ (modify _) => apply relocks_modify
  | |- relocks _ _ (emit _) => apply relocks_emit; exact I
  | |- relocks _ _ (lv_create _ _) => apply relocks_lv_create
  | |- relocks _ _ (when _ _) => apply relocks_when; relock
  | |- relocks _ _ (match ?x with _ => _ end) => destruct x; relock
  | |- relocks _ _ _ =>
      first
        [ solve [ apply relocks_lift; auto with relock nocore ]
        | progress unfold
            lv_display_get_default, esp_timer_get_time, lv_obj_create,
            lv_label_create, lv_btn_create, lv_spinner_create, lv_bar_create,
            icon_create, icon_set_type, lv_screen_load, lv_label_set_text,
            lv_bar_set_value, lv_obj_set_user_data, lv_obj_get_user_data,
            set_visible, vTaskDelay, call, locked, config_get, config_save,
            wifi_connect, wifi_start_softap, standby_screen_is_visible,
            launcher_is_visible, launcher_set_app_launch_callback,
            smart_response_app_show, dify_app_show;
          relock ]
  end.

Lemma relocks_standby_screen_update : relocks 0 0 standby_screen_update.
Proof. unfold standby_screen_update. relock. Qed.

Lemma relocks_standby_screen_init : relocks 0 0 standby_screen_init.
Proof. unfold standby_screen_init. relock. Qed.

#[local] Hint Resolve relocks_standby_screen_update relocks_standby_screen_init : relock.

Lemma relocks_standby_screen_show : relocks 0 0 standby_screen_show.
Proof. unfold standby_screen_show. relock. Qed.

Lemma relocks_standby_screen_hide : relocks 0 0 standby_screen_hide.
Proof. unfold standby_screen_hide. relock. Qed.

Lemma relocks_create_app_button parent label icon app x y :
  relocks 0 0 (create_app_button parent label icon app x y).
Proof. unfold create_app_button. relock. Qed.

#[local] Hint Resolve relocks_standby_screen_show relocks_standby_screen_hide
  relocks_create_app_button : relock.

Lemma relocks_launcher_init : relocks 0 0 launcher_init.
Proof. unfold launcher_init. relock. Qed.

#[local] Hint Resolve relocks_launcher_init : relock.

Lemma relocks_launcher_show : relocks 0 0 launcher_show.
Proof. unfold launcher_show. relock. Qed.

Lemma relocks_launcher_hide : relocks 0 0 launcher_hide.
Proof. unfold launcher_hide. relock. Qed.

(** Every early return of [loading_screen_init] that comes after the lock
    was taken is preceded by an unlock. *)
Lemma relocks_loading_screen_init : relocks 0 0 loading_screen_init.
Proof. unfold loading_screen_init. relock. Qed.

Lemma relocks_loading_screen_set_message msg :
  relocks 0 0 (loading_screen_set_message msg).
Proof. unfold loading_screen_set_message. relock. Qed.

Lemma relocks_loading_screen_set_progress percent :
  relocks 0 0 (loading_screen_set_progress percent).
Proof. unfold loading_screen_set_progress. relock. Qed.

#[local] Hint Resolve relocks_launcher_show relocks_launcher_hide
  relocks_loading_screen_init relocks_loading_screen_set_message
  relocks_loading_screen_set_progress : relock.

Lemma relocks_loading_screen_show : relocks 0 0 loading_screen_show.
Proof. unfold loading_screen_show. relock. Qed.

Lemma relocks_loading_screen_hide : relocks 0 0 loading_screen_hide.
Proof. unfold loading_screen_hide. relock. Qed.

Lemma relocks_loading_screen_update : relocks 0 0 loading_screen_update.
Proof. unfold loading_screen_update. relock. Qed.

#[local] Hint Resolve relocks_loading_screen_show relocks_loading_screen_hide
  relocks_loading_screen_update : relock.

Lemma relocks_pwr_button_callback : relocks 0 0 pwr_button_callback.
Proof. unfold pwr_button_callback. relock. Qed.

Lemma relocks_boot_button_callback : relocks 0 0 boot_button_callback.
Proof. unfold boot_button_callback. relock. Qed.

Lemma relocks_app_launch_callback a : relocks 0 0 (app_launch_callback a).
Proof. unfold app_launch_callback. relock. Qed.

Lemma relocks_call_AppLaunchCallback f a :
  relocks 0 0 (call_AppLaunchCallback f a).
Proof. destruct f. apply relocks_app_launch_callback. Qed.

#[local] Hint Resolve relocks_pwr_button_callback relocks_boot_button_callback
  relocks_app_launch_callback relocks_call_AppLaunchCallback : relock.

Lemma relocks_app_btn_event_cb e : relocks 0 0 (app_btn_event_cb e).
Proof. unfold app_btn_event_cb. relock. Qed.

Lemma relocks_standby_touch_event_cb e : relocks 0 0 (standby_touch_event_cb e).
Proof. unfold standby_touch_event_cb. relock. Qed.

Lemma relocks_main_task_network : relocks 0 0 main_task_network.
Proof. unfold main_task_network. relock. Qed.

#[local] Hint Resolve relocks_main_task_network : relock.

Lemma relocks_idle n : relocks 0 0 (idle n).
Proof. induction n; cbn [idle]; relock. Qed.

#[local] Hint Resolve relocks_idle : relock.

Lemma relocks_main_task n : relocks 0 0 (main_task n).
Proof. unfold main_task, main_task_boot. relock. Qed.

Lemma relocks_run_op o : relocks 0 0 (run_op o).
Proof. destruct o as [[]|[]| |]; cbn [run_op show hide]; auto with relock nocore. Qed.

Lemma relocks_run_ops ops : relocks 0 0 (run_ops ops).
Proof.
  induction ops as [|o ops IH]; cbn [run_ops]; [apply relocks_ret|].
  apply (relocks_bind 0 0); [apply relocks_run_op | intros _; exact IH].
Qed.

(** X1.  Every screen function releases the display lock as often as it
    takes it, and never releases a lock it does not hold: this holds for
    every sequence of show, hide and button operations, for the two
    touch handlers, for the three [init]s with all their early returns,
    and for [main_task]. *)
Theorem display_lock_released s d :
  (forall ops, lock_depth (trace (run_ops ops) s) d = Some d) /\
  (forall e, lock_depth (trace (standby_touch_event_cb e) s) d = Some d) /\
  (forall e, lock_depth (trace (app_btn_event_cb e) s) d = Some d) /\
  lock_depth (trace standby_screen_init s) d = Some d /\
  lock_depth (trace launcher_init s) d = Some d /\
  lock_depth (trace loading_screen_init s) d = Some d /\
  (forall n, lock_depth (trace (main_task n) s) d = Some d).
Proof.
  assert (H : forall A (m : M A), relocks 0 0 m -> lock_depth (trace m s) d = Some d).
  { intros A m Hm. specialize (Hm s d). now rewrite Nat.add_0_r in Hm. }
  repeat split; intros; apply H;
    auto using relocks_run_ops, relocks_standby_touch_event_cb,
      relocks_app_btn_event_cb, relocks_standby_screen_init,
      relocks_launcher_init, relocks_loading_screen_init, relocks_main_task.
Qed.

(** ** sd_storage.cpp *)

Lemma string_take_length n s :
  String.length (string_take n s) = Nat.min n (String.length s).
Proof.
  revert s; induction n as [|n IH]; intros [|c s]; cbn; try reflexivity.
  now rewrite IH.
Qed.

Lemma string_take_all n s : (String.length s <= n)%nat -> string_take n s = s.
Proof.
  revert s; induction n as [|n IH]; intros [|c s]; cbn; try reflexivity; try lia.
  intros H. rewrite IH; [reflexivity | lia].
Qed.

(** The path is the mount point and the first 119 characters of the
    name. *)
Lemma filepath_eq filename :
  filepath filename = "/sdcard/" +:+ string_take 119 filename.
Proof. reflexivity. Qed.

Lemma filepath_inj f1 f2 :
  filepath f1 = filepath f2 <-> string_take 119 f1 = string_take 119 f2.
Proof.
  rewrite !filepath_eq. split; [|intros ->; reflexivity].
  cbn. intros H. now inversion H.
Qed.

Lemma size_t_count len : 1 <= len < 2 ^ 32 ->
  Z.to_nat ((len - 1) mod 2 ^ 32) = Z.to_nat (len - 1).
Proof. intros H. rewrite Z.mod_small; [reflexivity | lia]. Qed.

(** What a save that opens its file leaves at the file's path. *)
Lemma saveConfig_file this filename data fs :
  _initialized this = true ->
  vfs_can_create fs (filepath filename) = true ->
  let written := Nat.min (String.length data) (vfs_room fs) in
  fst (SDStorage_saveConfig this filename data fs) = (written =? String.length data)%nat /\
  vfs_files (snd (SDStorage_saveConfig this filename data fs))
  = <[filepath filename := string_take written data]> (vfs_files fs).
Proof.
  intros Hi Hc. unfold SDStorage_saveConfig, vfs_write. rewrite Hi, Hc. cbn. auto.
Qed.

Lemma loadConfig_file this filename len fs content :
  _initialized this = true ->
  vfs_files fs !! filepath filename = Some content ->
  SDStorage_loadConfig this filename len fs
  = let bytes := string_take (Z.to_nat ((len - 1) mod 2 ^ 32)) content in
    ((0 <? String.length bytes)%nat, Some bytes).
Proof. intros Hi Hf. unfold SDStorage_loadConfig. now rewrite Hi, Hf. Qed.

(** A write under the name [f1] reaches the file of every name that has
    the same first 119 characters. *)
Lemma save_then_load this f1 f2 data len fs :
  _initialized this = true ->
  vfs_can_create fs (filepath f1) = true ->
  (String.length data <= vfs_room fs)%nat ->
  Z.of_nat (String.length data) < len < 2 ^ 32 ->
  string_take 119 f1 = string_take 119 f2 ->
  exists fs',
    SDStorage_saveConfig this f1 data fs = (true, fs') /\
    SDStorage_fileExists this f2 fs' = true /\
    SDStorage_loadConfig this f2 len fs'
    = ((0 <? String.length data)%nat, Some data).
Proof.
  intros Hi Hc Hroom Hlen Hname.
  destruct (saveConfig_file this f1 data fs Hi Hc) as [Hret Hfile].
  cbv zeta in Hret, Hfile. rewrite Nat.min_l in Hret, Hfile by exact Hroom.
  rewrite Nat.eqb_refl in Hret. rewrite string_take_all in Hfile by lia.
  destruct (SDStorage_saveConfig this f1 data fs) as [r fs']; cbn [fst snd] in Hret, Hfile.
  subst r. exists fs'. split; [reflexivity|].
  assert (Hf : vfs_files fs' !! filepath f2 = Some data).
  { rewrite Hfile, (proj2 (filepath_inj f1 f2) Hname).
    apply lookup_insert_eq. }
  split.
  - unfold SDStorage_fileExists. now rewrite Hi, Hf.
  - rewrite (loadConfig_file _ _ _ _ _ Hi Hf). cbv zeta.
    rewrite size_t_count by lia. rewrite string_take_all by lia. reflexivity.
Qed.

(** X2.  A configuration saved with [saveConfig] (the file can be opened,
    the card has room) is on the card, and [loadConfig] with a buffer longer
    than the data returns it byte for byte.  The return value of
    [loadConfig] is [read > 0]: an empty configuration is saved with
    success and loaded back with failure. *)
Theorem saveConfig_loadConfig this filename data len fs :
  _initialized this = true ->
  vfs_can_create fs (filepath filename) = true ->
  (String.length data <= vfs_room fs)%nat ->
  Z.of_nat (String.length data) < len < 2 ^ 32 ->
  exists fs',
    SDStorage_saveConfig this filename data fs = (true, fs') /\
    SDStorage_fileExists this filename fs' = true /\
    SDStorage_loadConfig this filename len fs'
    = ((0 <? String.length data)%nat, Some data).
Proof. intros Hi Hc Hroom Hlen. now apply save_then_load. Qed.

Lemma saveConfig_loadConfig_witness :
  exists fs',
    SDStorage_saveConfig sd_ready "wifi.cfg" "ssid=BE3600" (vfs_demo 1024) = (true, fs') /\
    SDStorage_fileExists sd_ready "wifi.cfg" fs' = true /\
    SDStorage_loadConfig sd_ready "wifi.cfg" 64 fs'
    = ((0 <? String.length "ssid=BE3600")%nat, Some "ssid=BE3600"%string).
Proof.
  apply (saveConfig_loadConfig sd_ready "wifi.cfg" "ssid=BE3600" 64 (vfs_demo 1024));
    [reflexivity | reflexivity | cbn; lia | cbn; lia].
Defined.

(** X3.  [loadConfig] never stores more than [len - 1] bytes, so that the
    terminating zero fits a buffer of [len >= 1] bytes: a file longer than
    that is cut to its first [len - 1] bytes, and the call returns true
    exactly when at least one byte was read. *)
Theorem loadConfig_fits_buffer this filename len fs content :
  _initialized this = true ->
  vfs_files fs !! filepath filename = Some content ->
  1 <= len < 2 ^ 32 ->
  exists bytes,
    SDStorage_loadConfig this filename len fs
    = (negb (String.eqb bytes ""), Some bytes) /\
    bytes = string_take (Z.to_nat (len - 1)) content /\
    Z.of_nat (String.length bytes) < len.
Proof.
  intros Hi Hf Hlen. exists (string_take (Z.to_nat (len - 1)) content).
  rewrite (loadConfig_file _ _ _ _ _ Hi Hf). cbv zeta.
  rewrite size_t_count by exact Hlen.
  split; [|split; [reflexivity|]].
  - now destruct (string_take (Z.to_nat (len - 1)) content).
  - rewrite string_take_length. lia.
Qed.

Lemma loadConfig_fits_buffer_witness :
  exists bytes,
    SDStorage_loadConfig sd_ready "wifi.cfg" 5
      (snd (SDStorage_saveConfig sd_ready "wifi.cfg" "ssid=BE3600" (vfs_demo 1024)))
    = (negb (String.eqb bytes ""), Some bytes) /\
    bytes = string_take (Z.to_nat (5 - 1)) "ssid=BE3600" /\
    Z.of_nat (String.length bytes) < 5.
Proof.
  apply (loadConfig_fits_buffer sd_ready "wifi.cfg" 5 _ "ssid=BE3600");
    [reflexivity | reflexivity | lia].
Defined.

(** X4.  [len] is a [size_t] and the count given to [fread] is [len - 1]:
    with [len = 0] the count wraps to [2^32 - 1], and a file of any
    smaller size is read in full whatever the size of the buffer. *)
Theorem loadConfig_zero_len this filename fs content :
  _initialized this = true ->
  vfs_files fs !! filepath filename = Some content ->
  Z.of_nat (String.length content) < 2 ^ 32 ->
  SDStorage_loadConfig this filename 0 fs
  = ((0 <? String.length content)%nat, Some content).
Proof.
  intros Hi Hf Hlen. rewrite (loadConfig_file _ _ _ _ _ Hi Hf). cbv zeta.
  rewrite string_take_all; [reflexivity|].
  change ((0 - 1) mod 2 ^ 32) with (2 ^ 32 - 1). lia.
Qed.

Lemma loadConfig_zero_len_witness :
  SDStorage_loadConfig sd_ready "wifi.cfg" 0
    (snd (SDStorage_saveConfig sd_ready "wifi.cfg" "ssid=BE3600" (vfs_demo 1024)))
  = ((0 <? String.length "ssid=BE3600")%nat, Some "ssid=BE3600"%string).
Proof.
  apply (loadConfig_zero_len sd_ready "wifi.cfg" _ "ssid=BE3600");
    [reflexivity | reflexivity | cbn; lia].
Defined.











(** X7.  A name longer than 119 characters is cut: what is saved under it
    is what every name with the same first 119 characters loads. *)
Theorem sd_long_names_collide this f1 f2 data len fs :
  _initialized this = true ->
  vfs_can_create fs (filepath f1) = true ->
  (String.length data <= vfs_room fs)%nat ->
  Z.of_nat (String.length data) < len < 2 ^ 32 ->
  string_take 119 f1 = string_take 119 f2 ->
  SDStorage_fileExists this f2 (snd (SDStorage_saveConfig this f1 data fs)) = true /\
  SDStorage_loadConfig this f2 len (snd (SDStorage_saveConfig this f1 data fs))
  = ((0 <? String.length data)%nat, Some data).
Proof.
  intros Hi Hc Hroom Hlen Hname.
  destruct (save_then_load this f1 f2 data len fs Hi Hc Hroom Hlen Hname)
    as (fs' & -> & He & Hl).
  now split.
Qed.

Lemma sd_long_names_collide_witness :
  SDStorage_fileExists sd_ready (long_name "-b.cfg")
    (snd (SDStorage_saveConfig sd_ready (long_name "-a.cfg") "ssid=BE3600" (vfs_demo 1024)))
  = true /\
  SDStorage_loadConfig sd_ready (long_name "-b.cfg") 64
    (snd (SDStorage_saveConfig sd_ready (long_name "-a.cfg") "ssid=BE3600" (vfs_demo 1024)))
  = ((0 <? String.length "ssid=BE3600")%nat, Some "ssid=BE3600"%string).
Proof.
  apply (sd_long_names_collide sd_ready (long_name "-a.cfg") (long_name "-b.cfg")
           "ssid=BE3600" 64 (vfs_demo 1024));
    [reflexivity | reflexivity | cbn; lia | cbn; lia | reflexivity].
Defined.



(** X9.  [deleteFile] on a file that exists returns true and removes it:
    afterwards [fileExists] and [loadConfig] return false, the buffer is
    not written, and a second [deleteFile] returns false and changes
    nothing. *)
Theorem deleteFile_removes this filename len fs :
  SDStorage_fileExists this filename fs = true ->
  exists fs',
    SDStorage_deleteFile this filename fs = (true, fs') /\
    SDStorage_fileExists this filename fs' = false /\
    SDStorage_loadConfig this filename len fs' = (false, None) /\
    SDStorage_deleteFile this filename fs' = (false, fs').
Proof.
  unfold SDStorage_fileExists, SDStorage_deleteFile, SDStorage_loadConfig, vfs_remove.
  destruct (_initialized this); cbn [negb]; [|discriminate].
  destruct (vfs_files fs !! filepath filename) as [c|] eqn:Hf; [|discriminate].
  intros _. eexists. split; [reflexivity|]. cbn [vfs_files].
  rewrite lookup_delete_eq. auto.
Qed.

Lemma deleteFile_removes_witness :
  exists fs',
    SDStorage_deleteFile sd_ready "wifi.cfg"
      (snd (SDStorage_saveConfig sd_ready "wifi.cfg" "ssid=BE3600" (vfs_demo 1024)))
    = (true, fs') /\
    SDStorage_fileExists sd_ready "wifi.cfg" fs' = false /\
    SDStorage_loadConfig sd_ready "wifi.cfg" 64 fs' = (false, None) /\
    SDStorage_deleteFile sd_ready "wifi.cfg" fs' = (false, fs').
Proof.
  apply (deleteFile_removes sd_ready "wifi.cfg" 64
           (snd (SDStorage_saveConfig sd_ready "wifi.cfg" "ssid=BE3600" (vfs_demo 1024))));
    reflexivity.
Defined.

(** ** i2c_bus_manager.cpp: sequences of calls *)

Section I2cRunFacts.
Variable driver : Type.
Variable new_bus : driver -> esp_result i2c_master_bus_handle_t * driver.
Variable add_device :
  i2c_master_bus_handle_t -> N -> driver ->
  esp_result i2c_master_dev_handle_t * driver.

Lemma i2c_run_cons o l (s : i2c_state driver) :
  i2c_run new_bus add_device (o :: l) s
  = i2c_run new_bus add_device l (i2c_run_op new_bus add_device o s).
Proof. reflexivity. Qed.

Lemma i2c_run_filled (l : list i2c_op) (s : i2c_state driver) h :
  s_i2c_bus_handle s = Some h ->
  s_i2c_bus_handle (i2c_run new_bus add_device l s) = Some h /\
  i2c_calls (i2c_run new_bus add_device l s) = i2c_calls s ++ i2c_device_calls h l.
Proof.
  revert s. induction l as [|o l IH]; intros s Hs.
  - cbn. now rewrite app_nil_r.
  - rewrite i2c_run_cons. destruct o as [|addr]; cbn [i2c_run_op i2c_device_calls omap].
    + rewrite (get_i2c_bus_handle_existing driver new_bus s h Hs). cbn [snd].
      now apply IH.
    + destruct (create_i2c_device_on_bus driver new_bus add_device s h addr Hs)
        as [H1 H2].
      destruct (IH _ H1) as [IH1 IH2]. split; [exact IH1|].
      rewrite IH2, H2, <- app_assoc. reflexivity.
Qed.

(** X10.  Once the slot holds a bus handle, no sequence of
    [get_i2c_bus_handle] and [create_i2c_device] calls replaces it or
    constructs another bus: the driver sees one [add_device] call per
    [create_i2c_device], each on that handle, in order, and nothing
    else. *)
Theorem i2c_run_on_bus (l : list i2c_op) (s : i2c_state driver) h :
  s_i2c_bus_handle s = Some h ->
  s_i2c_bus_handle (i2c_run new_bus add_device l s) = Some h /\
  i2c_calls (i2c_run new_bus add_device l s) = i2c_calls s ++ i2c_device_calls h l.
Proof. apply i2c_run_filled. Qed.

(** X11.  A bus that does not come up is not remembered as failed: with
    the slot empty and a driver whose [i2c_new_master_bus] fails, every
    [get_i2c_bus_handle] and every [create_i2c_device] tries the bus
    again, no device is ever added, and [create_i2c_device] returns
    null. *)
Theorem i2c_run_dead_bus (l : list i2c_op) (s : i2c_state driver) :
  (forall d, exists code, fst (new_bus d) = EspErr code) ->
  s_i2c_bus_handle s = None ->
  s_i2c_bus_handle (i2c_run new_bus add_device l s) = None /\
  i2c_calls (i2c_run new_bus add_device l s)
  = i2c_calls s ++ repeat CallNewMasterBus (length l) /\
  forall addr,
    fst (create_i2c_device new_bus add_device addr (i2c_run new_bus add_device l s))
    = None.
Proof.
  intros Hdead.
  assert (Hget : forall s0 : i2c_state driver, s_i2c_bus_handle s0 = None ->
            fst (get_i2c_bus_handle new_bus s0) = None /\
            s_i2c_bus_handle (snd (get_i2c_bus_handle new_bus s0)) = None /\
            i2c_calls (snd (get_i2c_bus_handle new_bus s0))
            = i2c_calls s0 ++ [CallNewMasterBus]).
  { intros s0 H0. unfold get_i2c_bus_handle. rewrite H0.
    destruct (Hdead (i2c_driver s0)) as [code Hc].
    destruct (new_bus (i2c_driver s0)) as [[h|c] d]; cbn in Hc; [discriminate|].
    cbn. auto. }
  assert (Hcreate : forall addr (s0 : i2c_state driver), s_i2c_bus_handle s0 = None ->
            create_i2c_device new_bus add_device addr s0
            = (None, snd (get_i2c_bus_handle new_bus s0))).
  { intros addr s0 H0. unfold create_i2c_device.
    destruct (Hget s0 H0) as [H1 _].
    destruct (get_i2c_bus_handle new_bus s0) as [b s1]. cbn in H1. now subst b. }
  revert s. induction l as [|o l IH]; intros s Hs.
  - cbn. rewrite app_nil_r. repeat split; [exact Hs|].
    intros addr. now rewrite Hcreate.
  - rewrite i2c_run_cons.
    assert (Hstep : s_i2c_bus_handle (i2c_run_op new_bus add_device o s) = None /\
                    i2c_calls (i2c_run_op new_bus add_device o s)
                    = i2c_calls s ++ [CallNewMasterBus]).
    { destruct o as [|addr]; cbn [i2c_run_op]; [|rewrite Hcreate by exact Hs; cbn [snd]];
        destruct (Hget s Hs) as (_ & H2 & H3); auto. }
    destruct Hstep as [H1 H2]. destruct (IH _ H1) as (IH1 & IH2 & IH3).
    split; [exact IH1|]. split; [|exact IH3].
    rewrite IH2, H2, <- app_assoc. reflexivity.
Qed.
End I2cRunFacts.

Lemma i2c_run_on_bus_witness :
  s_i2c_bus_handle
    (i2c_run demo_new_master_bus demo_add_device
       [I2cCreateDevice 81; I2cGetBus; I2cCreateDevice 104] i2c_ready) = Some 1%nat /\
  i2c_calls
    (i2c_run demo_new_master_bus demo_add_device
       [I2cCreateDevice 81; I2cGetBus; I2cCreateDevice 104] i2c_ready)
  = i2c_calls i2c_ready
    ++ i2c_device_calls 1%nat [I2cCreateDevice 81; I2cGetBus; I2cCreateDevice 104].
Proof.
  apply (i2c_run_on_bus unit demo_new_master_bus demo_add_device
           [I2cCreateDevice 81; I2cGetBus; I2cCreateDevice 104] i2c_ready 1%nat).
  reflexivity.
Defined.

Lemma i2c_run_dead_bus_witness :
  s_i2c_bus_handle
    (i2c_run dead_new_master_bus demo_add_device
       [I2cCreateDevice 81; I2cGetBus] i2c_reset) = None /\
  i2c_calls
    (i2c_run dead_new_master_bus demo_add_device
       [I2cCreateDevice 81; I2cGetBus] i2c_reset)
  = i2c_calls i2c_reset
    ++ repeat CallNewMasterBus (length [I2cCreateDevice 81; I2cGetBus]) /\
  forall addr,
    fst (create_i2c_device dead_new_master_bus demo_add_device addr
           (i2c_run dead_new_master_bus demo_add_device
              [I2cCreateDevice 81; I2cGetBus] i2c_reset))
    = None.
Proof.
  apply (i2c_run_dead_bus unit dead_new_master_bus demo_add_device
           [I2cCreateDevice 81; I2cGetBus] i2c_reset);
    [intros d; exists 263; reflexivity | reflexivity].
Defined.

(** ** main.cpp: [app_main] and [loop_task] *)


Section LoopTaskFacts.
Variable buttonHandler_handleButtons : M unit.
Variable batteryManager_update : M unit.
Variable wifi_handle : M unit.
Variable websocket_handle : M unit.
Variable audio_process : M unit.
Variable smart_response_app_is_running : M bool.
Variable smart_response_app_update : M unit.
Variable dify_app_is_running : M bool.
Variable dify_app_update : M unit.

Lemma loop_task_round_waits (s : state) :
  system_initialized s = false ->
  loop_task_round buttonHandler_handleButtons batteryManager_update wifi_handle
    websocket_handle audio_process smart_response_app_is_running
    smart_response_app_update dify_app_is_running dify_app_update s
  = Res tt s [EvDelay 100].
Proof.
  intros Hs. unfold loop_task_round.
  change (bind (gets system_initialized) ?k s) with (bind (ret (system_initialized s)) k s).
  rewrite Hs. reflexivity.
Qed.

(** X13.  Until [main_task] has set [system_initialized], [loop_task] does
    nothing but wait: whatever the button, battery, network, audio and
    application handlers would do, none of them runs, the state stays as
    it is and every round is one delay of 100 ms. *)
Theorem loop_task_waits (n : nat) (s : state) :
  system_initialized s = false ->
  loop_task buttonHandler_handleButtons batteryManager_update wifi_handle
    websocket_handle audio_process smart_response_app_is_running
    smart_response_app_update dify_app_is_running dify_app_update n s
  = Res tt s (repeat (EvDelay 100) n).
Proof.
  intros Hs. induction n as [|n IH]; [reflexivity|].
  cbn [loop_task repeat]. unfold bind.
  rewrite (loop_task_round_waits s Hs). cbn [val post evs].
  rewrite IH. reflexivity.
Qed.
End LoopTaskFacts.

Lemma loop_task_waits_witness :
  loop_task pwr_button_callback launcher_show standby_screen_show
    loading_screen_show launcher_hide (ret true) (smart_response_app_show)
    (ret true) dify_app_show 3 reset_state
  = Res tt reset_state (repeat (EvDelay 100) 3).
Proof.
  apply (loop_task_waits pwr_button_callback launcher_show standby_screen_show
           loading_screen_show launcher_hide (ret true) (smart_response_app_show)
           (ret true) dify_app_show 3 reset_state).
  reflexivity.
Defined.

(** ** The touch handler and the BOOT button *)

Lemma exec_seq {A B} (m : M A) (k : M B) s :
  exec (m ;; k) s = exec k (exec m s).
Proof. apply exec_bind. Qed.

Lemma bind_gets {A B} (f : state -> A) (k : A -> M B) s :
  (x <- gets f ;; k x) s = k (f s) s.
Proof. unfold bind, gets. cbn. now destruct (k (f s) s). Qed.

Lemma bind_ret {A B} (a : A) (k : A -> M B) s : (x <- ret a ;; k x) s = k a s.
Proof. unfold bind, ret. cbn. now destruct (k a s). Qed.

Lemma launcher_show_keeps_loading_flag s :
  visible Loading (exec launcher_show s) = visible Loading s.
Proof. apply (show_keeps_other Launcher Loading). discriminate. Qed.

Lemma launcher_show_keeps_standby_flag s :
  visible Standby (exec launcher_show s) = visible Standby s.
Proof. apply (show_keeps_other Launcher Standby). discriminate. Qed.

(** X14.  A click or a press on the Standby screen hides Standby and opens
    the Launcher: Standby's flag is cleared before the Launcher is shown,
    the Launcher's flag is set, its screen is the loaded one, and Loading's
    flag is not written; where Loading was hidden exactly one flag is set
    afterwards.  Any other event code does nothing at all. *)
Theorem standby_touch_opens_launcher e s :
  match ev_code e with
  | LV_EVENT_CLICKED | LV_EVENT_PRESSED =>
      visible Standby (exec (standby_touch_event_cb e) s) = false /\
      visible Launcher (exec (standby_touch_event_cb e) s) = true /\
      visible Loading (exec (standby_touch_event_cb e) s) = visible Loading s /\
      lv_act_scr (st_lv (exec (standby_touch_event_cb e) s))
      = launcher_screen (st_launcher (exec (standby_touch_event_cb e) s)) /\
      changes (trace (standby_touch_event_cb e) s)
      = EvVisible Standby false :: changes (trace launcher_show (exec standby_screen_hide s))
  | LV_EVENT_OTHER => standby_touch_event_cb e s = Res tt s []
  end.
Proof.
  unfold standby_touch_event_cb.
  destruct (ev_code e); [ | | reflexivity ];
    (rewrite exec_seq;
     split; [rewrite launcher_show_keeps_standby_flag; apply (hide_not_visible Standby)|];
     split; [apply launcher_show_visible|];
     split; [rewrite launcher_show_keeps_loading_flag;
             apply (hide_keeps_other Standby Loading); discriminate|];
     split; [apply launcher_show_loads | reflexivity]).
Qed.

Lemma boot_button_step s :
  visible Standby s = true ->
  visible Standby (exec boot_button_callback s) = true /\
  visible Launcher (exec boot_button_callback s) = negb (visible Launcher s) /\
  lv_act_scr (st_lv (exec boot_button_callback s))
  = if visible Launcher s
    then standby_screen (st_standby (exec boot_button_callback s))
    else launcher_screen (st_launcher (exec boot_button_callback s)).
Proof.
  intros Hs. rewrite boot_button_callback_cases.
  destruct (visible Launcher s) eqn:Hl.
  - destruct (launcher_hide_flags s) as (H1 & _ & H3).
    split; [exact H1|]. split; [exact H3|].
    rewrite launcher_hide_exec. cbn [st_lv st_standby with_launcher].
    apply standby_screen_show_loads.
  - rewrite Hs. split; [now rewrite launcher_show_keeps_standby_flag|].
    split; [apply launcher_show_visible | apply launcher_show_loads].
Qed.

Lemma boot_button_presses n s :
  visible Standby s = true ->
  visible Standby (exec (run_ops (repeat OpBootButton n)) s) = true /\
  visible Launcher (exec (run_ops (repeat OpBootButton n)) s)
  = xorb (Nat.odd n) (visible Launcher s) /\
  ((0 < n)%nat ->
   lv_act_scr (st_lv (exec (run_ops (repeat OpBootButton n)) s))
   = if visible Launcher (exec (run_ops (repeat OpBootButton n)) s)
     then launcher_screen (st_launcher (exec (run_ops (repeat OpBootButton n)) s))
     else standby_screen (st_standby (exec (run_ops (repeat OpBootButton n)) s))).
Proof.
  revert s. induction n as [|n IH]; intros s Hs.
  - cbn. split; [exact Hs|]. split; [reflexivity | lia].
  - cbn [repeat run_ops run_op]. rewrite exec_seq.
    destruct (boot_button_step s Hs) as (H1 & H2 & H3).
    destruct (IH _ H1) as (IH1 & IH2 & IH3).
    split; [exact IH1|]. split.
    + rewrite IH2, H2, Nat.odd_succ, <- Nat.negb_odd.
      now destruct (Nat.odd n), (visible Launcher s).
    + intros _. destruct n as [|n]; [|apply IH3; lia].
      cbn [repeat run_ops]. change (exec (ret tt) ?x) with x.
      rewrite H3, H2. now destruct (visible Launcher s).
Qed.

(** X15.  The BOOT button is a toggle.  From Standby (its flag set, the
    Launcher hidden) the presses open and close the Launcher in turn: after
    [n] presses the Launcher is visible exactly when [n] is odd, and the
    loaded screen is then the Launcher's, otherwise Standby's.  Standby's
    own flag stays set throughout, since no press clears it. *)
Theorem boot_button_toggles n s :
  visible Standby s = true ->
  visible Launcher s = false ->
  visible Launcher (exec (run_ops (repeat OpBootButton n)) s) = Nat.odd n /\
  visible Standby (exec (run_ops (repeat OpBootButton n)) s) = true /\
  ((0 < n)%nat ->
   lv_act_scr (st_lv (exec (run_ops (repeat OpBootButton n)) s))
   = if Nat.odd n
     then launcher_screen (st_launcher (exec (run_ops (repeat OpBootButton n)) s))
     else standby_screen (st_standby (exec (run_ops (repeat OpBootButton n)) s))).
Proof.
  intros Hs Hl. destruct (boot_button_presses n s Hs) as (H1 & H2 & H3).
  rewrite Hl, xorb_false_r in H2.
  split; [exact H2|]. split; [exact H1|].
  intros Hn. rewrite (H3 Hn), H2. reflexivity.
Qed.

Lemma boot_button_toggles_witness :
  visible Launcher (exec (run_ops (repeat OpBootButton 2)) booted_state) = Nat.odd 2 /\
  visible Standby (exec (run_ops (repeat OpBootButton 2)) booted_state) = true /\
  ((0 < 2)%nat ->
   lv_act_scr (st_lv (exec (run_ops (repeat OpBootButton 2)) booted_state))
   = if Nat.odd 2
     then launcher_screen (st_launcher (exec (run_ops (repeat OpBootButton 2)) booted_state))
     else standby_screen (st_standby (exec (run_ops (repeat OpBootButton 2)) booted_state))).
Proof.
  apply (boot_button_toggles 2 booted_state); vm_compute; reflexivity.
Defined.

(** X16.  A click on an application button while no launch callback is
    installed starts no application, and still closes the Launcher and
    shows Standby: the handler does what [launcher_hide] does, no more. *)
Theorem app_click_without_callback s target :
  s_app_launch_callback (st_launcher s) = None ->
  trace (app_btn_event_cb (click target)) s = trace launcher_hide s /\
  exec (app_btn_event_cb (click target)) s = exec launcher_hide s /\
  dispatches (trace (app_btn_event_cb (click target)) s) = 0%nat /\
  visible Launcher (exec (app_btn_event_cb (click target)) s) = false /\
  visible Standby (exec (app_btn_event_cb (click target)) s) = true.
Proof.
  intros Hcb.
  assert (Hrun : app_btn_event_cb (click target) s = launcher_hide s).
  { unfold app_btn_event_cb. cbn [ev_code ev_target click].
    unfold lv_obj_get_user_data. rewrite !bind_gets, Hcb. apply bind_ret. }
  unfold trace, exec. rewrite Hrun.
  split; [reflexivity|]. split; [reflexivity|].
  split; [apply launcher_hide_dispatches|].
  destruct (launcher_hide_flags s) as (H1 & _ & H3). auto.
Qed.

Lemma app_click_without_callback_witness :
  trace (app_btn_event_cb (click (Some 19%nat))) reset_state = trace launcher_hide reset_state /\
  exec (app_btn_event_cb (click (Some 19%nat))) reset_state = exec launcher_hide reset_state /\
  dispatches (trace (app_btn_event_cb (click (Some 19%nat))) reset_state) = 0%nat /\
  visible Launcher (exec (app_btn_event_cb (click (Some 19%nat))) reset_state) = false /\
  visible Standby (exec (app_btn_event_cb (click (Some 19%nat))) reset_state) = true.
Proof.
  apply (app_click_without_callback reset_state (Some 19%nat)). reflexivity.
Defined.

(** ** The application buttons *)

(** With room for its eight objects, the first [launcher_show] builds the
    two buttons and stores their application as user data. *)
Lemma launcher_show_builds s :
  launcher_screen (st_launcher s) = None ->
  (8 <= lv_mem (st_lv s))%nat ->
  app_smart_response (st_launcher (exec launcher_show s))
  = Some (S (S (lv_next (st_lv s)))) /\
  app_dify (st_launcher (exec launcher_show s))
  = Some (S (S (S (S (S (lv_next (st_lv s))))))) /\
  lv_user_data (st_lv (exec launcher_show s))
  = <[S (S (S (S (S (lv_next (st_lv s)))))) := APP_DIFY_XIAOZHI]>
      (<[S (S (lv_next (st_lv s))) := APP_SMART_RESPONSE]> (lv_user_data (st_lv s))) /\
  s_app_launch_callback (st_launcher (exec launcher_show s))
  = s_app_launch_callback (st_launcher s).
Proof.
  destruct s as [[disp mem nxt act bars ud] env [scr b1 b2 cb vis] sb lo cfg ini].
  cbn [st_launcher st_lv launcher_screen lv_mem lv_next lv_user_data s_app_launch_callback].
  intros -> Hmem.
  destruct mem as [|[|[|[|[|[|[|[|mem]]]]]]]]; try lia.
  repeat split.
Qed.

Lemma app_shows_of_click s btn a f :
  lv_user_data (st_lv s) !! btn = Some a ->
  s_app_launch_callback (st_launcher s) = Some f ->
  List.filter is_app_show (trace (app_btn_event_cb (click (Some btn))) s) = [EvAppShow a].
Proof.
  intros Hud Hcb.
  destruct (app_btn_event_cb_click s btn a f Hud Hcb) as [Ht _]. rewrite Ht.
  cbn [List.filter is_app_show]. f_equal.
  apply length_zero_iff_nil. apply launcher_hide_dispatches.
Qed.

(** X17.  Each application button starts its own application.  When the
    Launcher is built by its first [launcher_show], with room for its
    eight objects, the two buttons are two different objects, and with a
    launch callback installed a click on the first shows the Smart
    Response application and a click on the second the Dify application,
    each exactly once. *)
Theorem launcher_buttons_launch_their_app s f :
  launcher_screen (st_launcher s) = None ->
  (8 <= lv_mem (st_lv s))%nat ->
  s_app_launch_callback (st_launcher s) = Some f ->
  exists b1 b2,
    app_smart_response (st_launcher (exec launcher_show s)) = Some b1 /\
    app_dify (st_launcher (exec launcher_show s)) = Some b2 /\
    b1 <> b2 /\
    List.filter is_app_show
      (trace (app_btn_event_cb (click (Some b1))) (exec launcher_show s))
    = [EvAppShow APP_SMART_RESPONSE] /\
    List.filter is_app_show
      (trace (app_btn_event_cb (click (Some b2))) (exec launcher_show s))
    = [EvAppShow APP_DIFY_XIAOZHI].
Proof.
  intros Hscr Hmem Hcb.
  destruct (launcher_show_builds s Hscr Hmem) as (H1 & H2 & Hud & Hcb').
  rewrite Hcb in Hcb'.
  exists (S (S (lv_next (st_lv s)))), (S (S (S (S (S (lv_next (st_lv s))))))).
  split; [exact H1|]. split; [exact H2|]. split; [lia|].
  split; apply (app_shows_of_click _ _ _ f); try exact Hcb'; rewrite Hud.
  - rewrite lookup_insert_ne by lia. apply lookup_insert_eq.
  - apply lookup_insert_eq.
Qed.

Lemma launcher_buttons_launch_their_app_witness :
  exists b1 b2,
    app_smart_response (st_launcher (exec launcher_show booted_state)) = Some b1 /\
    app_dify (st_launcher (exec launcher_show booted_state)) = Some b2 /\
    b1 <> b2 /\
    List.filter is_app_show
      (trace (app_btn_event_cb (click (Some b1))) (exec launcher_show booted_state))
    = [EvAppShow APP_SMART_RESPONSE] /\
    List.filter is_app_show
      (trace (app_btn_event_cb (click (Some b2))) (exec launcher_show booted_state))
    = [EvAppShow APP_DIFY_XIAOZHI].
Proof.
  apply (launcher_buttons_launch_their_app booted_state main_app_launch_callback).
  - vm_compute; reflexivity.
  - vm_compute. lia.
  - vm_compute; reflexivity.
Defined.

(** ** The periodic updates *)




Lemma loading_screen_update_silent s : trace loading_screen_update s = [].
Proof.
  unfold trace, loading_screen_update, esp_timer_get_time.
  rewrite !bind_gets.
  destruct (negb (loading_visible (st_loading s)) || is_null (loading_screen (st_loading s)));
    [reflexivity|].
  rewrite !bind_gets.
  now destruct (Z.quot (esp_timer_us (st_env s)) 1000 - last_spinner_update (st_loading s) >? 16).
Qed.

Lemma loading_screen_update_angle s :
  spinner_angle (st_loading (exec loading_screen_update s)) = spinner_angle (st_loading s) \/
  spinner_angle (st_loading (exec loading_screen_update s))
  = (if (spinner_angle (st_loading s) + 5) mod 2 ^ 32 >=? 360 then 0
     else (spinner_angle (st_loading s) + 5) mod 2 ^ 32).
Proof.
  unfold exec, loading_screen_update, esp_timer_get_time.
  rewrite !bind_gets.
  destruct (negb (loading_visible (st_loading s)) || is_null (loading_screen (st_loading s)));
    [now left|].
  rewrite !bind_gets.
  destruct (Z.quot (esp_timer_us (st_env s)) 1000 - last_spinner_update (st_loading s) >? 16);
    [right | now left].
  reflexivity.
Qed.

Lemma spinner_step_in_range a :
  0 <= a < 360 ->
  0 <= (if (a + 5) mod 2 ^ 32 >=? 360 then 0 else (a + 5) mod 2 ^ 32) < 360 /\
  (a mod 5 = 0 -> (if (a + 5) mod 2 ^ 32 >=? 360 then 0 else (a + 5) mod 2 ^ 32) mod 5 = 0).
Proof.
  intros Ha. rewrite (Z.mod_small (a + 5)) by lia.
  destruct (a + 5 >=? 360) eqn:E.
  - split; [lia | reflexivity].
  - split; [lia|]. intros Hm.
    rewrite <- Zplus_mod_idemp_l, Hm. reflexivity.
Qed.

(** X19.  [loading_screen_update] keeps the spinner angle within
    [0, 360): whenever it is called and however often, an angle in that
    range stays in it, a multiple of 5 stays one, and the function emits
    nothing: it takes no lock and calls neither LVGL nor the display. *)
Theorem spinner_angle_in_range ts s :
  0 <= spinner_angle (st_loading s) < 360 ->
  0 <= spinner_angle (st_loading (exec (at_times loading_screen_update ts) s)) < 360 /\
  (spinner_angle (st_loading s) mod 5 = 0 ->
   spinner_angle (st_loading (exec (at_times loading_screen_update ts) s)) mod 5 = 0) /\
  trace (at_times loading_screen_update ts) s = [].
Proof.
  revert s. induction ts as [|t ts IH]; intros s Ha.
  - cbn. auto.
  - cbn [at_times]. rewrite !exec_seq, !trace_bind, loading_screen_update_silent.
    change (trace (modify (with_timer t)) s) with (@nil event).
    change (exec (modify (with_timer t)) s) with (with_timer t s).
    set (s1 := exec loading_screen_update (with_timer t s)).
    assert (H1 : 0 <= spinner_angle (st_loading s1) < 360 /\
                 (spinner_angle (st_loading s) mod 5 = 0 ->
                  spinner_angle (st_loading s1) mod 5 = 0)).
    { subst s1. destruct (loading_screen_update_angle (with_timer t s)) as [-> | ->];
        change (st_loading (with_timer t s)) with (st_loading s);
        [auto | now apply spinner_step_in_range]. }
    destruct H1 as [H1 H1']. destruct (IH s1 H1) as (I1 & I2 & I3).
    split; [exact I1|]. split; [auto | exact I3].
Qed.

Lemma spinner_angle_in_range_witness :
  0 <= spinner_angle
         (st_loading (exec (at_times loading_screen_update [5020000; 5040000])
                        (exec loading_screen_show reset_state))) < 360 /\
  (spinner_angle (st_loading (exec loading_screen_show reset_state)) mod 5 = 0 ->
   spinner_angle
     (st_loading (exec (at_times loading_screen_update [5020000; 5040000])
                    (exec loading_screen_show reset_state))) mod 5 = 0) /\
  trace (at_times loading_screen_update [5020000; 5040000])
    (exec loading_screen_show reset_state) = [].
Proof.
  apply (spinner_angle_in_range [5020000; 5040000] (exec loading_screen_show reset_state)).
  vm_compute. split; [discriminate | reflexivity].
Defined.

(** ** The progress bar during boot *)

Lemma bar_values_app t1 t2 : bar_values (t1 ++ t2) = bar_values t1 ++ bar_values t2.
Proof. unfold bar_values. now rewrite List.filter_app, List.map_app. Qed.

Lemma climbs_le lo hi l : climbs lo hi l -> lo <= hi.
Proof.
  revert lo. induction l as [|v l IH]; intros lo; cbn; [auto|].
  intros [H1 H2]. specialize (IH _ H2). lia.
Qed.

Lemma climbs_from lo lo' hi l : lo' <= lo -> climbs lo hi l -> climbs lo' hi l.
Proof. destruct l as [|v l]; cbn; [lia | intros ? [? ?]; split; [lia | assumption]]. Qed.

Lemma climbs_app lo mid hi l1 l2 :
  climbs lo mid l1 -> climbs mid hi l2 -> climbs lo hi (l1 ++ l2).
Proof.
  revert lo. induction l1 as [|v l1 IH]; intros lo; cbn [app climbs].
  - intros H1 H2. now apply (climbs_from mid).
  - intros [H1 H2] H3. split; [exact H1 | now apply IH].
Qed.

(** The values are sorted and within the bounds. *)
Lemma climbs_sorted lo hi l :
  climbs lo hi l -> Sorted.StronglySorted Z.le l /\ List.Forall (fun v => lo <= v <= hi) l.
Proof.
  revert lo. induction l as [|v l IH]; intros lo; cbn [climbs].
  - intros _. split; constructor.
  - intros [H1 H2]. destruct (IH _ H2) as [I1 I2].
    pose proof (climbs_le _ _ _ H2) as Hv.
    split; constructor; try assumption; try lia.
    + eapply List.Forall_impl; [|exact I2]. cbn. intros; lia.
    + eapply List.Forall_impl; [|exact I2]. cbn. intros; lia.
Qed.

Section ReportRules.

Lemma reports_silent {A} lo hi (m : M A) : silent is_bar m -> lo <= hi -> reports lo hi m.
Proof. intros H Hle s. unfold bar_values. rewrite (H s). exact Hle. Qed.

Lemma reports_bind {A B} lo mid hi (m : M A) (k : A -> M B) :
  reports lo mid m -> (forall a, reports mid hi (k a)) -> reports lo hi (x <- m ;; k x).
Proof.
  intros Hm Hk s. rewrite trace_bind, bar_values_app.
  eapply climbs_app; [apply Hm | apply Hk].
Qed.

Lemma reports_loading_screen_set_progress lo hi percent :
  lo <= clamp_percent percent <= hi ->
  reports lo hi (loading_screen_set_progress percent).
Proof.
  intros H s. unfold trace, loading_screen_set_progress. rewrite bind_gets.
  destruct (progress_bar (st_loading s)); cbn; lia.
Qed.

Lemma reports_locked lo hi m : reports lo hi m -> reports lo hi (locked m).
Proof.
  intros H s. unfold locked. rewrite !trace_bind, !bar_values_app.
  change (bar_values (trace bsp_display_lock s)) with (@nil Z).
  change (bar_values (trace bsp_display_unlock ?x)) with (@nil Z).
  cbn [app]. rewrite app_nil_r. apply H.
Qed.

End ReportRules.

Lemma silent_bar_standby_screen_show : silent is_bar standby_screen_show.
Proof. unfold standby_screen_show, standby_screen_init, standby_screen_update. frame. Qed.

Lemma silent_bar_loading_screen_set_message msg :
  silent is_bar (loading_screen_set_message msg).
Proof. unfold loading_screen_set_message. frame. Qed.

Lemma silent_bar_main_task_network : silent is_bar main_task_network.
Proof.
  unfold main_task_network, config_get, config_save, wifi_connect, wifi_start_softap.
  frame.
Qed.

Lemma silent_bar_idle n : silent is_bar (idle n).
Proof. induction n; cbn [idle]; frame. Qed.

Lemma silent_bar_loading_screen_hide : silent is_bar loading_screen_hide.
Proof. unfold loading_screen_hide. frame. Qed.

Lemma silent_bar_launcher_set_app_launch_callback cb :
  silent is_bar (launcher_set_app_launch_callback cb).
Proof. unfold launcher_set_app_launch_callback. frame. Qed.

#[local] Hint Resolve silent_bar_standby_screen_show silent_bar_loading_screen_set_message
  silent_bar_main_task_network silent_bar_idle silent_bar_loading_screen_hide
  silent_bar_launcher_set_app_launch_callback : frame.

(** [loading_screen_init] gives the bar the value 0, if it gets as far. *)
Lemma reports_loading_screen_init : reports 0 0 loading_screen_init.
Proof.
  intros s. unfold trace, loading_screen_init, lv_display_get_default.
  rewrite !bind_gets.
  destruct (negb (is_null (loading_screen (st_loading s)))); [cbn; lia|].
  rewrite bind_gets.
  destruct (negb (lv_display_default (st_lv s))); [cbn; lia|].
  destruct s as [[disp mem nxt act bars ud] env la sb lo cfg ini].
  destruct mem as [|[|[|[|[|[|mem]]]]]]; cbn; lia.
Qed.

Lemma reports_loading_screen_show : reports 0 0 loading_screen_show.
Proof.
  unfold loading_screen_show.
  apply (reports_bind 0 0 0); [apply reports_silent; [solve [frame] | lia] | intros scr].
  apply (reports_bind 0 0 0);
    [unfold when; destruct (is_null scr);
     [apply reports_loading_screen_init | apply reports_silent; [solve [frame] | lia]] | intros _].
  apply (reports_bind 0 0 0); [apply reports_silent; [solve [frame] | lia] | intros scr'].
  destruct (is_null scr'); [apply reports_silent; [solve [frame] | lia]|].
  apply (reports_bind 0 0 0); [apply reports_silent; [solve [frame] | lia] | intros disp].
  destruct (negb disp); [apply reports_silent; [solve [frame] | lia]|].
  repeat (apply (reports_bind 0 0 0); [apply reports_silent; [solve [frame] | lia] | intros ?]).
  apply (reports_bind 0 0 0);
    [apply reports_loading_screen_set_progress; cbn; lia
    | intros _; apply reports_silent; [solve [frame] | lia]].
Qed.

Ltac climb :=
  lazymatch goal with
  | |- reports ?lo ?hi (bind (locked (loading_screen_set_progress ?p)) _) =>
      apply (reports_bind lo p hi);
      [ apply reports_locked, reports_loading_screen_set_progress; cbn; lia
      | intros ?; climb ]
  | |- reports ?lo ?hi (bind (locked (bind (loading_screen_set_message _) _)) _) =>
      apply (reports_bind lo 10 hi);
      [ apply reports_locked, (reports_bind lo lo 10);
        [ apply reports_silent; [solve [frame] | lia]
        | intros ?; apply reports_loading_screen_set_progress; cbn; lia ]
      | intros ?; climb ]
  | |- reports ?lo ?hi (bind (locked (bind (loading_screen_set_progress ?p) _)) _) =>
      apply (reports_bind lo p hi);
      [ apply reports_locked, (reports_bind lo p p);
        [ apply reports_loading_screen_set_progress; cbn; lia
        | intros ?; apply reports_silent; [solve [frame] | lia] ]
      | intros ?; climb ]
  | |- reports ?lo ?hi (bind loading_screen_init _) =>
      apply (reports_bind lo 0 hi); [ apply reports_loading_screen_init | intros ?; climb ]
  | |- reports ?lo ?hi (bind (locked loading_screen_show) _) =>
      apply (reports_bind lo 0 hi);
      [ apply reports_locked, reports_loading_screen_show | intros ?; climb ]
  | |- reports ?lo ?hi (bind _ _) =>
      apply (reports_bind lo lo hi);
      [ apply reports_silent; [solve [frame] | lia] | intros ?; climb ]
  | |- reports _ _ _ => apply reports_silent; [solve [frame] | lia]
  end.

Lemma reports_main_task_boot : reports 0 100 main_task_boot.
Proof. unfold main_task_boot. climb. Qed.

Lemma reports_main_task n : reports 0 100 (main_task n).
Proof.
  unfold main_task. apply (reports_bind 0 100 100); [apply reports_main_task_boot|].
  intros _. apply reports_silent; [solve [frame] | lia].
Qed.

(** X20.  The progress shown during boot never goes back.  Whatever the
    state [main_task] starts in, the values it gives to the progress bar
    are in ascending order and lie between 0 and 100. *)
Theorem boot_progress_ascends n s :
  Sorted.StronglySorted Z.le (bar_values (trace (main_task n) s)) /\
  List.Forall (fun v => 0 <= v <= 100) (bar_values (trace (main_task n) s)).
Proof. apply climbs_sorted, reports_main_task. Qed.

(** ** The end of boot *)

Lemma keeps_progress_lv_create k parent : keeps progress_or_100 (lv_create k parent).
Proof. intros s. unfold exec, lv_create. now destruct (lv_mem (st_lv s)). Qed.

#[local] Hint Resolve keeps_progress_lv_create : frame.

Lemma keeps_progress_standby_screen_show : keeps progress_or_100 standby_screen_show.
Proof. unfold standby_screen_show, standby_screen_init, standby_screen_update. frame. Qed.

Lemma keeps_progress_loading_screen_hide : keeps progress_or_100 loading_screen_hide.
Proof. unfold loading_screen_hide. frame. Qed.

Lemma keeps_idle {B} (f : state -> B) n : keeps f (idle n).
Proof. induction n; cbn [idle]; frame. Qed.

#[local] Hint Resolve keeps_progress_standby_screen_show
  keeps_progress_loading_screen_hide keeps_idle : frame.

Lemma progress_100_set :
  sets progress_or_100 (Some 100)
    (locked (loading_screen_set_progress 100 ;; loading_screen_set_message "就绪！")).
Proof.
  intros s. unfold locked. rewrite !exec_seq.
  change (exec bsp_display_unlock ?x) with x.
  assert (K : keeps progress_or_100 (loading_screen_set_message "就绪！"))
    by (unfold loading_screen_set_message; frame).
  rewrite K. clear K.
  change (exec bsp_display_lock s) with s.
  unfold exec, loading_screen_set_progress. rewrite bind_gets.
  unfold progress_or_100.
  destruct (progress_bar (st_loading s)) as [b|] eqn:E; cbn; rewrite E;
    [apply lookup_insert_eq | reflexivity].
Qed.

Lemma main_task_progress_100 n : sets progress_or_100 (Some 100) (main_task n).
Proof.
  unfold main_task. apply sets_bind_now; [|intros _; apply keeps_idle].
  unfold main_task_boot. sets_at ltac:(apply progress_100_set). frame.
Qed.

(** X21.  Boot ends at 100 percent: when [main_task] has set
    [system_initialized], a progress bar that exists holds the value
    100, whatever the state boot started in. *)
Theorem boot_progress_ends_at_100 n s b :
  progress_bar (st_loading (exec (main_task n) s)) = Some b ->
  lv_bar_value (st_lv (exec (main_task n) s)) !! b = Some 100.
Proof.
  intros Hb. pose proof (main_task_progress_100 n s) as H.
  unfold progress_or_100 in H. now rewrite Hb in H.
Qed.

Lemma boot_progress_ends_at_100_witness :
  lv_bar_value (st_lv (exec (main_task 0) reset_state)) !! 6%nat = Some 100.
Proof.
  apply (boot_progress_ends_at_100 0 reset_state 6%nat). vm_compute; reflexivity.
Defined.

Section EnsuresRules.
Variable P : state -> Prop.

Lemma ensures_bind_later {A B} (m : M A) (k : A -> M B) :
  (forall a, ensures P (k a)) -> ensures P (x <- m ;; k x).
Proof. intros H s. rewrite exec_bind. apply H. Qed.

Lemma ensures_bind_now {A B} (m : M A) (k : A -> M B) :
  ensures P m -> (forall a s, P s -> P (exec (k a) s)) -> ensures P (x <- m ;; k x).
Proof. intros Hm Hk s. rewrite exec_bind. apply Hk, Hm. Qed.

End EnsuresRules.

Ltac ensures_last :=
  lazymatch goal with
  | |- ensures _ (bind _ (fun _ => bind _ _)) =>
      apply ensures_bind_later; intros ?; ensures_last
  | |- ensures _ (bind _ _) => idtac
  end.

(** The last two steps of boot: Standby is shown under the lock, then the
    flag is set. *)
Lemma main_task_boot_ends (P : state -> Prop) :
  (forall s, P (set_system_initialized true (exec standby_screen_show s))) ->
  ensures P main_task_boot.
Proof.
  intros H. unfold main_task_boot. ensures_last.
  intros s. rewrite exec_seq. unfold locked. rewrite !exec_seq.
  change (exec bsp_display_unlock ?x) with x.
  apply H.
Qed.

Lemma main_task_ends (P : state -> Prop) n :
  (forall s, P (set_system_initialized true (exec standby_screen_show s))) ->
  ensures P (main_task n).
Proof.
  intros H s. unfold main_task. rewrite exec_seq.
  assert (K : keeps (fun s : state => s) (idle n)) by apply keeps_idle.
  rewrite K. now apply main_task_boot_ends.
Qed.

Lemma main_task_installs_callback n :
  sets (fun s => s_app_launch_callback (st_launcher s)) (Some main_app_launch_callback)
    (main_task n).
Proof.
  unfold main_task. apply sets_bind_now; [|intros _; apply keeps_idle].
  unfold main_task_boot.
  sets_at ltac:(intros ?; reflexivity).
  assert (K : keeps (fun s => s_app_launch_callback (st_launcher s)) loading_screen_hide)
    by (unfold loading_screen_hide; frame).
  frame.
Qed.

Lemma main_task_keeps_launcher_flag n : keeps (visible Launcher) (main_task n).
Proof.
  assert (K1 : keeps (visible Launcher) loading_screen_hide)
    by (unfold loading_screen_hide; frame).
  assert (K2 : keeps (visible Launcher) main_task_network)
    by (unfold main_task_network, config_get, config_save, wifi_connect, wifi_start_softap;
        frame).
  assert (K3 : forall cb, keeps (visible Launcher) (launcher_set_app_launch_callback cb))
    by (intros cb; unfold launcher_set_app_launch_callback; frame).
  unfold main_task. apply keeps_bind; [|intros _; apply keeps_idle].
  unfold main_task_boot. frame.
Qed.

(** X22.  Boot hands over to Standby.  When [main_task] reaches its idle
    loop, from any state, the launch callback is installed, Loading is
    hidden, Standby is visible, the loaded screen is Standby's screen
    object, and the Launcher's flag is as it was: the visible screens are
    Standby and, if it was visible before, the Launcher, so that a boot
    that starts with the Launcher hidden ends with exactly one. *)
Theorem boot_ends_in_standby n s :
  s_app_launch_callback (st_launcher (exec (main_task n) s))
  = Some main_app_launch_callback /\
  visible Loading (exec (main_task n) s) = false /\
  visible Standby (exec (main_task n) s) = true /\
  lv_act_scr (st_lv (exec (main_task n) s))
  = standby_screen (st_standby (exec (main_task n) s)) /\
  visible Launcher (exec (main_task n) s) = visible Launcher s /\
  visible_count (exec (main_task n) s) = (1 + Nat.b2n (visible Launcher s))%nat.
Proof.
  destruct (main_task_shows_standby n s) as [Hsb Hlo].
  pose proof (main_task_keeps_launcher_flag n s) as Hla.
  split; [apply main_task_installs_callback|].
  split; [exact Hlo|]. split; [exact Hsb|].
  split; [|split; [exact Hla|]].
  - apply (main_task_ends
             (fun s' => lv_act_scr (st_lv s') = standby_screen (st_standby s'))).
    intros s0. cbn [set_system_initialized st_lv st_standby].
    apply standby_screen_show_loads.
  - rewrite visible_count_flags, Hsb, Hlo, Hla. now destruct (visible Launcher s).
Qed.

(** ** Boot without a display *)

Lemma keeps_display_lv_create k parent :
  keeps (fun s => lv_display_default (st_lv s)) (lv_create k parent).
Proof. intros s. unfold exec, lv_create. now destruct (lv_mem (st_lv s)). Qed.

#[local] Hint Resolve keeps_display_lv_create : frame.

Lemma keeps_display_standby_screen_show :
  keeps (fun s => lv_display_default (st_lv s)) standby_screen_show.
Proof. unfold standby_screen_show, standby_screen_init, standby_screen_update. frame. Qed.

Lemma keeps_main_task_network {B} (f : state -> B) :
  (forall g s, f (with_config g s) = f s) -> keeps f main_task_network.
Proof.
  intros H. unfold main_task_network, config_get, config_save, wifi_connect,
    wifi_start_softap. frame.
Qed.

Lemma keeps_launcher_set_app_launch_callback {B} (f : state -> B) cb :
  ignores_launcher f -> keeps f (launcher_set_app_launch_callback cb).
Proof. intros H. unfold launcher_set_app_launch_callback. frame. Qed.

Section QuietRules.
Variable I : state -> Prop.
Variable p : event -> bool.

Lemma quiet_under_bind {A B} (m : M A) (k : A -> M B) :
  quiet_under I p m -> (forall a, quiet_under I p (k a)) ->
  quiet_under I p (x <- m ;; k x).
Proof.
  intros Hm Hk s Hs. destruct (Hm s Hs) as [H1 H2].
  destruct (Hk (val (m s)) _ H1) as [H3 H4].
  rewrite exec_bind, trace_bind, List.filter_app, H2, H4. auto.
Qed.

(** What does nothing in a state where [I] holds is quiet under [I]. *)
Lemma quiet_under_noop {A} (m : M A) :
  (forall s, I s -> exec m s = s /\ trace m s = []) -> quiet_under I p m.
Proof. intros H s Hs. destruct (H s Hs) as [-> ->]. auto. Qed.

End QuietRules.

Lemma quiet_frame {A} p (m : M A) :
  keeps st_loading m -> keeps (fun s => lv_display_default (st_lv s)) m ->
  silent p m -> quiet_under no_loading p m.
Proof.
  intros K1 K2 K3 s [H1 H2]. unfold no_loading. now rewrite K1, K2, K3.
Qed.

Lemma no_loading_cases s :
  no_loading s ->
  exists mem nxt act bars ud env la sb cfg ini,
    s = {| st_lv := {| lv_display_default := false; lv_mem := mem; lv_next := nxt;
                       lv_act_scr := act; lv_bar_value := bars; lv_user_data := ud |};
           st_env := env; st_launcher := la; st_standby := sb;
           st_loading := loading_vars0; st_config := cfg; system_initialized := ini |}.
Proof.
  destruct s as [[disp mem nxt act bars ud] env la sb lo cfg ini].
  intros [H1 H2]. cbn in H1, H2. subst. now eexists _, _, _, _, _, _, _, _, _, _.
Qed.

Ltac no_loading_noop :=
  apply quiet_under_noop; intros s Hs;
  destruct (no_loading_cases s Hs) as (? & ? & ? & ? & ? & ? & ? & ? & ? & ? & ->);
  split; reflexivity.

Lemma quiet_loading_screen_init p : quiet_under no_loading p loading_screen_init.
Proof. no_loading_noop. Qed.

Lemma quiet_loading_screen_show p : quiet_under no_loading p loading_screen_show.
Proof. no_loading_noop. Qed.

Lemma quiet_loading_screen_set_message p msg :
  quiet_under no_loading p (loading_screen_set_message msg).
Proof. no_loading_noop. Qed.

Lemma quiet_loading_screen_set_progress p percent :
  quiet_under no_loading p (loading_screen_set_progress percent).
Proof. no_loading_noop. Qed.

(** Loading's flag is false already: the assignment changes nothing. *)
Lemma quiet_loading_screen_hide : quiet_under no_loading is_bar loading_screen_hide.
Proof.
  intros s Hs.
  destruct (no_loading_cases s Hs) as (? & ? & ? & ? & ? & ? & ? & ? & ? & ? & ->).
  split; [split|]; reflexivity.
Qed.

Create HintDb quiet.
#[local] Hint Resolve quiet_loading_screen_init quiet_loading_screen_show
  quiet_loading_screen_set_message quiet_loading_screen_set_progress
  quiet_loading_screen_hide : quiet.
#[local] Hint Extern 1 (keeps _ main_task_network) =>
  (apply keeps_main_task_network; intros ? ?; reflexivity) : frame.
#[local] Hint Extern 1 (keeps _ (launcher_set_app_launch_callback _)) =>
  (apply keeps_launcher_set_app_launch_callback; intros ? ?; reflexivity) : frame.
#[local] Hint Resolve keeps_display_standby_screen_show : frame.

Ltac quiet :=
  lazymatch goal with
  | |- quiet_under _ _ (bind _ _) =>
      apply quiet_under_bind; [ quiet | intros ?; quiet ]
  | |- quiet_under _ _ (locked _) => unfold locked; quiet
  | |- quiet_under _ _ _ =>
      first [ solve [ auto with quiet nocore ]
            | apply quiet_frame; solve [ frame ] ]
  end.

Lemma quiet_main_task n : quiet_under no_loading is_bar (main_task n).
Proof.
  unfold main_task. apply quiet_under_bind.
  - unfold main_task_boot. quiet.
  - intros _. apply quiet_frame; [apply keeps_idle | apply keeps_idle | apply silent_bar_idle].
Qed.

(** X23.  Without a display the Loading screen is left alone for the whole
    of boot.  When [bsp_display_start] has failed and nothing of the
    Loading screen is built, [main_task] builds none of it: the variables
    of loading_screen.cpp keep their reset values, no progress bar is
    given a value, and boot still runs to the end, where
    [system_initialized] is set. *)
Theorem boot_without_display n s :
  lv_display_default (st_lv s) = false ->
  st_loading s = loading_vars0 ->
  st_loading (exec (main_task n) s) = loading_vars0 /\
  bar_values (trace (main_task n) s) = [] /\
  system_initialized (exec (main_task n) s) = true.
Proof.
  intros Hd Hl. destruct (quiet_main_task n s (conj Hd Hl)) as [[_ H1] H2].
  split; [exact H1|]. split; [|apply main_task_completes].
  unfold bar_values. now rewrite H2.
Qed.

Lemma boot_without_display_witness :
  st_loading (exec (main_task 0) reset_no_display) = loading_vars0 /\
  bar_values (trace (main_task 0) reset_no_display) = [] /\
  system_initialized (exec (main_task 0) reset_no_display) = true.
Proof.
  apply (boot_without_display 0 reset_no_display); reflexivity.
Defined.

(** ** A Loading screen that could not be built in full *)

(** The Loading screen object exists, the progress bar does not. *)
Lemma loading_screen_init_partial s :
  loading_screen (st_loading s) = None ->
  progress_bar (st_loading s) = None ->
  lv_display_default (st_lv s) = true ->
  (0 < lv_mem (st_lv s) < 6)%nat ->
  is_null (loading_screen (st_loading (exec loading_screen_init s))) = false /\
  progress_bar (st_loading (exec loading_screen_init s)) = None.
Proof.
  destruct s as [[disp mem nxt act bars ud] env la sb [scr lg ml sp pb vis ang lsu] cfg ini].
  cbn [st_loading st_lv loading_screen progress_bar lv_display_default lv_mem].
  intros -> -> -> Hmem.
  destruct mem as [|[|[|[|[|[|mem]]]]]]; try lia; split; reflexivity.
Qed.

Lemma loading_screen_show_built {B} (f : state -> B) s :
  ignores_lv f ->
  (forall v s, f (with_loading (set_loading_visible v) s) = f s) ->
  (forall v s, f (with_loading (set_last_spinner_update v) s) = f s) ->
  is_null (loading_screen (st_loading s)) = false ->
  f (exec loading_screen_show s) = f s.
Proof.
  intros H1 H2 H3 Hs. unfold exec, loading_screen_show.
  rewrite bind_gets, Hs. unfold when. rewrite bind_ret, bind_gets, Hs.
  assert (K : forall scr,
             keeps f (disp <- lv_display_get_default ;;
                      if negb disp then ret tt else
                      bsp_display_lock ;;
                      lv_screen_load scr ;;
                      set_visible Loading true ;;
                      now <- esp_timer_get_time ;;
                      modify (with_loading (set_last_spinner_update (Z.quot now 1000))) ;;
                      loading_screen_set_message "初始化中..." ;;
                      loading_screen_set_progress 0 ;;
                      bsp_display_unlock)).
  { intros scr.
    assert (K1 : forall p, keeps f (loading_screen_set_progress p))
      by (intros p; now apply keeps_loading_screen_set_progress).
    frame. }
  apply K.
Qed.

Lemma run_op_keeps_partial o s :
  loading_built s = (false, None) ->
  loading_built (exec (run_op o) s) = (false, None).
Proof.
  intros H. rewrite <- H.
  assert (Ksb : keeps loading_built standby_screen_show)
    by (apply keeps_standby_screen_show; intros ? ?; reflexivity).
  assert (Kla : keeps loading_built launcher_show)
    by (apply keeps_launcher_show; intros ? ?; reflexivity).
  assert (Klh : keeps loading_built launcher_hide)
    by (apply keeps_launcher_hide; intros ? ?; reflexivity).
  destruct o as [[]|[]| |]; cbn [run_op show hide].
  - apply Ksb.
  - apply loading_screen_show_built; try (intros ? ?; reflexivity).
    now inversion H.
  - apply Kla.
  - reflexivity.
  - reflexivity.
  - apply Klh.
  - rewrite pwr_button_callback_cases.
    destruct (visible Standby s); [apply Kla|].
    destruct (visible Launcher s); [apply Klh | reflexivity].
  - rewrite boot_button_callback_cases.
    destruct (visible Launcher s); [apply Klh|].
    destruct (visible Standby s); [apply Kla | reflexivity].
Qed.

Lemma run_ops_keeps_partial ops s :
  loading_built s = (false, None) ->
  loading_built (exec (run_ops ops) s) = (false, None).
Proof.
  revert s. induction ops as [|o ops IH]; intros s H; [exact H|].
  cbn [run_ops]. rewrite exec_seq. apply IH. now apply run_op_keeps_partial.
Qed.

(** X24.  A Loading screen that could not be built in full stays as it
    is.  When [loading_screen_init] runs out of LVGL memory after the
    screen object and before the progress bar, the screen object is kept
    and the bar is null; no later show, hide or button press builds the
    bar, even when memory has become free again, since [init] returns at
    once for a screen object that exists: [loading_screen_set_progress]
    then does nothing. *)
Theorem loading_partial_init_is_final s k ops percent :
  loading_screen (st_loading s) = None ->
  progress_bar (st_loading s) = None ->
  lv_display_default (st_lv s) = true ->
  (0 < lv_mem (st_lv s) < 6)%nat ->
  let s' := exec (run_ops ops) (lv_free k (exec loading_screen_init s)) in
  is_null (loading_screen (st_loading s')) = false /\
  progress_bar (st_loading s') = None /\
  loading_screen_set_progress percent s' = Res tt s' [].
Proof.
  intros Hscr Hbar Hdisp Hmem s'.
  destruct (loading_screen_init_partial s Hscr Hbar Hdisp Hmem) as [H1 H2].
  assert (H : loading_built s' = (false, None)).
  { apply run_ops_keeps_partial. unfold loading_built.
    change (st_loading (lv_free k ?x)) with (st_loading x). now rewrite H1, H2. }
  inversion H as [[H3 H4]].
  split; [reflexivity|]. split; [reflexivity|].
  unfold loading_screen_set_progress. rewrite bind_gets, H4. reflexivity.
Qed.

Lemma loading_partial_init_is_final_witness :
  is_null
    (loading_screen
       (st_loading
          (exec (run_ops [OpShow Loading; OpHide Loading; OpShow Loading])
             (lv_free 50 (exec loading_screen_init
                            (initial_state (env_demo false) true 3 ∅))))))
  = false /\
  progress_bar
    (st_loading
       (exec (run_ops [OpShow Loading; OpHide Loading; OpShow Loading])
          (lv_free 50 (exec loading_screen_init
                         (initial_state (env_demo false) true 3 ∅)))))
  = None /\
  loading_screen_set_progress 40
    (exec (run_ops [OpShow Loading; OpHide Loading; OpShow Loading])
       (lv_free 50 (exec loading_screen_init
                      (initial_state (env_demo false) true 3 ∅))))
  = Res tt
      (exec (run_ops [OpShow Loading; OpHide Loading; OpShow Loading])
         (lv_free 50 (exec loading_screen_init
                        (initial_state (env_demo false) true 3 ∅)))) [].
Proof.
  apply (loading_partial_init_is_final (initial_state (env_demo false) true 3 ∅) 50
           [OpShow Loading; OpHide Loading; OpShow Loading] 40);
    [reflexivity | reflexivity | reflexivity | cbn; lia].
Defined.

(** ** What the screen operations leave alone *)

Lemma silent_net_launcher_show : silent is_net launcher_show.
Proof. unfold launcher_show, launcher_init, create_app_button. frame. Qed.

Lemma silent_net_loading_screen_hide : silent is_net loading_screen_hide.
Proof. unfold loading_screen_hide. frame. Qed.

Lemma silent_net_standby_screen_hide : silent is_net standby_screen_hide.
Proof. unfold standby_screen_hide. frame. Qed.

#[local] Hint Resolve silent_net_launcher_show silent_net_loading_screen_hide
  silent_net_standby_screen_hide : frame.

Lemma silent_net_launcher_hide : silent is_net launcher_hide.
Proof. unfold launcher_hide. frame. Qed.

#[local] Hint Resolve silent_net_launcher_hide : frame.

Lemma silent_net_run_op o : silent is_net (run_op o).
Proof.
  destruct o as [[]|[]| |]; cbn [run_op show hide]; try solve [auto with frame nocore];
    unfold pwr_button_callback, boot_button_callback, standby_screen_is_visible,
      launcher_is_visible; frame.
Qed.

Section ScreenFootprint.
Context {B : Type} (f : state -> B).
Hypothesis f_lv : ignores_lv f.
Hypothesis f_standby : ignores_standby f.
Hypothesis f_loading : ignores_loading f.
Hypothesis f_launcher :
  forall g s,
    (forall l, s_app_launch_callback (g l) = s_app_launch_callback l) ->
    f (with_launcher g s) = f s.

Lemma keeps_launcher_show_but_callback : keeps f launcher_show.
Proof.
  unfold launcher_show, launcher_init, create_app_button. frame; reflexivity.
Qed.

Lemma keeps_launcher_hide_but_callback : keeps f launcher_hide.
Proof.
  unfold launcher_hide. apply keeps_bind.
  - unfold set_visible. frame; reflexivity.
  - intros _. now apply keeps_standby_screen_show.
Qed.

Lemma keeps_run_op_but_callback o : keeps f (run_op o).
Proof.
  pose proof keeps_launcher_show_but_callback as K1.
  pose proof keeps_launcher_hide_but_callback as K2.
  destruct o as [[]|[]| |]; cbn [run_op show hide].
  - now apply keeps_standby_screen_show.
  - now apply keeps_loading_screen_show.
  - exact K1.
  - now apply keeps_standby_screen_hide.
  - now apply keeps_loading_screen_hide.
  - exact K2.
  - intros s. rewrite pwr_button_callback_cases.
    destruct (visible Standby s); [apply K1|].
    destruct (visible Launcher s); [apply K2 | reflexivity].
  - intros s. rewrite boot_button_callback_cases.
    destruct (visible Launcher s); [apply K2|].
    destruct (visible Standby s); [apply K1 | reflexivity].
Qed.

Lemma keeps_run_ops_but_callback ops : keeps f (run_ops ops).
Proof.
  induction ops as [|o ops IH]; cbn [run_ops]; [apply keeps_ret|].
  apply keeps_bind; [apply keeps_run_op_but_callback | intros _; exact IH].
Qed.

End ScreenFootprint.

Lemma silent_net_run_ops ops : silent is_net (run_ops ops).
Proof.
  induction ops as [|o ops IH]; cbn [run_ops]; [apply silent_ret|].
  apply silent_bind; [apply silent_net_run_op | intros _; exact IH].
Qed.

(** X25.  Showing and hiding screens and pressing buttons touches nothing
    but the screens: no sequence of such operations changes the stored
    configuration, what is read from the surroundings, the
    [system_initialized] flag or the installed launch callback, and none
    makes a network call. *)
Theorem screen_ops_leave_rest_alone ops s :
  st_config (exec (run_ops ops) s) = st_config s /\
  st_env (exec (run_ops ops) s) = st_env s /\
  system_initialized (exec (run_ops ops) s) = system_initialized s /\
  s_app_launch_callback (st_launcher (exec (run_ops ops) s))
  = s_app_launch_callback (st_launcher s) /\
  net_events (trace (run_ops ops) s) = [].
Proof.
  split; [|split; [|split; [|split]]].
  - apply (keeps_run_ops_but_callback st_config); try red; intros; reflexivity.
  - apply (keeps_run_ops_but_callback st_env); try red; intros; reflexivity.
  - apply (keeps_run_ops_but_callback system_initialized); try red; intros; reflexivity.
  - apply (keeps_run_ops_but_callback (fun s => s_app_launch_callback (st_launcher s)));
      try (try red; intros; reflexivity).
    intros g s0 Hg. apply Hg.
  - apply silent_net_run_ops.
Qed.

(** ** Loading is shown on a built screen only *)

Lemma loading_screen_show_safely s :
  loading_shown_safely s = true -> loading_shown_safely (exec loading_screen_show s) = true.
Proof.
  destruct s as [[disp mem nxt act bars ud] env la sb [scr lg ml sp pb vis ang lsu] cfg ini].
  unfold loading_shown_safely. cbn [visible st_loading st_lv loading_visible loading_screen
    lv_display_default].
  destruct disp, scr as [o|], vis, ml as [m|], pb as [b|];
    cbn [implb negb is_null andb]; intros H; try discriminate H;
    try reflexivity;
    destruct mem as [|[|[|[|[|[|mem]]]]]]; reflexivity.
Qed.

Lemma run_op_shown_safely o s :
  loading_shown_safely s = true -> loading_shown_safely (exec (run_op o) s) = true.
Proof.
  assert (F : forall (m : M unit),
             keeps st_loading m -> keeps (fun s => lv_display_default (st_lv s)) m ->
             forall s, loading_shown_safely (exec m s) = loading_shown_safely s).
  { intros m K1 K2 s0. unfold loading_shown_safely, visible. now rewrite K1, K2. }
  assert (Ksb : forall s, loading_shown_safely (exec standby_screen_show s)
                          = loading_shown_safely s).
  { apply F; [apply keeps_standby_screen_show; intros ? ?; reflexivity
             | apply keeps_display_standby_screen_show]. }
  assert (Kla : forall s, loading_shown_safely (exec launcher_show s)
                          = loading_shown_safely s).
  { apply F; [apply keeps_launcher_show; intros ? ?; reflexivity|].
    unfold launcher_show, launcher_init, create_app_button. frame. }
  assert (Klh : forall s, loading_shown_safely (exec launcher_hide s)
                          = loading_shown_safely s).
  { intros s0. rewrite launcher_hide_exec.
    change (loading_shown_safely (with_launcher ?g ?x)) with (loading_shown_safely x).
    apply Ksb. }
  intros H. destruct o as [[]|[]| |]; cbn [run_op show hide].
  - now rewrite Ksb.
  - now apply loading_screen_show_safely.
  - now rewrite Kla.
  - exact H.
  - unfold loading_shown_safely. reflexivity.
  - now rewrite Klh.
  - rewrite pwr_button_callback_cases.
    destruct (visible Standby s); [now rewrite Kla|].
    destruct (visible Launcher s); [now rewrite Klh | exact H].
  - rewrite boot_button_callback_cases.
    destruct (visible Launcher s); [now rewrite Klh|].
    destruct (visible Standby s); [now rewrite Kla | exact H].
Qed.

(** X26.  Loading is never flagged visible without a display and a screen
    object: in every state reached from reset by show, hide and button
    operations, [loading_visible] implies that the display is there and
    [loading_screen] is not null, so that [loading_screen_show] never
    gives a null screen to [lv_screen_load]. *)
Theorem loading_visible_is_built e disp mem cfg ops :
  visible Loading (exec (run_ops ops) (initial_state e disp mem cfg)) = true ->
  is_null (loading_screen
             (st_loading (exec (run_ops ops) (initial_state e disp mem cfg)))) = false /\
  lv_display_default (st_lv (exec (run_ops ops) (initial_state e disp mem cfg))) = true.
Proof.
  assert (H : forall s, loading_shown_safely s = true ->
                        loading_shown_safely (exec (run_ops ops) s) = true).
  { induction ops as [|o ops IH]; intros s Hs; [exact Hs|].
    cbn [run_ops]. rewrite exec_seq. apply IH. now apply run_op_shown_safely. }
  specialize (H (initial_state e disp mem cfg) eq_refl).
  unfold loading_shown_safely in H. intros Hv. rewrite Hv in H. cbn [implb] in H.
  apply andb_true_iff in H. destruct H as [H1 H2].
  split; [|exact H2]. now destruct (is_null _).
Qed.

Lemma loading_visible_is_built_witness :
  is_null (loading_screen
             (st_loading (exec (run_ops [OpShow Loading; OpPwrButton])
                            (initial_state (env_demo false) true 100 ∅)))) = false /\
  lv_display_default
    (st_lv (exec (run_ops [OpShow Loading; OpPwrButton])
              (initial_state (env_demo false) true 100 ∅))) = true.
Proof.
  apply (loading_visible_is_built (env_demo false) true 100 ∅ [OpShow Loading; OpPwrButton]).
  vm_compute; reflexivity.
Defined.

(** ** The LVGL objects the screens take *)

Lemma builds_only_bind {A B} (m : M A) (k : A -> M B) :
  builds_only m -> (forall a, builds_only (k a)) -> builds_only (x <- m ;; k x).
Proof.
  intros Hm Hk s. rewrite exec_bind.
  destruct (Hm s) as [H1 H2]. destruct (Hk (val (m s)) (exec m s)) as [H3 H4]. lia.
Qed.

Lemma builds_only_keeps {A} (m : M A) :
  keeps (fun s => (lv_mem (st_lv s), built_objects s)) m -> builds_only m.
Proof. intros K s. specialize (K s). inversion K as [[K1 K2]]. rewrite K1, K2. lia. Qed.

Lemma builds_only_standby_screen_init : builds_only standby_screen_init.
Proof.
  intros [[disp mem nxt act bars ud] env [lscr b1 b2 cb lvis]
          [scr tl dl bl bi wi sl vis lu] [oscr lg ml sp pb ovis ang lsu] cfg ini].
  destruct scr as [o|]; [cbn; lia|].
  destruct lscr, oscr;
    (destruct mem as [|[|[|[|[|[|[|mem]]]]]]]; cbn; lia).
Qed.

Lemma builds_only_launcher_init : builds_only launcher_init.
Proof.
  intros [[disp mem nxt act bars ud] env [lscr b1 b2 cb lvis]
          [scr tl dl bl bi wi sl vis lu] [oscr lg ml sp pb ovis ang lsu] cfg ini].
  destruct lscr as [o|]; [cbn; lia|].
  destruct scr, oscr;
    (destruct mem as [|[|[|[|[|[|[|[|mem]]]]]]]]; cbn; lia).
Qed.

Lemma builds_only_loading_screen_init : builds_only loading_screen_init.
Proof.
  intros [[disp mem nxt act bars ud] env [lscr b1 b2 cb lvis]
          [scr tl dl bl bi wi sl vis lu] [oscr lg ml sp pb ovis ang lsu] cfg ini].
  destruct oscr as [o|]; [cbn; lia|].
  destruct disp; [|cbn; lia].
  destruct scr, lscr;
    (destruct mem as [|[|[|[|[|[|mem]]]]]]; cbn; lia).
Qed.

Create HintDb builds.
#[local] Hint Resolve builds_only_standby_screen_init builds_only_launcher_init
  builds_only_loading_screen_init : builds.

Ltac builds :=
  lazymatch goal with
  | |- builds_only (bind _ _) => apply builds_only_bind; [ builds | intros ?; builds ]
  | |- builds_only (when ?c _) => unfold when; destruct c; builds
  | |- builds_only (if ?c then _ else _) => destruct c; builds
  | |- builds_only _ =>
      first [ solve [ auto with builds nocore ]
            | apply builds_only_keeps; solve [ frame ] ]
  end.

Lemma builds_only_standby_screen_show : builds_only standby_screen_show.
Proof. unfold standby_screen_show. builds. Qed.

Lemma builds_only_launcher_show : builds_only launcher_show.
Proof. unfold launcher_show. builds. Qed.

Lemma builds_only_loading_screen_show : builds_only loading_screen_show.
Proof.
  unfold loading_screen_show, loading_screen_set_message, loading_screen_set_progress.
  builds.
Qed.

#[local] Hint Resolve builds_only_standby_screen_show builds_only_launcher_show
  builds_only_loading_screen_show : builds.

Lemma builds_only_launcher_hide : builds_only launcher_hide.
Proof. unfold launcher_hide. builds. Qed.

#[local] Hint Resolve builds_only_launcher_hide : builds.

Lemma builds_only_run_op o : builds_only (run_op o).
Proof.
  destruct o as [[]|[]| |]; cbn [run_op show hide];
    unfold standby_screen_hide, loading_screen_hide,
      pwr_button_callback, boot_button_callback, standby_screen_is_visible,
      launcher_is_visible;
    builds.
Qed.

Lemma builds_only_run_ops ops : builds_only (run_ops ops).
Proof.
  induction ops as [|o ops IH]; cbn [run_ops].
  - apply builds_only_keeps, keeps_ret.
  - apply builds_only_bind; [apply builds_only_run_op | intros _; exact IH].
Qed.

Lemma built_objects_le_21 s : (built_objects s <= 21)%nat.
Proof.
  unfold built_objects.
  destruct (is_null (standby_screen (st_standby s))),
    (is_null (loading_screen (st_loading s))),
    (is_null (launcher_screen (st_launcher s))); lia.
Qed.

(** X27.  Moving between the screens does not use up the LVGL heap: every
    screen is built once.  Over any sequence of show, hide and button
    operations, from any state, the heap loses at most the objects of the
    screens that were not built before (7 for Standby, 6 for Loading, 8 for
    the Launcher), 21 objects at most however long the sequence; with all
    three screens built it loses none. *)
Theorem screens_are_built_once ops s :
  (lv_mem (st_lv (exec (run_ops ops) s)) <= lv_mem (st_lv s))%nat /\
  (lv_mem (st_lv s) + built_objects s <= lv_mem (st_lv (exec (run_ops ops) s)) + 21)%nat /\
  (built_objects s = 21%nat ->
   lv_mem (st_lv (exec (run_ops ops) s)) = lv_mem (st_lv s)).
Proof.
  destruct (builds_only_run_ops ops s) as [H1 H2].
  pose proof (built_objects_le_21 (exec (run_ops ops) s)).
  repeat split; lia.
Qed.

Section I2cLazy.
Variable driver : Type.
Variable new_bus : driver -> esp_result i2c_master_bus_handle_t * driver.
Variable add_device :
  i2c_master_bus_handle_t -> N -> driver ->
  esp_result i2c_master_dev_handle_t * driver.

(** X28.  The bus is constructed on first use, and once.  With the slot
    empty and a driver whose [i2c_new_master_bus] succeeds with the handle
    [h], a sequence of [get_i2c_bus_handle] and [create_i2c_device] calls
    that is not empty makes one [i2c_new_master_bus] call, before anything
    else, and then one [add_device] call on [h] per [create_i2c_device],
    in order; the slot holds [h] at the end.  This holds whether the
    devices answer or not. *)
Theorem i2c_bus_constructed_once (o : i2c_op) (l : list i2c_op) (s : i2c_state driver) h :
  (forall d, fst (new_bus d) = EspOk h) ->
  s_i2c_bus_handle s = None ->
  s_i2c_bus_handle (i2c_run new_bus add_device (o :: l) s) = Some h /\
  i2c_calls (i2c_run new_bus add_device (o :: l) s)
  = i2c_calls s ++ CallNewMasterBus :: i2c_device_calls h (o :: l).
Proof.
  intros Hbus Hs. rewrite i2c_run_cons.
  destruct (get_i2c_bus_handle_empty driver new_bus s Hs) as [Hcalls Hget].
  rewrite Hbus in Hget. destruct Hget as [Hret Hslot].
  assert (Hstep : s_i2c_bus_handle (i2c_run_op new_bus add_device o s) = Some h /\
                  i2c_calls (i2c_run_op new_bus add_device o s)
                  = i2c_calls s ++ CallNewMasterBus :: i2c_device_calls h [o]).
  { destruct o as [|addr]; cbn [i2c_run_op i2c_device_calls omap].
    - now rewrite Hslot, Hcalls.
    - rewrite create_i2c_device_slot, Hslot. split; [reflexivity|].
      unfold create_i2c_device.
      destruct (get_i2c_bus_handle new_bus s) as [b s1].
      cbn [fst snd] in Hret, Hcalls. subst b.
      destruct (add_device h addr (i2c_driver s1)) as [[dev|code] d];
        cbn [snd i2c_calls]; rewrite Hcalls, <- app_assoc; reflexivity. }
  destruct Hstep as [H1 H2].
  destruct (i2c_run_filled driver new_bus add_device l _ h H1) as [H3 H4].
  split; [exact H3|]. rewrite H4, H2, <- app_assoc.
  destruct o; reflexivity.
Qed.
End I2cLazy.

Lemma i2c_bus_constructed_once_witness :
  s_i2c_bus_handle
    (i2c_run demo_new_master_bus demo_add_device
       (I2cCreateDevice 81 :: [I2cGetBus; I2cCreateDevice 104]) i2c_reset) = Some 1%nat /\
  i2c_calls
    (i2c_run demo_new_master_bus demo_add_device
       (I2cCreateDevice 81 :: [I2cGetBus; I2cCreateDevice 104]) i2c_reset)
  = i2c_calls i2c_reset
    ++ CallNewMasterBus
       :: i2c_device_calls 1%nat (I2cCreateDevice 81 :: [I2cGetBus; I2cCreateDevice 104]).
Proof.
  apply (i2c_bus_constructed_once unit demo_new_master_bus demo_add_device
           (I2cCreateDevice 81) [I2cGetBus; I2cCreateDevice 104] i2c_reset 1%nat);
    [intros d; reflexivity | reflexivity].
Defined.

(** ** Showing a screen twice *)









